(* ===== verification/_CoqProject ===== *)
-Q . S2P
Prelude.v
Models.v
Http.v
Fixtures.v
Authz.v
Api.v
Forms.v
Console.v
Commands.v
Urls.v
System.v
Interleaving.v
Threads.v
Schedules.v
