(* ===== verification/Prelude.v ===== *)
(** * A verification development of the machine_test_novi task manager

    The program (src/core) is a Django back end in which three tiers of
    users (superadmin, admin, user) manage accounts and tasks through a
    server-rendered console (admin_views.py, admin_urls.py) and a JSON API
    (api_views.py, api_urls.py, serializers.py).  Its data lives in two
    ORM models (models.py): [User], extending Django's AbstractUser with a
    [role] and a self-referential [admin] foreign key, and [Task], with a
    foreign key [assigned_to] to User, a [status] and the completion fields
    [completion_report] / [worked_hours].  Two management commands
    (management/commands/) create admin and superadmin accounts.

    ** Layout (files in dependency order)

    - [Prelude]   (this file): the early-exit monad in which every view
      is written, Python string helpers ([str.strip], the NUL test of
      the [CharField] validators), the hint database
      [taskdb], the tactic [early_inv] and the generic lemmas on maps and
      options the components share.
    - [Models]    models.py: [Role], [task_status] and their string choices,
      the [User] and [Task] records, the store [DB] (two [gmap]s keyed by
      primary key, the pk counters, the session table and a clock for
      [date_joined]) and the ORM operations the views call
      ([objects.filter], [save], [delete] with its CASCADE / SET_NULL
      collector); the store invariant [db_wf] (foreign keys, counters,
      distinct join dates, unique usernames), the constraints the
      database itself enforces ([db_constraints]) and the invariants the
      specification states ([spec_invariants]).
    - [Http]      the request / response vocabulary shared by both access
      surfaces (JSON values of [request.data], form data of [request.POST],
      [Response], [HttpResponseForbidden], [redirect], [render]) and the
      class [Platform] of external collaborators the views call but which
      are not in this repository (password hashing and the unusable
      password, Python's [int()], Django's date parsing and username /
      password / email validators), with one
      concrete instance [test_platform] used by the witnesses.
    - [Fixtures]  a sample store (a superadmin, two admins, two users,
      three tasks, three sessions) and request builders.
    - [Authz]     the decorators of admin_views.py ([login_required],
      [admin_or_super_required], [superadmin_required]), the identity
      lookup of both surfaces, the per-admin ownership test
      [task.assigned_to.admin != user], and the abstract authorization
      contract of the specification ([Spec.can]) against which the views'
      guards are proved.
    - [Api]       serializers.py and api_views.py: DRF field validation of
      [TaskUpdateSerializer] ([ChoiceField], [CharField] with whitespace
      trimming and its NUL validator, [IntegerField] with its range),
      [TaskList.get], [TaskUpdate.put] with its completion gate,
      [TaskReport.get].
    - [Forms]     the ModelForms of admin_views.py ([TaskForm],
      [CustomUserCreationForm], [CustomUserChangeForm]) with Django's field
      cleaning and the model checks ([limit_choices_to], unique username).
    - [Console]   the views of admin_views.py, each under its decorator:
      login / logout (sessions as a table of the store), dashboard, the
      user views and the task views.
    - [Commands]  management/commands: [createadminuser] and
      [createsuperadminuser] (its two [try] blocks apart).  The input of a
      command ([Stdin]) is the list of typed lines, each [input()] taking
      the next one ([EOFError] past the end), whether stdin is a terminal,
      and the [DJANGO_SUPERUSER_*] variables.  Django's [createsuperuser],
      which [createsuperadminuser] calls, is modelled from its
      [handle()]: the skip when stdin is not a terminal, the username,
      email and password prompts as loops over the typed lines
      ([prompt_username], [prompt_email], [prompt_password], structural
      on the list), the non-interactive branch, and [create_superuser]'s
      row with a hashed or unusable password.
    - [Urls]      admin_urls.py and api_urls.py, each table a function from
      its routes to its views, and [dispatch] over both.
    - [System]    the whole program as a transition system: a step is a
      request to a route or a successful command; [run] folds a list of
      events; [reachable] stores are those reached from the empty
      database.  Preservation is proved per handler for any relation
      between the store before and after ([store_rel]), once through the
      decorators.
    - [Interleaving] the three read-modify-write task handlers
      ([TaskUpdate.put], [task_edit], [task_delete]) as a read phase that
      returns the writes it will commit, and their interleavings.
    - [Threads]   every route and both commands as a [thread]: the free
      monad of a snapshot read ([TRead]) and of the writing queries
      ([TQuery]: a [save()], [delete()], [login()] or [logout()], each
      its own autocommitted transaction, returning the pk an INSERT
      assigns).  [exec] runs one query under the UNIQUE and FOREIGN KEY
      constraints of the database, a violation being an [IntegrityError]
      the thread receives; [run_alone] runs a thread with nothing in
      between.
    - [Schedules] configurations of threads ([config]: the store and the
      threads in flight) and their step [cstep]: any thread takes its
      snapshot or runs its next query.  [run_schedule] runs a given order;
      the lemmas [rtc2_read_l] and the like step a configuration of two
      threads by hand, for races proved on every store.

    ** How the code is modelled

    Each view is a total function [DB -> request -> response * DB].  The
    body of a view is written in the early-exit monad [early] of this file:
    [inl r] is an early [return r] of the Python code (403, 404, 400, or
    a 500 for an uncaught exception), [inr x] continues.  Every early
    return of the code precedes its writes, so a view that exits early
    returns the store it was given; [run_view] makes this structural.  In
    [System] a request is one atomic step.  Django runs in autocommit
    (every query is its own transaction), so [Threads] writes each
    handler again as the sequence of its queries, from the same lines of
    the source and reusing the same forms, guards and phases; run with
    nothing in between, each thread is proved equal to its atomic
    handler on a well-formed store ([Threads.event_thread_alone]), and
    [Schedules] lets threads interleave.  A management command returns a
    [CommandError] message on the left or the new store on the right.

    ** Theorems

    - Access control ([Console], [Api]): the guards of [task_edit],
      [task_delete], [task_list] and [TaskReport] refine the
      specification's [Spec.can]; user management is superadmin-only; the
      API writes only the requester's own task and only its status, report
      and hours.
    - The task life cycle ([Api]): the completion gate is atomic (a
      refused completion writes nothing); a valid completion stores the
      stripped report and the hours; stored hours stay in the column's
      range.
    - Deletion ([Console]): deleting a user cascades to its tasks and
      clears the admin references to it.
    - The whole program ([System]): every reachable store is well formed
      ([reachable_wf], by preservation through every view and command and
      induction on the run), and on such a store the ownership test never
      raises, so the guarded task views never answer 500; every stored
      report is trimmed and every stored hours value in range (a Section
      over any property of single tasks kept by the four task writes);
      the update's answer sent back as a PUT is a no-op (round trip); any
      task of an active user can be completed in one step (progress).
    - Concurrency ([Schedules]): running the events one after the other
      is a schedule that ends in [System.run]'s store with the atomic
      answers (the atomic system is the serial part of the concurrent
      one).  Library lemmas also show every schedule finite (at most
      four steps per event) and the database constraints kept.
    - Concurrency findings ([Interleaving], [Schedules]), each on every
      store: a delete that commits inside an update's read-save window is
      undone (the save re-inserts the task); a console edit committed in
      that window is lost; a [user_create] whose chosen admin is deleted
      between its two saves answers 500 after storing the user; two
      creations of the same username both validate and the second
      answers 500 where a serial run gives a form error.
    - Findings, proved as theorems that the code does what it does: a
      whitespace report completes a task with an empty report; clearing
      the report of a completed task is accepted; string hours crash the
      update with a 500; the console completes tasks without a report, and
      a run of four events from the empty database reaches such a store;
      the API forbids the managing admin the update the specification
      grants it; a failed login is a 500; [user_edit] keeps an admin
      reference on a non-"user", leaves tasks assigned to it, and can
      make a user its own admin; [user_create] stores an admin reference
      on an admin.
    - The commands ([Commands]): [createadminuser] creates one staff admin
      with the built-in password under [--noinput], otherwise the
      password typed twice; on a well-formed store [createsuperadminuser]
      run with [--noinput] or on a terminal promotes the user it has just
      created, whose password was typed twice and not blank (or comes from
      [DJANGO_SUPERUSER_PASSWORD], unusable without it) and whose name is
      the first typed line the prompt accepts, running out of input
      otherwise; with [--noinput] it needs an email.  Finding: run
      interactively without a terminal it creates nobody and promotes
      the newest existing user.

    Each theorem with hypotheses has a witness applying it to the sample
    store of [Fixtures], to the run [System.demo_run] or to a schedule of
    [Schedules].

    ** Bounds

    Integers are Python's, unbounded ([Z]); the one width that matters is
    the range [0, 2147483647] of the [PositiveIntegerField] [worked_hours],
    which the serializer enforces ([Api.HOURS_MAX]); titles are bounded by
    [max_length] 200 and usernames by 150.  No definition uses fuel: every
    function is structural (folds over [map_to_list], recursion on
    strings, the prompt loops on the list of typed lines, each turn
    consuming at least one line), so every view and command terminates
    by construction; a thread is an inductive term and [run_alone] is
    structural on it.  A schedule has at most four steps per event (the
    longest thread, [createsuperadminuser]'s, reads, inserts, reads and
    updates).

    ** Not modelled

    The HTML templates and what [render] produces (only the template name
    and its context are kept); CSRF and the session middleware beyond the
    session table; the issuance of JWT tokens (a request carries the pk
    its token authenticates); password hashing, Python's [int()] and date
    parsing (parameters of [Platform], with the laws that a hashed password
    checks and an unusable one never does); the [print] calls except
    where they raise, and the other output of the commands;
    [KeyboardInterrupt] at a prompt; the normalization of usernames and
    emails by [create_user]; [last_login] and
    the other AbstractUser fields the program never reads; unicode beyond
    ASCII in [str.strip].  Of concurrency: the authentication of a
    request reads one snapshot and the SELECTs of the view body before
    its first write read another (a commit between two SELECTs of the
    same group is not represented); an INSERT stamps [date_joined] when
    it runs, whereas Django stamps it when the instance is built, which
    only matters to a concurrent [createsuperadminuser]; the deletion
    collector's SELECT and its
    DELETEs run as one query; isolation levels and locks are not
    modelled (each query sees every committed write), and new requests
    do not arrive during a schedule (a configuration holds a fixed set
    of threads).
*)

From stdpp Require Export base gmap strings list fin_maps pretty.
From Stdlib Require Export ZArith Lia Ascii.

(** ** The early-exit monad of the views *)

Definition early (E A : Type) : Type := (E + A)%type.

Definition ret {E A} (a : A) : early E A := inr a.
Definition stop {E A} (e : E) : early E A := inl e.

Definition bind {E A B} (m : early E A) (k : A -> early E B) : early E B :=
  match m with
  | inl e => inl e
  | inr a => k a
  end.

(** [check b e]: continue when [b] holds, otherwise return [e] at once
    (the [if not ...: return e] of the Python code). *)
Definition check {E} (b : bool) (e : E) : early E unit :=
  if b then inr tt else inl e.

(** [get_or e o]: the value of [o], or return [e] (get_object_or_404). *)
Definition get_or {E A} (e : E) (o : option A) : early E A :=
  match o with
  | Some a => inr a
  | None => inl e
  end.

Declare Scope view_scope.
Delimit Scope view_scope with view.
Notation "x <- m ;; k" := (bind m (fun x => k))
  (at level 100, m at next level, right associativity) : view_scope.
Notation "m ;; k" := (bind m (fun _ => k))
  (at level 100, k at level 200, right associativity) : view_scope.

Lemma bind_ret {E A B} (a : A) (k : A -> early E B) : bind (ret a) k = k a.
Proof. reflexivity. Qed.

Lemma bind_inr {E A B} (a : A) (k : A -> early E B) : bind (inr a) k = k a.
Proof. reflexivity. Qed.

Lemma bind_inl {E A B} (e : E) (k : A -> early E B) : bind (inl e) k = inl e.
Proof. reflexivity. Qed.

Lemma bind_inr_inv {E A B} (m : early E A) (k : A -> early E B) (b : B) :
  bind m k = inr b -> exists a, m = inr a /\ k a = inr b.
Proof. destruct m; simpl; [discriminate | eauto]. Qed.

Lemma bind_inl_inv {E A B} (m : early E A) (k : A -> early E B) (e : E) :
  bind m k = inl e -> m = inl e \/ exists a, m = inr a /\ k a = inl e.
Proof. destruct m; simpl; [intros [= ->]; auto | eauto]. Qed.

Lemma check_true {E} (e : E) : check true e = inr tt.
Proof. reflexivity. Qed.

Lemma check_false {E} (e : E) : check false e = inl e.
Proof. reflexivity. Qed.

Lemma get_or_Some {E A} (e : E) (a : A) : get_or e (Some a) = inr a.
Proof. reflexivity. Qed.

Lemma get_or_None {E A} (e : E) : get_or (A:=A) e None = inl e.
Proof. reflexivity. Qed.

Create HintDb taskdb discriminated.
Create Rewrite HintDb taskdb.
#[export] Hint Rewrite @bind_inr @bind_inl @check_true @check_false
  @get_or_Some @get_or_None : taskdb.

(** Unfold one layer of the monad in the goal and the hypotheses. *)
Ltac simpl_early :=
  repeat (autorewrite with taskdb in *; simpl in * ).

(** Peel every [bind] off a hypothesis [m1 ;; ... ;; k = inr b], keeping
    the equation of each intermediate result. *)
Ltac early_inv H :=
  repeat (let Hm := fresh "Hm" in apply bind_inr_inv in H as (? & Hm & H)).

(** ** Python strings

    Strings are Stdlib [string]s of ASCII characters; [str.isspace] on an
    ASCII character holds for 9..13, 28..31 and 32. *)

Definition py_isspace (c : Ascii.ascii) : bool :=
  let n := Ascii.nat_of_ascii c in
  ((9 <=? n) && (n <=? 13)) || ((28 <=? n) && (n <=? 31)) || (n =? 32).

(** [str.lstrip()], [str.rstrip()], [str.strip()] with no argument. *)
Fixpoint py_lstrip (s : string) : string :=
  match s with
  | EmptyString => EmptyString
  | String c s' => if py_isspace c then py_lstrip s' else s
  end.

Fixpoint py_rstrip (s : string) : string :=
  match s with
  | EmptyString => EmptyString
  | String c s' =>
      let r := py_rstrip s' in
      if py_isspace c && bool_decide (r = EmptyString) then EmptyString
      else String c r
  end.

Definition py_strip (s : string) : string := py_rstrip (py_lstrip s).

(** [ProhibitNullCharactersValidator] of Django's and DRF's
    [CharField]: a string holding ['\x00']. *)
Fixpoint has_nul (s : string) : bool :=
  match s with
  | EmptyString => false
  | String c s' => bool_decide (c = Ascii.zero) || has_nul s'
  end.

(** Python truthiness of a string: non-empty. *)
Definition py_truthy_str (s : string) : bool := negb (bool_decide (s = EmptyString)).

Lemma py_truthy_str_true (s : string) : s <> EmptyString -> py_truthy_str s = true.
Proof. intros Hs. unfold py_truthy_str. by rewrite bool_decide_false. Qed.

Lemma py_truthy_str_false (s : string) : py_truthy_str s = false <-> s = EmptyString.
Proof. unfold py_truthy_str. case_bool_decide; naive_solver. Qed.

(** Every character is whitespace. *)
Fixpoint all_space (s : string) : bool :=
  match s with
  | EmptyString => true
  | String c s' => py_isspace c && all_space s'
  end.

Lemma py_rstrip_empty_iff (s : string) : py_rstrip s = EmptyString <-> all_space s = true.
Proof.
  induction s as [|c s IH]; simpl; [done|].
  destruct (py_isspace c) eqn:Hc; simpl.
  - case_bool_decide as Hr.
    + split; [intros _; by apply IH | done].
    + split; [discriminate|]. intros Ha. exfalso. by apply Hr, IH.
  - split; discriminate.
Qed.

Lemma py_lstrip_all_space (s : string) : all_space s = true -> py_lstrip s = EmptyString.
Proof.
  induction s as [|c s IH]; simpl; [done|].
  destruct (py_isspace c); simpl; [exact IH | discriminate].
Qed.

Lemma py_lstrip_not_all_space (s : string) :
  all_space s = false -> exists c s', py_lstrip s = String c s' /\ py_isspace c = false.
Proof.
  induction s as [|c s IH]; simpl; [discriminate|].
  destruct (py_isspace c) eqn:Hc; simpl; [exact IH | eauto].
Qed.

Lemma py_rstrip_idem (s : string) : py_rstrip (py_rstrip s) = py_rstrip s.
Proof.
  induction s as [|c s IH]; simpl; [done|].
  destruct (py_isspace c && bool_decide (py_rstrip s = EmptyString)) eqn:E; [done|].
  simpl. by rewrite IH, E.
Qed.

Lemma py_lstrip_idem (s : string) : py_lstrip (py_lstrip s) = py_lstrip s.
Proof.
  induction s as [|c s IH]; simpl; [done|].
  destruct (py_isspace c) eqn:Hc; [done|]. simpl. by rewrite Hc.
Qed.

Lemma py_lstrip_length (s : string) : String.length (py_lstrip s) <= String.length s.
Proof. induction s as [|c s IH]; simpl; [lia|]. destruct (py_isspace c); simpl; lia. Qed.

(** A string that does not start with whitespace keeps that property
    through [rstrip]. *)
Lemma py_lstrip_rstrip (s : string) : py_lstrip s = s -> py_lstrip (py_rstrip s) = py_rstrip s.
Proof.
  destruct s as [|c s]; simpl; [done|]. destruct (py_isspace c) eqn:Hc.
  - intros Hl. exfalso. pose proof (py_lstrip_length s) as Hle.
    rewrite Hl in Hle. simpl in Hle. lia.
  - intros _. simpl. by rewrite Hc.
Qed.

(** [s.strip().strip() == s.strip()]. *)
Lemma py_strip_idem (s : string) : py_strip (py_strip s) = py_strip s.
Proof.
  unfold py_strip. rewrite py_lstrip_rstrip by apply py_lstrip_idem. apply py_rstrip_idem.
Qed.

(** Stripping removes characters, so it adds no NUL. *)
Lemma py_strip_has_nul (s : string) : has_nul s = false -> has_nul (py_strip s) = false.
Proof.
  unfold py_strip. intros Hs.
  assert (Hl : has_nul (py_lstrip s) = false).
  { induction s as [|c s IH]; simpl; [done|].
    destruct (py_isspace c); [|done]. apply IH. simpl in Hs. by apply orb_false_iff in Hs as [_ Hs]. }
  revert Hl. generalize (py_lstrip s). clear. intros s.
  induction s as [|c s IH]; simpl; [done|]. intros [Hc Hs]%orb_false_iff.
  case_match; [done|]. simpl. by rewrite Hc, IH.
Qed.

(** [s.strip()] is empty exactly when [s] is all whitespace. *)
Lemma py_strip_empty_iff (s : string) : py_strip s = EmptyString <-> all_space s = true.
Proof.
  unfold py_strip. split.
  - intros H. destruct (all_space s) eqn:Ha; [done|].
    destruct (py_lstrip_not_all_space s Ha) as (c & s' & Hl & Hc).
    rewrite Hl in H. simpl in H. rewrite Hc in H. discriminate.
  - intros Ha. by rewrite py_lstrip_all_space.
Qed.

(** ** Maps: the ORM's [objects.filter] is stdpp's map [filter]. *)

Section map_lemmas.
Context {K A : Type} `{Countable K}.

Lemma filter_lookup_Some_iff (P : K * A -> Prop) `{!forall x, Decision (P x)}
    (m : gmap K A) (k : K) (a : A) :
  filter P m !! k = Some a <-> m !! k = Some a /\ P (k, a).
Proof. apply map_lookup_filter_Some. Qed.

Lemma map_Forall_insert_keep (P : K -> A -> Prop) (m : gmap K A) (k : K) (a : A) :
  map_Forall P m -> P k a -> map_Forall P (<[k:=a]> m).
Proof. intros. by apply map_Forall_insert_2. Qed.

Lemma map_Forall_delete_keep (P : K -> A -> Prop) (m : gmap K A) (k : K) :
  map_Forall P m -> map_Forall P (delete k m).
Proof. intros. by apply map_Forall_delete. Qed.

Lemma map_Forall_filter_keep (P : K -> A -> Prop) (Q : K * A -> Prop)
    `{!forall x, Decision (Q x)} (m : gmap K A) :
  map_Forall P m -> map_Forall P (filter Q m).
Proof.
  intros HP k a Hk. apply map_lookup_filter_Some in Hk as [Hk _]. by eapply HP.
Qed.
End map_lemmas.

#[export] Hint Resolve map_Forall_insert_keep map_Forall_delete_keep
  map_Forall_filter_keep : taskdb.
