(* ===== verification/Models.v ===== *)
(** * Models: the ORM models of models.py and the store they live in

    [User] (models.py 5-28) extends Django's AbstractUser by a [role] chosen
    from [ROLE_CHOICES] and a nullable self-referential foreign key [admin]
    ([on_delete=SET_NULL], [related_name='assigned_users']).  [Task]
    (models.py 30-50) has a foreign key [assigned_to] to User
    ([on_delete=CASCADE]), a [status] from [STATUS_CHOICES], a
    [completion_report] and a nullable [worked_hours].

    The database is the record [DB]: one [gmap] per table keyed by primary
    key, the auto-increment counters, the session table of
    django.contrib.sessions (session key to user pk) and the clock that
    stamps [date_joined].  The ORM calls of the views are the operations of
    this file; [User_delete] is Django's deletion collector for a User
    (CASCADE on Task.assigned_to, SET_NULL on User.admin). *)

From S2P Require Import Prelude.

Module Models.

(** ** Choices *)

Inductive Role := ROLE_SUPERADMIN | ROLE_ADMIN | ROLE_USER.

#[export] Instance role_eq_dec : EqDecision Role.
Proof. solve_decision. Defined.

(** The stored value and the label of each choice, in the order of
    [ROLE_CHOICES]. *)
Definition ROLE_CHOICES : list (Role * string * string) :=
  [(ROLE_SUPERADMIN, "superadmin", "SuperAdmin");
   (ROLE_ADMIN, "admin", "Admin");
   (ROLE_USER, "user", "User")]%string.

Inductive task_status := STATUS_PENDING | STATUS_IN_PROGRESS | STATUS_COMPLETED.

#[export] Instance task_status_eq_dec : EqDecision task_status.
Proof. solve_decision. Defined.

Definition STATUS_CHOICES : list (task_status * string * string) :=
  [(STATUS_PENDING, "pending", "Pending");
   (STATUS_IN_PROGRESS, "in_progress", "In Progress");
   (STATUS_COMPLETED, "completed", "Completed")]%string.

(** The value a choice is stored as, and the choice a submitted string
    selects (a [ChoiceField] accepts exactly the stored values). *)
Definition choice_value {A} (cs : list (A * string * string)) `{EqDecision A} (a : A) : string :=
  match list_find (fun c => c.1.1 = a) cs with
  | Some (_, c) => c.1.2
  | None => EmptyString
  end.

Definition choice_of_value {A} (cs : list (A * string * string)) (s : string) : option A :=
  match list_find (fun c => c.1.2 = s) cs with
  | Some (_, c) => Some c.1.1
  | None => None
  end.

Definition role_value : Role -> string := choice_value ROLE_CHOICES.
Definition role_of_value : string -> option Role := choice_of_value ROLE_CHOICES.
Definition status_value : task_status -> string := choice_value STATUS_CHOICES.
Definition status_of_value : string -> option task_status := choice_of_value STATUS_CHOICES.

(** ** Rows *)

(** The AbstractUser fields the program reads or writes, and the two
    fields models.py adds. [password] holds the hash. *)
Record User := mkUser {
  username : string;
  email : string;
  password : string;
  role : Role;
  admin : option nat;
  is_staff : bool;
  is_superuser : bool;
  is_active : bool;
  date_joined : nat
}.

(** [due_date] is a date, as its day number. *)
Record Task := mkTask {
  title : string;
  description : string;
  assigned_to : nat;
  due_date : Z;
  status : task_status;
  completion_report : string;
  worked_hours : option Z
}.

(** [User.__str__] and [Task.__str__]: the labels the forms' choice
    widgets and the templates show. *)
Definition User_str (u : User) : string := username u.
Definition Task_str (t : Task) : string := title t.

Definition set_user_admin (u : User) (a : option nat) : User :=
  mkUser (username u) (email u) (password u) (role u) a
    (is_staff u) (is_superuser u) (is_active u) (date_joined u).

Definition set_user_role (u : User) (r : Role) : User :=
  mkUser (username u) (email u) (password u) r (admin u)
    (is_staff u) (is_superuser u) (is_active u) (date_joined u).

(** ** The store *)

Record DB := mkDB {
  users : gmap nat User;
  tasks : gmap nat Task;
  sessions : gmap nat nat;
  next_user_pk : nat;
  next_task_pk : nat;
  next_session_key : nat;
  clock : nat
}.

Definition with_users (db : DB) (us : gmap nat User) : DB :=
  mkDB us (tasks db) (sessions db) (next_user_pk db) (next_task_pk db)
    (next_session_key db) (clock db).

Definition with_tasks (db : DB) (ts : gmap nat Task) : DB :=
  mkDB (users db) ts (sessions db) (next_user_pk db) (next_task_pk db)
    (next_session_key db) (clock db).

Definition with_sessions (db : DB) (ss : gmap nat nat) (next : nat) : DB :=
  mkDB (users db) (tasks db) ss (next_user_pk db) (next_task_pk db) next (clock db).

Definition empty_db : DB := mkDB ∅ ∅ ∅ 1 1 1 0.

(** ** Queries *)

(** [Task.objects.filter(assigned_to=user)] *)
Definition tasks_assigned_to (db : DB) (uid : nat) : gmap nat Task :=
  filter (fun kt => assigned_to kt.2 = uid) (tasks db).

(** [task.assigned_to.admin]: the admin pk of the task's assignee. *)
Definition assignee_admin (db : DB) (t : Task) : option nat :=
  users db !! assigned_to t ≫= admin.

(** [Task.objects.filter(assigned_to__admin=user)]: an inner join, so a
    task whose assignee row is missing is not selected. *)
Definition tasks_of_admin (db : DB) (uid : nat) : gmap nat Task :=
  filter (fun kt => assignee_admin db kt.2 = Some uid) (tasks db).

(** [user.assigned_users.all()] (the reverse relation of User.admin). *)
Definition assigned_users (db : DB) (uid : nat) : gmap nat User :=
  filter (fun ku => admin ku.2 = Some uid) (users db).

(** [User.objects.filter(role=r)] *)
Definition users_with_role (db : DB) (r : Role) : gmap nat User :=
  filter (fun ku => role ku.2 = r) (users db).

(** ** Writes *)

(** [task.save()] on an existing row, [form.save()] on a new one. *)
Definition task_save (db : DB) (pk : nat) (t : Task) : DB :=
  with_tasks db (<[pk := t]> (tasks db)).

Definition task_insert (db : DB) (t : Task) : nat * DB :=
  let pk := next_task_pk db in
  (pk, mkDB (users db) (<[pk := t]> (tasks db)) (sessions db) (next_user_pk db)
          (S pk) (next_session_key db) (clock db)).

(** [task.delete()]: no row references a Task. *)
Definition Task_delete (db : DB) (pk : nat) : DB :=
  with_tasks db (delete pk (tasks db)).

Definition user_save (db : DB) (pk : nat) (u : User) : DB :=
  with_users db (<[pk := u]> (users db)).

(** [date_joined = models.DateTimeField(default=timezone.now)] of
    AbstractUser: the instant the instance is built, the form's
    [CustomUser()] or [create_user]'s [self.model(...)].  An atomic
    handler builds and saves with no other write in between, so the
    clock the store keeps stands for that instant; the counter is
    advanced by each INSERT. *)
Definition joined_now (db : DB) (u : User) : User :=
  mkUser (username u) (email u) (password u) (role u) (admin u)
    (is_staff u) (is_superuser u) (is_active u) (clock db).

(** Saving a new User: the pk is the next counter value. *)
Definition user_insert (db : DB) (u : User) : nat * DB :=
  let pk := next_user_pk db in
  (pk, mkDB (<[pk := joined_now db u]> (users db)) (tasks db) (sessions db) (S pk)
          (next_task_pk db) (next_session_key db) (S (clock db))).

(** [on_delete=SET_NULL] on User.admin for the deleted pk. *)
Definition clear_admin (pk : nat) (u : User) : User :=
  if decide (admin u = Some pk) then set_user_admin u None else u.

(** [user.delete()]: Django's collector nulls the [admin] of the users
    the deleted user manages, deletes the tasks assigned to it
    (CASCADE), then deletes its row. *)
Definition User_delete (db : DB) (pk : nat) : DB :=
  mkDB (delete pk (clear_admin pk <$> users db))
       (filter (fun kt => assigned_to kt.2 <> pk) (tasks db))
       (sessions db) (next_user_pk db) (next_task_pk db)
       (next_session_key db) (clock db).

(** ** The store invariant

    Referential integrity of both foreign keys (the database enforces
    it), primary keys below their counters, and [date_joined] before the
    clock. *)

Definition admin_ref_ok (us : gmap nat User) (u : User) : Prop :=
  match admin u with
  | Some a => is_Some (us !! a)
  | None => True
  end.

#[export] Instance admin_ref_ok_dec us u : Decision (admin_ref_ok us u).
Proof. unfold admin_ref_ok. destruct (admin u); apply _. Defined.

(** No two rows of a user table agree on the field [f]. *)
Definition field_unique {A} (f : User -> A) (us : gmap nat User) : Prop :=
  map_Forall (fun k u => map_Forall (fun k' u' => f u' = f u -> k' = k) us) us.

#[export] Instance field_unique_dec {A} `{EqDecision A} (f : User -> A) us : Decision (field_unique f us).
Proof. unfold field_unique. apply _. Defined.

(** No two users joined at the same instant: [timezone.now()] advances
    between two saves of new users. *)
Definition dates_distinct (us : gmap nat User) : Prop := field_unique date_joined us.

(** [username = models.CharField(unique=True)] of AbstractUser: the
    UNIQUE constraint of the column. *)
Definition usernames_unique (us : gmap nat User) : Prop := field_unique username us.

(** No user but row [k] has username [n]: the UNIQUE constraint allows
    writing [n] to row [k].  [name_free] is the same with no row
    excepted (an INSERT). *)
Definition name_free_except (us : gmap nat User) (k : nat) (n : string) : Prop :=
  map_Forall (fun j v => j = k \/ username v <> n) us.

Definition name_free (us : gmap nat User) (n : string) : Prop :=
  map_Forall (fun _ v => username v <> n) us.

#[export] Instance name_free_except_dec us k n : Decision (name_free_except us k n).
Proof. unfold name_free_except. apply _. Defined.

#[export] Instance name_free_dec us n : Decision (name_free us n).
Proof. unfold name_free. apply _. Defined.

Definition db_wf (db : DB) : Prop :=
  map_Forall (fun _ t => is_Some (users db !! assigned_to t)) (tasks db) /\
  map_Forall (fun _ u => admin_ref_ok (users db) u) (users db) /\
  map_Forall (fun k _ => k < next_user_pk db) (users db) /\
  map_Forall (fun k _ => k < next_task_pk db) (tasks db) /\
  map_Forall (fun _ u => date_joined u < clock db) (users db) /\
  dates_distinct (users db) /\
  usernames_unique (users db).

#[export] Instance db_wf_dec db : Decision (db_wf db).
Proof. unfold db_wf, dates_distinct, usernames_unique. apply _. Defined.

(** ** The data-model invariants of the specification

    These are the properties the specification states for every stored
    row; [System] shows which of them the code keeps. *)

(** Every task is assigned to a User whose role is exactly "user". *)
Definition assignee_is_user (db : DB) (t : Task) : Prop :=
  role <$> users db !! assigned_to t = Some ROLE_USER.

(** An [admin] reference is set only on a "user" and names another User
    whose role is "admin". *)
Definition admin_ref_is_admin (db : DB) (k : nat) (u : User) : Prop :=
  match admin u with
  | Some a => role u = ROLE_USER /\ a <> k /\ role <$> users db !! a = Some ROLE_ADMIN
  | None => True
  end.

#[export] Instance admin_ref_is_admin_dec db k u : Decision (admin_ref_is_admin db k u).
Proof. unfold admin_ref_is_admin. destruct (admin u); apply _. Defined.

(** A completed task has a non-empty report and positive hours. *)
Definition completion_ok (t : Task) : Prop :=
  match status t with
  | STATUS_COMPLETED =>
      completion_report t <> EmptyString /\
      match worked_hours t with Some h => (0 < h)%Z | None => False end
  | _ => True
  end.

#[export] Instance completion_ok_dec t : Decision (completion_ok t).
Proof.
  unfold completion_ok. destruct (status t); try apply _.
  destruct (worked_hours t); apply _.
Defined.

Definition spec_invariants (db : DB) : Prop :=
  map_Forall (fun _ t => assignee_is_user db t) (tasks db) /\
  map_Forall (admin_ref_is_admin db) (users db) /\
  map_Forall (fun _ t => completion_ok t) (tasks db).

#[export] Instance spec_invariants_dec db : Decision (spec_invariants db).
Proof. unfold spec_invariants, assignee_is_user. apply _. Defined.

(** ** Lemmas on choices *)

Lemma role_of_value_value (r : Role) : role_of_value (role_value r) = Some r.
Proof. by destruct r. Qed.

Lemma role_of_value_inv (s : string) (r : Role) :
  role_of_value s = Some r -> role_value r = s.
Proof.
  unfold role_of_value, choice_of_value. simpl.
  intros H. repeat (case_decide; simplify_eq/=); reflexivity.
Qed.

Lemma status_of_value_value (st : task_status) : status_of_value (status_value st) = Some st.
Proof. by destruct st. Qed.

Lemma status_of_value_inv (s : string) (st : task_status) :
  status_of_value s = Some st -> status_value st = s.
Proof.
  unfold status_of_value, choice_of_value. simpl.
  intros H. repeat (case_decide; simplify_eq/=); reflexivity.
Qed.

(** ** Lemmas on the store *)

Lemma clear_admin_admin (pk : nat) (u : User) : admin (clear_admin pk u) <> Some pk.
Proof. unfold clear_admin. case_decide; simpl; congruence. Qed.

Lemma clear_admin_admin_cases (pk : nat) (u : User) :
  admin (clear_admin pk u) = None \/ admin (clear_admin pk u) = admin u.
Proof. unfold clear_admin. case_decide; simpl; auto. Qed.

Lemma clear_admin_date_joined (pk : nat) (u : User) :
  date_joined (clear_admin pk u) = date_joined u.
Proof. unfold clear_admin. by case_decide. Qed.

Lemma clear_admin_role (pk : nat) (u : User) : role (clear_admin pk u) = role u.
Proof. unfold clear_admin. by case_decide. Qed.

Lemma User_delete_lookup (db : DB) (pk k : nat) :
  users (User_delete db pk) !! k =
  if decide (k = pk) then None else clear_admin pk <$> users db !! k.
Proof.
  simpl. case_decide as Hk.
  - subst. apply lookup_delete_eq.
  - rewrite lookup_delete_ne; [|congruence]. apply lookup_fmap.
Qed.

Lemma User_delete_task_lookup (db : DB) (pk k : nat) (t : Task) :
  tasks (User_delete db pk) !! k = Some t <->
  tasks db !! k = Some t /\ assigned_to t <> pk.
Proof. simpl. apply filter_lookup_Some_iff. Qed.

Lemma is_Some_user_delete (db : DB) (pk k : nat) :
  k <> pk -> is_Some (users db !! k) -> is_Some (users (User_delete db pk) !! k).
Proof.
  intros Hk [u Hu]. rewrite User_delete_lookup, decide_False by done.
  rewrite Hu. by eexists.
Qed.

(** Replacing rows by rows that agree with them on [f] keeps [f]
    unique. *)
Lemma field_unique_same {A} (f : User -> A) (us us' : gmap nat User) :
  field_unique f us ->
  (forall k u, us' !! k = Some u -> exists u0, us !! k = Some u0 /\ f u0 = f u) ->
  field_unique f us'.
Proof.
  intros Hd Hsub k u Hk k' u' Hk' Heq.
  destruct (Hsub k u Hk) as (u0 & Hu0 & E0), (Hsub k' u' Hk') as (u1 & Hu1 & E1).
  apply (Hd k u0 Hu0 k' u1 Hu1). congruence.
Qed.

(** Writing row [k] keeps [f] unique when no other row has the value of
    the new one. *)
Lemma field_unique_insert {A} (f : User -> A) (us : gmap nat User) (k : nat) (u : User) :
  field_unique f us -> map_Forall (fun j v => j = k \/ f v <> f u) us ->
  field_unique f (<[k := u]> us).
Proof.
  intros Hd Hfree j v Hj j' v' Hj' Heq.
  apply lookup_insert_Some in Hj, Hj'.
  destruct Hj as [[? ?]|[? Hj]], Hj' as [[? ?]|[? Hj']]; simplify_eq; [done | | |].
  - by destruct (Hfree _ _ Hj') as [?|[]].
  - by destruct (Hfree _ _ Hj) as [?|[]].
  - by apply (Hd j v Hj j' v' Hj').
Qed.

Lemma dates_distinct_insert_fresh (us : gmap nat User) (k : nat) (u : User) :
  dates_distinct us ->
  map_Forall (fun _ v => date_joined v < date_joined u) us ->
  dates_distinct (<[k := u]> us).
Proof.
  intros Hd Hlt. apply field_unique_insert; [done|]. intros j v Hj. right.
  pose proof (Hlt _ _ Hj) as Hl. simpl in Hl. lia.
Qed.

(** The constraints the database itself enforces: the two foreign keys
    and the UNIQUE username. *)
Definition db_constraints (db : DB) : Prop :=
  map_Forall (fun _ t => is_Some (users db !! assigned_to t)) (tasks db) /\
  map_Forall (fun _ u => admin_ref_ok (users db) u) (users db) /\
  usernames_unique (users db).

#[export] Instance db_constraints_dec db : Decision (db_constraints db).
Proof. unfold db_constraints, usernames_unique. apply _. Defined.

Lemma db_wf_constraints (db : DB) : db_wf db -> db_constraints db.
Proof. by intros (? & ? & _ & _ & _ & _ & ?). Qed.

(** The collector keeps the constraints: CASCADE removes the tasks of
    the deleted user, SET_NULL the admin references to it. *)
Lemma User_delete_constraints (db : DB) (pk : nat) : db_constraints db -> db_constraints (User_delete db pk).
Proof.
  intros (Ht & Ha & Hun). split_and!.
  - intros k t Hk. apply User_delete_task_lookup in Hk as [Hk Hne].
    apply is_Some_user_delete; [done|]. by eapply Ht.
  - intros k u Hk. rewrite User_delete_lookup in Hk. case_decide; [done|].
    apply fmap_Some in Hk as (u0 & Hu0 & ->). unfold admin_ref_ok.
    destruct (clear_admin_admin_cases pk u0) as [-> | Heq]; [done|].
    pose proof (clear_admin_admin pk u0) as Hne. rewrite Heq in Hne |- *.
    specialize (Ha k u0 Hu0). unfold admin_ref_ok in Ha.
    destruct (admin u0) as [a|]; [|done].
    apply is_Some_user_delete; [congruence | done].
  - apply (field_unique_same _ (users db)); [done|]. intros k u Hk.
    rewrite User_delete_lookup in Hk. case_decide; [done|].
    apply fmap_Some in Hk as (u0 & Hu0 & ->). exists u0. unfold clear_admin. by case_decide.
Qed.

(** The collector keeps the store well formed. *)
Lemma User_delete_wf (db : DB) (pk : nat) : db_wf db -> db_wf (User_delete db pk).
Proof.
  intros Hdb. destruct (User_delete_constraints db pk (db_wf_constraints db Hdb)) as (Ht' & Ha' & Hun').
  destruct Hdb as (Ht & Ha & Hu & Htk & Hc & Hdd & Hun). split_and!; try done.
  - intros k u Hk. rewrite User_delete_lookup in Hk. case_decide; [done|].
    apply fmap_Some in Hk as (u0 & Hu0 & ->). by eapply Hu.
  - intros k t Hk. apply User_delete_task_lookup in Hk as [Hk _]. by eapply Htk.
  - intros k u Hk. rewrite User_delete_lookup in Hk. case_decide; [done|].
    apply fmap_Some in Hk as (u0 & Hu0 & ->). rewrite clear_admin_date_joined.
    by eapply Hc.
  - apply (field_unique_same _ (users db)); [done|]. intros k u Hk.
    rewrite User_delete_lookup in Hk. case_decide; [done|].
    apply fmap_Some in Hk as (u0 & Hu0 & ->). exists u0. by rewrite clear_admin_date_joined.
Qed.

(** After [user.delete()] no task is assigned to the deleted user and no
    user names it as admin. *)
Lemma User_delete_no_dangling (db : DB) (pk : nat) :
  map_Forall (fun _ t => assigned_to t <> pk) (tasks (User_delete db pk)) /\
  map_Forall (fun _ u => admin u <> Some pk) (users (User_delete db pk)).
Proof.
  split.
  - intros k t Hk. by apply User_delete_task_lookup in Hk as [_ ?].
  - intros k u Hk. rewrite User_delete_lookup in Hk. case_decide; [done|].
    apply fmap_Some in Hk as (u0 & _ & ->). apply clear_admin_admin.
Qed.

(** ** Every write keeps the store well formed *)

Lemma is_Some_insert {A} (m : gmap nat A) (k j : nat) (x : A) :
  is_Some (m !! j) -> is_Some (<[k := x]> m !! j).
Proof. intros. apply lookup_insert_is_Some'. by right. Qed.

Lemma admin_ref_ok_insert (us : gmap nat User) (k : nat) (w v : User) :
  admin_ref_ok us v -> admin_ref_ok (<[k := w]> us) v.
Proof. unfold admin_ref_ok. destruct (admin v); [apply is_Some_insert | done]. Qed.

#[export] Hint Resolve is_Some_insert admin_ref_ok_insert : taskdb.

Lemma with_sessions_wf (db : DB) (ss : gmap nat nat) (n : nat) :
  db_wf db -> db_wf (with_sessions db ss n).
Proof. done. Qed.

Lemma task_save_wf (db : DB) (pk : nat) (t : Task) :
  db_wf db -> is_Some (tasks db !! pk) -> is_Some (users db !! assigned_to t) ->
  db_wf (task_save db pk t).
Proof.
  intros (Ht & Ha & Hu & Htk & Hc & Hdd & Hun) [t0 Hpk] Hat. split_and!; simpl; try done.
  - by apply map_Forall_insert_2.
  - apply map_Forall_insert_2; [|done]. by eapply Htk.
Qed.

Lemma task_insert_wf (db : DB) (t : Task) :
  db_wf db -> is_Some (users db !! assigned_to t) -> db_wf (task_insert db t).2.
Proof.
  intros (Ht & Ha & Hu & Htk & Hc & Hdd & Hun) Hat. split_and!; simpl; try done.
  - by apply map_Forall_insert_2.
  - apply map_Forall_insert_2; [lia|]. intros k t' Hk. specialize (Htk k t' Hk). simpl in Htk. lia.
Qed.

Lemma Task_delete_wf (db : DB) (pk : nat) : db_wf db -> db_wf (Task_delete db pk).
Proof.
  intros (Ht & Ha & Hu & Htk & Hc & Hdd & Hun). split_and!; simpl; try done; by apply map_Forall_delete.
Qed.

Lemma name_free_except_insert (us : gmap nat User) (k : nat) (w : User) (n : string) :
  name_free_except us k n -> name_free_except (<[k := w]> us) k n.
Proof. intros Hf. apply map_Forall_insert_2; [by left|]. exact Hf. Qed.

Lemma name_free_except_of_free (us : gmap nat User) (k : nat) (n : string) :
  name_free us n -> name_free_except us k n.
Proof. intros Hf j v Hj. right. exact (Hf j v Hj). Qed.

Lemma name_free_except_unique (us : gmap nat User) (k : nat) (u : User) :
  usernames_unique us -> us !! k = Some u -> name_free_except us k (username u).
Proof.
  intros Hun Hk j v Hj. destruct (decide (username v = username u)) as [E|]; [|by right].
  left. exact (Hun k u Hk j v Hj E).
Qed.

Lemma db_wf_usernames (db : DB) : db_wf db -> usernames_unique (users db).
Proof. by intros (_ & _ & _ & _ & _ & _ & ?). Qed.

#[export] Hint Resolve name_free_except_insert name_free_except_of_free db_wf_usernames : taskdb.

(** Saving over an existing row an image that keeps a valid admin
    reference, the row's join date, and a username no other row has. *)
Lemma user_save_wf (db : DB) (pk : nat) (x u : User) :
  db_wf db -> users db !! pk = Some x -> admin_ref_ok (users db) u -> date_joined u = date_joined x ->
  name_free_except (users db) pk (username u) -> db_wf (user_save db pk u).
Proof.
  intros (Ht & Ha & Hu & Htk & Hc & Hdd & Hun) Hpk Hau Hd Hfree. split_and!; simpl.
  - intros k t Hk. apply is_Some_insert. by eapply Ht.
  - apply map_Forall_insert_2; [by apply admin_ref_ok_insert|].
    intros k v Hk. apply admin_ref_ok_insert. by eapply Ha.
  - apply map_Forall_insert_2; [|done]. by eapply Hu.
  - done.
  - apply map_Forall_insert_2; [|done]. rewrite Hd. by eapply Hc.
  - apply (field_unique_same _ (users db)); [done|]. intros k v Hk.
    apply lookup_insert_Some in Hk as [[<- <-] | [_ Hk]]; eauto.
  - by apply field_unique_insert.
Qed.

(** Inserting a row whose username no row has. *)
Lemma user_insert_wf (db : DB) (u : User) :
  db_wf db -> admin_ref_ok (users db) u -> name_free (users db) (username u) ->
  db_wf (user_insert db u).2.
Proof.
  intros (Ht & Ha & Hu & Htk & Hc & Hdd & Hun) Hau Hfree. split_and!; simpl.
  - intros k t Hk. apply is_Some_insert. by eapply Ht.
  - apply map_Forall_insert_2; [unfold admin_ref_ok in *; simpl; by apply admin_ref_ok_insert|].
    intros k v Hk. apply admin_ref_ok_insert. by eapply Ha.
  - apply map_Forall_insert_2; [lia|]. intros k v Hk. specialize (Hu k v Hk). simpl in Hu. lia.
  - done.
  - apply map_Forall_insert_2; [simpl; lia|]. intros k v Hk. specialize (Hc k v Hk). simpl in Hc. lia.
  - apply dates_distinct_insert_fresh; [done|]. intros k v Hk. exact (Hc k v Hk).
  - apply field_unique_insert; [done|]. intros k v Hk. right. by apply (Hfree k v Hk).
Qed.

End Models.
