(* ===== verification/Http.v ===== *)
(** * Http: requests, responses and the platform the views run on

    A request carries the session cookie (console), the user pk of a valid
    JWT access token (API), the method, the parsed JSON body
    [request.data] and the form body [request.POST].  A response is one of
    the shapes the views return: DRF [Response] (200 or 400 with a body),
    403, the 404 of [get_object_or_404], the 401 of DRF authentication, a
    [redirect], a [render], or the 500 of an uncaught exception.

    [Platform] collects the functions the views call that are not part of
    this repository (Django's password hashers, the unusable password of
    [make_password(None)], the username, password and email validators,
    Python's [int()], [DateField] parsing); every theorem holds for every instance.
    [test_platform] is one concrete instance, used only by the witnesses. *)

From S2P Require Import Prelude Models.
Import Models.

Module Http.

(** A JSON value of [request.data]; [JOther] stands for arrays and
    objects. *)
Inductive jval := JNull | JBool (b : bool) | JInt (z : Z) | JStr (s : string) | JOther.

#[export] Instance jval_eq_dec : EqDecision jval.
Proof. solve_decision. Defined.

Inductive http_method := GET | POST | PUT | OTHER_METHOD.

Record request := mkRequest {
  cookie : option nat;
  token : option nat;
  method : http_method;
  data : gmap string jval;
  post : gmap string string
}.

(** The JSON body of a DRF [Response]: an object (a list of key / value
    pairs in the serializer's field order), a list of objects, or the
    serializer's error dictionary, by the names of the invalid fields. *)
Definition json_obj : Type := list (string * jval).

Inductive body :=
  | BObj (o : json_obj)
  | BList (os : list json_obj)
  | BFieldErrors (fields : list string).

(** [{'error': msg}] *)
Definition BError (msg : string) : body := BObj [("error", JStr msg)]%string.

(** The context handed to a template. *)
Inductive context :=
  | CtxNone
  | CtxError (msg : string)
  | CtxUser (pk : nat)
  | CtxUsers (us : gmap nat User)
  | CtxTasks (ts : gmap nat Task)
  | CtxTask (pk : nat)
  | CtxForm (bound : bool) (errors : list string).

Inductive response :=
  | Ok (b : body)
  | BadRequest (b : body)
  | Forbidden (msg : string)
  | NotFound
  | Unauthorized
  | MethodNotAllowed
  | Redirect (to : string) (set_cookie : option nat)
  | Render (template : string) (ctx : context)
  | ServerError.

(** A view body: an early response, or the final response and store. *)
Definition outcome : Type := early response (response * DB).

(** Run a view body on a store: an early return leaves the store as it
    was. *)
Definition run_view (db : DB) (o : outcome) : response * DB :=
  match o with
  | inl r => (r, db)
  | inr rd => rd
  end.

Lemma run_view_inl (db : DB) (r : response) : run_view db (inl r) = (r, db).
Proof. reflexivity. Qed.

Lemma run_view_inr (db db' : DB) (r : response) : run_view db (inr (r, db')) = (r, db').
Proof. reflexivity. Qed.

#[export] Hint Rewrite run_view_inl run_view_inr : taskdb.

(** ** The external collaborators *)

Class Platform := {
  make_password : string -> string;
  check_password : string -> string -> bool;
  py_int : string -> option Z;
  parse_date : string -> option Z;
  date_isoformat : Z -> string;
  username_valid : string -> bool;
  password_valid : string -> bool;
  email_valid : string -> bool;
  (* [make_password(None)]: a value no password checks against *)
  unusable_password : string;
  check_password_make : forall p, check_password p (make_password p) = true;
  check_password_unusable : forall p, check_password p unusable_password = false
}.

(** A concrete platform: a password "hashed" by a ["$"] prefix, decimal integers and
    dates written as day numbers. *)
Fixpoint digits_value (s : string) (acc : Z) : option Z :=
  match s with
  | EmptyString => Some acc
  | String c s' =>
      let n := Ascii.nat_of_ascii c in
      if (48 <=? n) && (n <=? 57) then digits_value s' (10 * acc + Z.of_nat (n - 48))%Z
      else None
  end.

Definition test_int (s : string) : option Z :=
  match py_strip s with
  | EmptyString => None
  | String "-"%char s' => if bool_decide (s' = EmptyString) then None else Z.opp <$> digits_value s' 0
  | s' => digits_value s' 0
  end.

Lemma test_unusable (p : string) : bool_decide ("!" = String "$" p) = false.
Proof. apply bool_decide_eq_false_2. intros E. discriminate E. Qed.

Definition test_platform : Platform := {|
  make_password := fun p => String "$" p;
  check_password := fun r h => bool_decide (h = String "$" r);
  py_int := test_int;
  parse_date := test_int;
  date_isoformat := fun d => pretty d;
  username_valid := fun u => negb (bool_decide (u = EmptyString));
  password_valid := fun p => 8 <=? String.length p;
  email_valid := fun e => bool_decide ("@"%char ∈ String.list_ascii_of_string e);
  unusable_password := "!";
  check_password_make := fun p => bool_decide_eq_true_2 _ eq_refl;
  check_password_unusable := test_unusable
|}.

End Http.
