(* ===== verification/Fixtures.v ===== *)
(** * Fixtures: concrete stores and requests

    The store of the specification's scenarios (spec section 8): a
    superadmin (pk 1), an admin A (pk 2) who manages the user U1 (pk 3),
    an admin B (pk 5) who manages the user U2 (pk 4); task 1 is U1's and
    pending, task 2 is U2's and pending, task 3 is U1's and completed.
    Sessions 10, 11, 12 belong to the superadmin, A and U1; each user's
    password is its username, hashed as [test_platform] hashes.  The witnesses
    of the theorems run the views on these values. *)

From S2P Require Import Prelude Models Http.
Import Models Http.

Module Fixtures.

Definition mk_user (name : string) (r : Role) (a : option nat) (joined : nat) : User :=
  mkUser name "" ("$" +:+ name) r a false false true joined.

Definition root : User := mk_user "root" ROLE_SUPERADMIN None 0.
Definition admin_A : User := mk_user "A" ROLE_ADMIN None 1.
Definition user_U1 : User := mk_user "U1" ROLE_USER (Some 2) 2.
Definition user_U2 : User := mk_user "U2" ROLE_USER (Some 5) 3.
Definition admin_B : User := mk_user "B" ROLE_ADMIN None 4.

Definition task_1 : Task := mkTask "write report" "first task" 3 100 STATUS_PENDING "" None.
Definition task_2 : Task := mkTask "review" "second task" 4 101 STATUS_PENDING "" None.
Definition task_3 : Task := mkTask "deploy" "third task" 3 102 STATUS_COMPLETED "done" (Some 5%Z).

Definition sample_db : DB :=
  mkDB (<[1 := root]> (<[2 := admin_A]> (<[3 := user_U1]> (<[4 := user_U2]> {[5 := admin_B]}))))
       (<[1 := task_1]> (<[2 := task_2]> {[3 := task_3]}))
       (<[10 := 1]> (<[11 := 2]> {[12 := 3]}))
       6 4 13 5.

Definition api_req (tok : option nat) (m : http_method) (d : gmap string jval) : request :=
  mkRequest None tok m d ∅.

Definition console_req (ck : option nat) (m : http_method) (p : gmap string string) : request :=
  mkRequest ck None m ∅ p.

End Fixtures.
