(* ===== verification/Authz.v ===== *)
(** * Authz: who the request is from, and what it may do

    [session_user] is [request.user] of the console (Django's session and
    authentication middlewares), [api_user] the identity of the API
    ([JWTAuthentication] with [IsAuthenticated]).  [login_required],
    [admin_or_super_required] and [superadmin_required] are the decorators
    of admin_views.py 11-25, as functions from a view that receives the
    user to a view on requests.  [owner_check] is the per-admin test
    [user.role == ROLE_ADMIN and task.assigned_to.admin != user] of
    admin_views.py 167, 182, 193 and api_views.py 58.

    [Spec] states the authorization contract of the specification (the
    "Authorization Engine" [can]); the views' guards are proved against it
    in [Console] and [Api]. *)

From S2P Require Import Prelude Models Http.
Import Models Http.

Module Authz.

Local Open Scope view_scope.

(** A view that has been handed [request.user] (pk and row). *)
Definition user_view : Type := nat -> User -> DB -> request -> response * DB.
Definition view : Type := DB -> request -> response * DB.

(** [request.user] from the session cookie: the session row names a user
    pk, whose row must exist and be active (ModelBackend.get_user). *)
Definition session_user (db : DB) (req : request) : option (nat * User) :=
  k ← cookie req;
  pk ← sessions db !! k;
  u ← users db !! pk;
  if is_active u then Some (pk, u) else None.

(** [JWTAuthentication] then [IsAuthenticated]: a missing token and a
    token whose user is missing or inactive both answer 401. *)
Definition api_user (db : DB) (req : request) : early response (nat * User) :=
  get_or Unauthorized
    (pk ← token req;
     u ← users db !! pk;
     if is_active u then Some (pk, u) else None).

(** [@login_required]: an anonymous request is redirected to the login
    page. *)
Definition login_required (v : user_view) : view :=
  fun db req =>
    match session_user db req with
    | Some (pk, u) => v pk u db req
    | None => (Redirect "LOGIN_URL" None, db)
    end.

(** admin_views.py 11-17 *)
Definition admin_or_super_required (v : user_view) : view :=
  login_required (fun pk u db req =>
    if bool_decide (role u ∈ [ROLE_ADMIN; ROLE_SUPERADMIN]) then v pk u db req
    else (Forbidden "Access denied", db)).

(** admin_views.py 19-25 *)
Definition superadmin_required (v : user_view) : view :=
  login_required (fun pk u db req =>
    if decide (role u = ROLE_SUPERADMIN) then v pk u db req
    else (Forbidden "Access denied", db)).

(** [if user.role == ROLE_ADMIN and task.assigned_to.admin != user:
    return <denied>].  Python's [and] reads [task.assigned_to] only for an
    admin; a missing assignee row would raise, hence the 500. *)
Definition owner_check (db : DB) (uid : nat) (u : User) (t : Task) (denied : response)
    : early response unit :=
  if decide (role u = ROLE_ADMIN) then
    a <- get_or ServerError (users db !! assigned_to t) ;;
    check (bool_decide (admin a = Some uid)) denied
  else ret tt.

(** ** The authorization contract of the specification *)

Module Spec.

Inductive action := ListTasks | ViewTask | EditTask | DeleteTask | ViewReport | UpdateOwnTask.

(** [can actor action task]: superadmin may do everything; an admin may
    act on the tasks of the users it manages; a user may list, view and
    update its own tasks, and nothing else. *)
Definition can (uid : nat) (u : User) (act : action) (assignee_pk : nat) (assignee : User) : bool :=
  match role u with
  | ROLE_SUPERADMIN => true
  | ROLE_ADMIN =>
      match act with
      | UpdateOwnTask => false
      | _ => bool_decide (admin assignee = Some uid)
      end
  | ROLE_USER =>
      match act with
      | ListTasks | ViewTask | UpdateOwnTask => bool_decide (assignee_pk = uid)
      | _ => false
      end
  end.

End Spec.

(** ** Lemmas *)

(** The role test [role in [ROLE_ADMIN, ROLE_SUPERADMIN]] on each role. *)
Lemma session_user_Some (db : DB) (req : request) (s : nat) (su : User) :
  session_user db req = Some (s, su) ->
  exists k, cookie req = Some k /\ sessions db !! k = Some s /\ users db !! s = Some su /\ is_active su = true.
Proof.
  unfold session_user. destruct (cookie req) as [k|]; simpl; [|done].
  destruct (sessions db !! k) as [pk|] eqn:Hk; simpl; [|done].
  destruct (users db !! pk) as [u|] eqn:Hu; simpl; [|done].
  destruct (is_active u) eqn:Ha; [intros [= <- <-]; by exists k | done].
Qed.

(** The session user is read from the session table and the user's
    row only. *)
Lemma session_user_same (db db' : DB) (req : request) (s : nat) (su : User) :
  sessions db' = sessions db -> users db' !! s = users db !! s ->
  session_user db req = Some (s, su) -> session_user db' req = Some (s, su).
Proof.
  intros Hss Hus (k & Hk & Hsk & Hu & Ha)%session_user_Some. unfold session_user.
  rewrite Hk, Hss. simpl. rewrite Hsk. simpl. rewrite Hus, Hu. simpl. by rewrite Ha.
Qed.

Lemma staff_role_super : bool_decide (ROLE_SUPERADMIN ∈ [ROLE_ADMIN; ROLE_SUPERADMIN]) = true.
Proof. reflexivity. Qed.
Lemma staff_role_admin : bool_decide (ROLE_ADMIN ∈ [ROLE_ADMIN; ROLE_SUPERADMIN]) = true.
Proof. reflexivity. Qed.
Lemma staff_role_user : bool_decide (ROLE_USER ∈ [ROLE_ADMIN; ROLE_SUPERADMIN]) = false.
Proof. reflexivity. Qed.

#[export] Hint Rewrite staff_role_super staff_role_admin staff_role_user : taskdb.

Lemma admin_or_super_required_anonymous (v : user_view) (db : DB) (req : request) :
  session_user db req = None ->
  admin_or_super_required v db req = (Redirect "LOGIN_URL" None, db).
Proof. intros H. unfold admin_or_super_required, login_required. by rewrite H. Qed.

Lemma admin_or_super_required_user (v : user_view) (db : DB) (req : request) (pk : nat) (u : User) :
  session_user db req = Some (pk, u) -> role u = ROLE_USER ->
  admin_or_super_required v db req = (Forbidden "Access denied", db).
Proof.
  intros H Hr. unfold admin_or_super_required, login_required. rewrite H, Hr.
  by rewrite bool_decide_false by set_solver.
Qed.

Lemma admin_or_super_required_staff (v : user_view) (db : DB) (req : request) (pk : nat) (u : User) :
  session_user db req = Some (pk, u) -> role u <> ROLE_USER ->
  admin_or_super_required v db req = v pk u db req.
Proof.
  intros H Hr. unfold admin_or_super_required, login_required. rewrite H.
  rewrite bool_decide_true; [done|]. destruct (role u); set_solver.
Qed.

Lemma superadmin_required_other (v : user_view) (db : DB) (req : request) (pk : nat) (u : User) :
  session_user db req = Some (pk, u) -> role u <> ROLE_SUPERADMIN ->
  superadmin_required v db req = (Forbidden "Access denied", db).
Proof.
  intros H Hr. unfold superadmin_required, login_required. rewrite H.
  by rewrite decide_False.
Qed.

Lemma superadmin_required_super (v : user_view) (db : DB) (req : request) (pk : nat) (u : User) :
  session_user db req = Some (pk, u) -> role u = ROLE_SUPERADMIN ->
  superadmin_required v db req = v pk u db req.
Proof.
  intros H Hr. unfold superadmin_required, login_required. rewrite H.
  by rewrite decide_True.
Qed.

(** The ownership test on a task whose assignee row exists: it passes
    for a non-admin, and for an admin exactly when the admin manages the
    assignee. *)
Lemma owner_check_spec (db : DB) (uid : nat) (u : User) (t : Task) (a : User) (denied : response) :
  users db !! assigned_to t = Some a ->
  owner_check db uid u t denied =
    if decide (role u = ROLE_ADMIN) then check (bool_decide (admin a = Some uid)) denied
    else ret tt.
Proof. intros Ha. unfold owner_check. case_decide; [|done]. by rewrite Ha. Qed.

(** For a staff actor and a task whose assignee row exists, the ownership
    test is the specification's [can] for every action on a task but the
    user-only [UpdateOwnTask]. *)
Lemma owner_check_can (db : DB) (uid : nat) (u : User) (t : Task) (a : User)
    (denied : response) (act : Spec.action) :
  users db !! assigned_to t = Some a -> role u <> ROLE_USER -> act <> Spec.UpdateOwnTask ->
  owner_check db uid u t denied =
    if Spec.can uid u act (assigned_to t) a then ret tt else stop denied.
Proof.
  intros Ha Hr Hact. rewrite (owner_check_spec _ _ _ _ a) by done. unfold Spec.can.
  destruct (role u); [| | done]; simpl.
  - done.
  - destruct act; [| | | | | done]; by case_bool_decide.
Qed.

End Authz.
