(* ===== verification/Api.v ===== *)
(** * Api: serializers.py and api_views.py

    [TaskSerializer] (serializers.py 5-9) renders a task as the JSON
    object of its eight fields.  [TaskUpdateSerializer] (serializers.py
    11-18) validates a partial update of [status], [completion_report] and
    [worked_hours] with the DRF fields a ModelSerializer builds for them:
    a [ChoiceField], a [CharField(allow_blank=True)] that trims whitespace
    and refuses a NUL character, and an [IntegerField(allow_null=True)] bounded by the range of a
    PositiveIntegerField.  The three views of api_views.py are
    [TaskList_get], [TaskUpdate_put] and [TaskReport_get]; [APIView_dispatch]
    is DRF's [APIView.dispatch]: authentication and [IsAuthenticated] run
    before the handler of the method is looked up.
    [update_repr_roundtrip] sends the update's answer back through the
    serializer. *)

From S2P Require Import Prelude Models Http Fixtures Authz.
Import Models Http Fixtures Authz.

Module Api.

Local Open Scope view_scope.

(** ** Python on JSON values *)

(** [str(v)] of a JSON scalar. *)
Definition py_str (v : jval) : option string :=
  match v with
  | JStr s => Some s
  | JInt z => Some (pretty z)
  | JBool b => Some (if b then "True" else "False")%string
  | JNull => Some "None"%string
  | JOther => None
  end.

(** Truthiness of a value of [request.data.get(...)]; [None] is a
    missing key.  Arrays and objects ([JOther]) are taken as non-empty. *)
Definition py_truthy (o : option jval) : bool :=
  match o with
  | None | Some JNull => false
  | Some (JBool b) => b
  | Some (JInt z) => negb (Z.eqb z 0)
  | Some (JStr s) => py_truthy_str s
  | Some JOther => true
  end.

(** [request.data.get(k) is None] *)
Definition py_is_none (o : option jval) : bool :=
  match o with
  | None | Some JNull => true
  | _ => false
  end.

Fixpoint drop_while {A} (p : A -> bool) (l : list A) : list A :=
  match l with
  | [] => []
  | x :: l' => if p x then drop_while p l' else l
  end.

(** [IntegerField.re_decimal.sub('', s)] with [re_decimal =
    r'\.0*\s*$']: a trailing ".", zeros, whitespace is removed. *)
Definition re_decimal_sub (s : string) : string :=
  let r := rev (String.list_ascii_of_string s) in
  let r1 := drop_while py_isspace r in
  let r2 := drop_while (fun c => bool_decide (c = "0"%char)) r1 in
  match r2 with
  | c :: rest => if bool_decide (c = "."%char) then String.string_of_list_ascii (rev rest) else s
  | [] => s
  end.

(** The range Django gives a PositiveIntegerField
    ([integer_field_ranges]); ModelSerializer turns it into [min_value]
    and [max_value]. *)
Definition HOURS_MIN : Z := 0.
Definition HOURS_MAX : Z := 2147483647.
Definition MAX_STRING_LENGTH : nat := 1000.

Definition in_hours_range (z : Z) : option (option Z) :=
  if (HOURS_MIN <=? z)%Z && (z <=? HOURS_MAX)%Z then Some (Some z) else None.

(** The range of the [worked_hours] column. *)
Definition hours_in_range (t : Task) : Prop :=
  match worked_hours t with
  | Some z => (HOURS_MIN <= z <= HOURS_MAX)%Z
  | None => True
  end.

#[export] Instance hours_in_range_dec t : Decision (hours_in_range t).
Proof. unfold hours_in_range. destruct (worked_hours t); apply _. Defined.

Section serializers.
Context `{Platform}.

(** ** TaskSerializer (serializers.py 5-9) *)

Definition hours_json (h : option Z) : jval :=
  match h with Some z => JInt z | None => JNull end.

Definition task_repr (pk : nat) (t : Task) : json_obj :=
  [("id", JInt (Z.of_nat pk));
   ("title", JStr (title t));
   ("description", JStr (description t));
   ("assigned_to", JInt (Z.of_nat (assigned_to t)));
   ("due_date", JStr (date_isoformat (due_date t)));
   ("status", JStr (status_value (status t)));
   ("completion_report", JStr (completion_report t));
   ("worked_hours", hours_json (worked_hours t))]%string.

(** ** TaskUpdateSerializer (serializers.py 11-18) *)

(** [ChoiceField(choices=STATUS_CHOICES)]: [str(data)] must be a stored
    value; null is refused. *)
Definition status_field (v : jval) : option task_status :=
  match v with
  | JNull | JOther => None
  | _ => py_str v ≫= status_of_value
  end.

(** [CharField(allow_blank=True)] with [trim_whitespace=True]: strings
    and numbers are accepted as [str(data).strip()]; null, booleans,
    arrays and objects are refused; a non-blank value then goes through
    the field's [ProhibitNullCharactersValidator]. *)
Definition report_field (v : jval) : option string :=
  match v with
  | JStr s => let r := py_strip s in if has_nul r then None else Some r
  | JInt z => let r := py_strip (pretty z) in if has_nul r then None else Some r
  | _ => None
  end.

(** [IntegerField(allow_null=True, min_value=0, max_value=2147483647)]:
    null is accepted as [None]; a string is [int(re_decimal.sub('', s))]
    when at most [MAX_STRING_LENGTH] long; [int(str(True))] fails. *)
Definition hours_field (v : jval) : option (option Z) :=
  match v with
  | JNull => Some None
  | JInt z => in_hours_range z
  | JStr s =>
      if String.length s <=? MAX_STRING_LENGTH
      then py_int (re_decimal_sub s) ≫= in_hours_range
      else None
  | JBool _ | JOther => None
  end.

(** A partial update: [None] for a field absent from [request.data]. *)
Record TaskPatch := mkPatch {
  p_status : option task_status;
  p_report : option string;
  p_hours : option (option Z)
}.

(** One field under [partial=True]: absent is skipped ([Some None]),
    present is validated ([None] when invalid). *)
Definition validate_field {A} (f : jval -> option A) (d : gmap string jval) (name : string)
    : option (option A) :=
  match d !! name with
  | None => Some None
  | Some v => Some <$> f v
  end.

Definition field_error {A} (name : string) (r : option A) : list string :=
  match r with None => [name] | Some _ => [] end.

(** [serializer.is_valid()]: every field is validated, and the errors of
    all of them are reported. *)
Definition TaskUpdateSerializer_is_valid (d : gmap string jval) : list string + TaskPatch :=
  let st := validate_field status_field d "status"%string in
  let rp := validate_field report_field d "completion_report"%string in
  let hr := validate_field hours_field d "worked_hours"%string in
  match st, rp, hr with
  | Some st, Some rp, Some hr => inr (mkPatch st rp hr)
  | _, _, _ =>
      inl (field_error "status"%string st ++ field_error "completion_report"%string rp
           ++ field_error "worked_hours"%string hr)
  end.

(** [serializer.save()]: the validated fields are set on the instance,
    which is then saved whole. *)
Definition apply_patch (t : Task) (p : TaskPatch) : Task :=
  mkTask (title t) (description t) (assigned_to t) (due_date t)
    (default (status t) (p_status p))
    (default (completion_report t) (p_report p))
    (default (worked_hours t) (p_hours p)).

(** [serializer.data] after the save. *)
Definition update_repr (t : Task) : json_obj :=
  [("status", JStr (status_value (status t)));
   ("completion_report", JStr (completion_report t));
   ("worked_hours", hours_json (worked_hours t))]%string.

End serializers.

(** ** The views (api_views.py) *)

Section views.
Context `{Platform}.

Definition api_handler : Type := nat -> User -> DB -> request -> response * DB.

(** [APIView.dispatch]: authenticate, check [IsAuthenticated], then call
    the handler of the request method or answer 405. *)
Definition APIView_dispatch (handler : http_method -> option api_handler) (db : DB) (req : request)
    : response * DB :=
  run_view db (
    p <- api_user db req ;;
    h <- get_or MethodNotAllowed (handler (method req)) ;;
    ret (h p.1 p.2 db req)).

(** TaskList.get (api_views.py 18-24) *)
Definition TaskList_get (uid : nat) (u : User) (db : DB) (req : request) : response * DB :=
  run_view db (
    check (bool_decide (role u = ROLE_USER)) (Forbidden "Only users can access their tasks") ;;
    let ts := tasks_assigned_to db uid in
    ret (Ok (BList ((fun kt => task_repr kt.1 kt.2) <$> map_to_list ts)), db)).

(** The completion gate (api_views.py 36-42), on the raw [request.data]:
    the report must be truthy and the hours not None; then
    [request.data['worked_hours'] <= 0] compares the raw value with an
    int, which raises [TypeError] unless it is a number (a bool is
    the int 0 or 1). *)
Definition completion_gate (d : gmap string jval) : early response unit :=
  if bool_decide (d !! "status" = Some (JStr "completed")) then
    check (py_truthy (d !! "completion_report") && negb (py_is_none (d !! "worked_hours")))
      (BadRequest (BError "Completion report and worked hours are required when marking as completed")) ;;
    match d !! "worked_hours" with
    | Some (JInt z) => check (negb (z <=? 0)%Z) (BadRequest (BError "Worked hours must be positive"))
    | Some (JBool b) => check b (BadRequest (BError "Worked hours must be positive"))
    | _ => stop ServerError
    end
  else ret tt.

(** TaskUpdate.put (api_views.py 30-45) *)
Definition TaskUpdate_put (pk : nat) (uid : nat) (u : User) (db : DB) (req : request) : response * DB :=
  run_view db (
    check (bool_decide (role u = ROLE_USER)) (Forbidden "Only users can update their tasks") ;;
    task <- get_or NotFound (t ← tasks db !! pk; if decide (assigned_to t = uid) then Some t else None) ;;
    match TaskUpdateSerializer_is_valid (data req) with
    | inr p =>
        completion_gate (data req) ;;
        let t' := apply_patch task p in
        ret (Ok (BObj (update_repr t')), task_save db pk t')
    | inl errs => stop (BadRequest (BFieldErrors errs))
    end).

(** The body of a report (api_views.py 60-63). *)
Definition report_repr (t : Task) : json_obj :=
  [("completion_report", JStr (completion_report t));
   ("worked_hours", hours_json (worked_hours t))]%string.

(** TaskReport.get (api_views.py 51-63) *)
Definition TaskReport_get (pk : nat) (uid : nat) (u : User) (db : DB) (req : request) : response * DB :=
  run_view db (
    task <- get_or NotFound (tasks db !! pk) ;;
    check (bool_decide (status task = STATUS_COMPLETED))
      (BadRequest (BError "Report available only for completed tasks")) ;;
    check (bool_decide (role u ∈ [ROLE_ADMIN; ROLE_SUPERADMIN]))
      (Forbidden "Only admins and superadmins can view reports") ;;
    owner_check db uid u task (Forbidden "You can only view reports for your assigned users") ;;
    ret (Ok (BObj (report_repr task)), db)).

(** The three API endpoints with the methods their classes define. *)
Definition TaskList_view : DB -> request -> response * DB :=
  APIView_dispatch (fun m => match m with GET => Some TaskList_get | _ => None end).

Definition TaskUpdate_view (pk : nat) : DB -> request -> response * DB :=
  APIView_dispatch (fun m => match m with PUT => Some (TaskUpdate_put pk) | _ => None end).

Definition TaskReport_view (pk : nat) : DB -> request -> response * DB :=
  APIView_dispatch (fun m => match m with GET => Some (TaskReport_get pk) | _ => None end).

End views.

(** ** Lemmas on the serializer *)

Section serializer_lemmas.
Context `{Platform}.

Lemma in_hours_range_Some (z : Z) (h : option Z) :
  in_hours_range z = Some h -> h = Some z /\ (HOURS_MIN <= z <= HOURS_MAX)%Z.
Proof.
  unfold in_hours_range. destruct ((HOURS_MIN <=? z)%Z && (z <=? HOURS_MAX)%Z) eqn:E; [|done].
  intros [= <-]. apply andb_true_iff in E as [E1 E2]. split; [done | lia].
Qed.

(** A validated hour count is null or in the range of the column. *)
Lemma hours_field_range (v : jval) (z : Z) :
  hours_field v = Some (Some z) -> (HOURS_MIN <= z <= HOURS_MAX)%Z.
Proof.
  destruct v as [| | z' | s' |]; simpl; try discriminate.
  - intros Hz. by apply in_hours_range_Some in Hz as [[= ->] ?].
  - destruct (String.length s' <=? MAX_STRING_LENGTH); [|discriminate].
    destruct (py_int (re_decimal_sub s')) as [z'|]; simpl; [|discriminate].
    intros Hz. by apply in_hours_range_Some in Hz as [[= ->] ?].
Qed.

Lemma validate_field_Some {A} (f : jval -> option A) (d : gmap string jval) (name : string) (a : A) :
  validate_field f d name = Some (Some a) -> exists v, d !! name = Some v /\ f v = Some a.
Proof.
  unfold validate_field. destruct (d !! name) as [v|]; [|discriminate].
  destruct (f v) eqn:Hf; simpl; [intros [= ->]; eauto | discriminate].
Qed.

Lemma validate_field_absent {A} (f : jval -> option A) (d : gmap string jval) (name : string) :
  d !! name = None -> validate_field f d name = Some None.
Proof. unfold validate_field. by intros ->. Qed.

Lemma TaskUpdateSerializer_is_valid_inr (d : gmap string jval) (p : TaskPatch) :
  TaskUpdateSerializer_is_valid d = inr p ->
  validate_field status_field d "status" = Some (p_status p) /\
  validate_field report_field d "completion_report" = Some (p_report p) /\
  validate_field hours_field d "worked_hours" = Some (p_hours p).
Proof.
  unfold TaskUpdateSerializer_is_valid.
  destruct (validate_field status_field d _) as [st|];
  destruct (validate_field report_field d _) as [rp|];
  destruct (validate_field hours_field d _) as [hr|]; try discriminate.
  by intros [= <-].
Qed.

(** A validated report is stripped and holds no NUL. *)
Lemma report_field_Some (v : jval) (r : string) :
  report_field v = Some r -> py_strip r = r /\ has_nul r = false.
Proof.
  destruct v; simpl; try discriminate; case_match eqn:E; intros [=<-]; split; by try apply py_strip_idem.
Qed.

Lemma patch_report_canonical (d : gmap string jval) (p : TaskPatch) (r : string) :
  TaskUpdateSerializer_is_valid d = inr p -> p_report p = Some r -> py_strip r = r /\ has_nul r = false.
Proof.
  intros Hv Hp. apply TaskUpdateSerializer_is_valid_inr in Hv as (_ & Hr & _).
  rewrite Hp in Hr. apply validate_field_Some in Hr as (v & _ & Hv).
  by eapply report_field_Some.
Qed.

(** The patch of a valid request writes hours only within the range. *)
Lemma patch_hours_range (d : gmap string jval) (p : TaskPatch) (z : Z) :
  TaskUpdateSerializer_is_valid d = inr p -> p_hours p = Some (Some z) ->
  (HOURS_MIN <= z <= HOURS_MAX)%Z.
Proof.
  intros Hv Hp. apply TaskUpdateSerializer_is_valid_inr in Hv as (_ & _ & Hh).
  rewrite Hp in Hh. apply validate_field_Some in Hh as (v & _ & Hv).
  by eapply hours_field_range.
Qed.

(** What the completion gate lets through when the status asked for is
    "completed": a truthy raw report and a positive number of hours (a
    bool [True] counts as 1). *)
Lemma completion_gate_pass (d : gmap string jval) :
  d !! "status" = Some (JStr "completed") -> completion_gate d = inr tt ->
  py_truthy (d !! "completion_report") = true /\
  ((exists z, d !! "worked_hours" = Some (JInt z) /\ (0 < z)%Z) \/
   d !! "worked_hours" = Some (JBool true)).
Proof.
  intros Hs Hg. unfold completion_gate in Hg. rewrite bool_decide_true in Hg by done.
  destruct (py_truthy _ && negb (py_is_none _)) eqn:Hc; simpl in Hg; [|discriminate].
  apply andb_true_iff in Hc as [Hr _]. split; [done|].
  destruct (d !! "worked_hours") as [[| b | z | | ]|]; simpl in Hg; try discriminate.
  - destruct b; [auto | discriminate].
  - destruct (z <=? 0)%Z eqn:Hz; simpl in Hg; [discriminate|]. left. exists z.
    split; [done|]. by apply Z.leb_gt.
Qed.

(** A request that asks for "completed" without a truthy report, without
    hours, or with hours [<= 0] is refused by the gate with a 400. *)
Lemma completion_gate_refuse (d : gmap string jval) :
  d !! "status" = Some (JStr "completed") ->
  (py_truthy (d !! "completion_report") = false \/ py_is_none (d !! "worked_hours") = true \/
   exists z, d !! "worked_hours" = Some (JInt z) /\ (z <= 0)%Z) ->
  exists b, completion_gate d = inl (BadRequest b).
Proof.
  intros Hs Hbad. unfold completion_gate. rewrite bool_decide_true by done.
  destruct Hbad as [Hr | [Hn | (z & Hz & Hle)]].
  - rewrite Hr. simpl. eauto.
  - rewrite Hn, andb_false_r. simpl. eauto.
  - rewrite Hz. simpl. destruct (py_truthy _); simpl; [|eauto].
    replace (z <=? 0)%Z with true by lia. simpl. eauto.
Qed.

(** The fields a stored task shows the update serializer: a trimmed
    report with no NUL and hours in the column's range. *)
Definition update_fields_canonical (t : Task) : Prop :=
  py_strip (completion_report t) = completion_report t /\ has_nul (completion_report t) = false /\
  hours_in_range t.

(** [request.data] of a JSON object. *)
Definition json_dict (o : json_obj) : gmap string jval := list_to_map o.

(** Round trip of [TaskUpdateSerializer]: the representation it answers
    after a save, sent back as the body of a PUT, validates, and the
    patch it gives leaves the task as it was. *)
Lemma update_repr_roundtrip (t : Task) :
  update_fields_canonical t ->
  exists p, TaskUpdateSerializer_is_valid (json_dict (update_repr t)) = inr p /\ apply_patch t p = t.
Proof.
  intros (Hr & Hn & Hh). unfold TaskUpdateSerializer_is_valid, validate_field.
  assert (Hs : status_field (JStr (status_value (status t))) = Some (status t)) by (by destruct (status t)).
  assert (Hw : hours_field (hours_json (worked_hours t)) = Some (worked_hours t)).
  { unfold hours_in_range in Hh. destruct (worked_hours t) as [z|]; [|done]. simpl.
    unfold in_hours_range. rewrite (proj2 (andb_true_iff _ _)); [done|]. split; apply Z.leb_le; lia. }
  assert (E1 : json_dict (update_repr t) !! "status" = Some (JStr (status_value (status t))))
    by reflexivity.
  assert (E2 : json_dict (update_repr t) !! "completion_report" = Some (JStr (completion_report t)))
    by reflexivity.
  assert (E3 : json_dict (update_repr t) !! "worked_hours" = Some (hours_json (worked_hours t)))
    by reflexivity.
  rewrite E1, E2, E3, Hs, Hw. simpl. rewrite Hr, Hn.
  eexists. split; [reflexivity|]. by destruct t.
Qed.

End serializer_lemmas.

(** ** Lemmas on the views *)

Section view_lemmas.
Context `{Platform}.

Lemma APIView_dispatch_auth (handler : http_method -> option api_handler) (db : DB) (req : request)
    (uid : nat) (u : User) (h : api_handler) :
  api_user db req = inr (uid, u) -> handler (method req) = Some h ->
  APIView_dispatch handler db req = h uid u db req.
Proof. intros Hu Hh. unfold APIView_dispatch. by rewrite Hu; simpl; rewrite Hh. Qed.

(** Either dispatch answers before any handler runs, leaving the store,
    or it runs the handler of the method for the authenticated user. *)
Lemma APIView_dispatch_cases (handler : http_method -> option api_handler) (db db' : DB)
    (req : request) (r : response) :
  APIView_dispatch handler db req = (r, db') ->
  (db' = db /\ (r = Unauthorized \/ r = MethodNotAllowed)) \/
  exists uid u h, api_user db req = inr (uid, u) /\
    handler (method req) = Some h /\ h uid u db req = (r, db').
Proof.
  unfold APIView_dispatch, api_user.
  destruct (token req ≫= _) as [[uid u]|]; simpl.
  - destruct (handler (method req)) as [h|]; simpl.
    + intros Hh. right. eauto 10.
    + intros [= <- <-]. by left; auto.
  - intros [= <- <-]. by left; auto.
Qed.

(** A property of every answer of a DRF view: the two answers of the
    dispatch itself and every answer of the handler. *)
Lemma APIView_dispatch_answers (Q : response -> Prop) (handler : http_method -> option api_handler)
    (db : DB) (req : request) :
  Q Unauthorized -> Q MethodNotAllowed ->
  (forall m h uid u, handler m = Some h -> Q (h uid u db req).1) -> Q (APIView_dispatch handler db req).1.
Proof.
  intros Hu Hm Hh. destruct (APIView_dispatch handler db req) as [r db'] eqn:E.
  apply APIView_dispatch_cases in E as [[_ [-> | ->]] | (uid & u & h & _ & Hk & Hrun)]; [done..|].
  change r with (r, db').1. rewrite <- Hrun. by eapply Hh.
Qed.

(** The only write of [TaskUpdate.put]: the task [pk] of the requesting
    user, patched with the validated fields, after the gate. *)
Lemma TaskUpdate_put_cases (pk uid : nat) (u : User) (db db' : DB) (req : request) (r : response) :
  TaskUpdate_put pk uid u db req = (r, db') ->
  (db' = db /\ forall b, r <> Ok b) \/
  (role u = ROLE_USER /\ exists t p, tasks db !! pk = Some t /\ assigned_to t = uid /\
     TaskUpdateSerializer_is_valid (data req) = inr p /\ completion_gate (data req) = inr tt /\
     r = Ok (BObj (update_repr (apply_patch t p))) /\ db' = task_save db pk (apply_patch t p)).
Proof.
  unfold TaskUpdate_put. case_bool_decide as Hr; simpl; [|intros [= <- <-]; by left].
  destruct (tasks db !! pk) as [t|] eqn:Ht; simpl; [|intros [= <- <-]; by left].
  case_decide as Ha; simpl; [|intros [= <- <-]; by left].
  destruct (TaskUpdateSerializer_is_valid (data req)) as [errs|p] eqn:Hv; simpl;
    [intros [= <- <-]; by left|].
  destruct (completion_gate (data req)) as [e|[]] eqn:Hg; simpl.
  - intros [= <- <-]. left. split; [done|]. intros b ->.
    unfold completion_gate in Hg. case_bool_decide; [|done].
    destruct (py_truthy _ && _); simpl in Hg; [|done].
    by destruct (data req !! "worked_hours") as [[| [] | z | |]|];
      simpl in Hg; try destruct (z <=? 0)%Z.
  - intros [= <- <-]. right. split; [done|]. exists t, p. auto 10.
Qed.

Lemma TaskUpdate_view_cases (pk : nat) (db db' : DB) (req : request) (r : response) :
  TaskUpdate_view pk db req = (r, db') ->
  (db' = db /\ forall b, r <> Ok b) \/
  exists uid u t p, api_user db req = inr (uid, u) /\ method req = PUT /\ role u = ROLE_USER /\
     tasks db !! pk = Some t /\ assigned_to t = uid /\
     TaskUpdateSerializer_is_valid (data req) = inr p /\ completion_gate (data req) = inr tt /\
     r = Ok (BObj (update_repr (apply_patch t p))) /\ db' = task_save db pk (apply_patch t p).
Proof.
  intros Hv. apply APIView_dispatch_cases in Hv as [[-> Hr] | (uid & u & h & Hu & Hh & Hrun)].
  { left. split; [done|]. intros b ->. naive_solver. }
  destruct (method req) eqn:Hm; simplify_eq.
  apply TaskUpdate_put_cases in Hrun as [? | (Hr & t & p & ?)]; [by left|].
  right. exists uid, u, t, p. naive_solver.
Qed.

(** A complete, valid completion request of the assignee: the task
    becomes completed with the stripped report and the hours. *)
Lemma TaskUpdate_complete_result (pk uid : nat) (u : User) (t : Task) (db : DB) (req : request)
    (s : string) (z : Z) :
  api_user db req = inr (uid, u) -> method req = PUT -> role u = ROLE_USER ->
  tasks db !! pk = Some t -> assigned_to t = uid ->
  data req !! "status" = Some (JStr "completed") ->
  data req !! "completion_report" = Some (JStr s) ->
  data req !! "worked_hours" = Some (JInt z) ->
  s <> EmptyString -> has_nul (py_strip s) = false -> (0 < z <= HOURS_MAX)%Z ->
  let t' := mkTask (title t) (description t) (assigned_to t) (due_date t)
              STATUS_COMPLETED (py_strip s) (Some z) in
  TaskUpdate_view pk db req = (Ok (BObj (update_repr t')), task_save db pk t').
Proof.
  intros Hu Hm Hr Ht Ha Hs Hrep Hh Hne Hnul Hz t'.
  unfold TaskUpdate_view.
  rewrite (APIView_dispatch_auth _ _ _ uid u (TaskUpdate_put pk)) by (by rewrite ?Hm).
  assert (Hrange : in_hours_range z = Some (Some z)).
  { unfold in_hours_range, HOURS_MIN.
    replace ((0 <=? z)%Z && (z <=? HOURS_MAX)%Z) with true; [done|].
    symmetry. apply andb_true_iff. split; apply Z.leb_le; lia. }
  assert (Hv : TaskUpdateSerializer_is_valid (data req) =
               inr (mkPatch (Some STATUS_COMPLETED) (Some (py_strip s)) (Some (Some z)))).
  { unfold TaskUpdateSerializer_is_valid, validate_field. rewrite Hs, Hrep, Hh.
    simpl. by rewrite Hnul, Hrange. }
  assert (Hg : completion_gate (data req) = inr tt).
  { unfold completion_gate. rewrite bool_decide_true by done. rewrite Hrep, Hh. simpl.
    rewrite py_truthy_str_true by done. simpl. by replace (z <=? 0)%Z with false by lia. }
  unfold TaskUpdate_put. rewrite bool_decide_true by done. simpl.
  rewrite Ht. simpl. rewrite decide_True by done. simpl. by rewrite Hv, Hg.
Qed.

End view_lemmas.

(** ** Properties of the API *)

Section api_properties.
Context `{Platform}.

(** C1: the completion gate is atomic.  A PUT on [/tasks/<pk>/] asking
    for status "completed" with a missing or empty report, missing or
    null hours, or hours [<= 0] changes nothing in the store and is not
    answered with success, whoever sends it. *)
Theorem TaskUpdate_gate_atomic (pk : nat) (db db' : DB) (req : request) (r : response) :
  data req !! "status" = Some (JStr "completed") ->
  (py_truthy (data req !! "completion_report") = false \/
   py_is_none (data req !! "worked_hours") = true \/
   exists z, data req !! "worked_hours" = Some (JInt z) /\ (z <= 0)%Z) ->
  TaskUpdate_view pk db req = (r, db') ->
  db' = db /\ forall b, r <> Ok b.
Proof.
  intros Hs Hbad Hv.
  apply TaskUpdate_view_cases in Hv as [Hkeep | (uid & u & t & p & _ & _ & _ & _ & _ & _ & Hg & _)];
    [done|].
  destruct (completion_gate_refuse (data req) Hs Hbad) as [b Hb]. congruence.
Qed.

(** C5: a completion request of the assignee with a report that is not
    all whitespace and holds no NUL character, and hours in
    [1, 2147483647], succeeds: the task is
    stored completed with the stripped report and the hours, every other
    field unchanged, and it satisfies the completion invariant. *)
Theorem TaskUpdate_complete_ok (pk uid : nat) (u : User) (t : Task) (db : DB) (req : request)
    (s : string) (z : Z) :
  api_user db req = inr (uid, u) -> method req = PUT -> role u = ROLE_USER ->
  tasks db !! pk = Some t -> assigned_to t = uid ->
  data req !! "status" = Some (JStr "completed") ->
  data req !! "completion_report" = Some (JStr s) ->
  data req !! "worked_hours" = Some (JInt z) ->
  all_space s = false -> has_nul s = false -> (0 < z <= HOURS_MAX)%Z ->
  let t' := mkTask (title t) (description t) uid (due_date t)
              STATUS_COMPLETED (py_strip s) (Some z) in
  TaskUpdate_view pk db req = (Ok (BObj (update_repr t')), task_save db pk t') /\
  completion_ok t'.
Proof.
  intros Hu Hm Hr Ht Ha Hs Hrep Hh Hsp Hnul Hz t'.
  assert (Hne : s <> EmptyString) by (intros ->; discriminate).
  split.
  - subst uid t'. apply (TaskUpdate_complete_result pk (assigned_to t) u t db req s z); auto using py_strip_has_nul.
  - unfold t', completion_ok. simpl. split; [rewrite py_strip_empty_iff; congruence | lia].
Qed.

(** C6: the API writes only the requesting user's own task, and only
    its status, report and hours: a [TaskUpdate] request either leaves
    the store unchanged or replaces task [pk], assigned to the token's
    user of role "user", by a task with the same title, description,
    assignee and due date. *)
Theorem TaskUpdate_write_scope (pk : nat) (db db' : DB) (req : request) (r : response) :
  TaskUpdate_view pk db req = (r, db') ->
  db' = db \/
  exists uid u t t', api_user db req = inr (uid, u) /\ role u = ROLE_USER /\
    tasks db !! pk = Some t /\ assigned_to t = uid /\ db' = task_save db pk t' /\
    title t' = title t /\ description t' = description t /\
    assigned_to t' = assigned_to t /\ due_date t' = due_date t.
Proof.
  intros Hv. apply TaskUpdate_view_cases in Hv as [[-> _] | (uid & u & t & p & Hu & _ & Hr & Ht & Ha & _ & _ & _ & ->)];
    [by left|].
  right. exists uid, u, t, (apply_patch t p). by split_and!.
Qed.

(** C15 (finding): a report made only of whitespace passes the gate,
    which tests the raw value, and is stored as the empty string, since
    the serializer strips it: the task is stored completed with an empty
    report, breaking the completion invariant. *)
Theorem TaskUpdate_blank_report_completes (pk uid : nat) (u : User) (t : Task) (db : DB)
    (req : request) (s : string) (z : Z) :
  api_user db req = inr (uid, u) -> method req = PUT -> role u = ROLE_USER ->
  tasks db !! pk = Some t -> assigned_to t = uid ->
  data req !! "status" = Some (JStr "completed") ->
  data req !! "completion_report" = Some (JStr s) ->
  data req !! "worked_hours" = Some (JInt z) ->
  s <> EmptyString -> all_space s = true -> (0 < z <= HOURS_MAX)%Z ->
  exists t', TaskUpdate_view pk db req = (Ok (BObj (update_repr t')), task_save db pk t') /\
    status t' = STATUS_COMPLETED /\ completion_report t' = EmptyString /\ ~ completion_ok t'.
Proof.
  intros Hu Hm Hr Ht Ha Hs Hrep Hh Hne Hsp Hz.
  apply py_strip_empty_iff in Hsp.
  eexists. split; [eapply TaskUpdate_complete_result; eauto; by rewrite Hsp|]. rewrite Hsp. simpl. split_and!; [done..|].
  unfold completion_ok. simpl. tauto.
Qed.

(** C16 (finding): a PUT of [{"completion_report": ""}] on a completed task
    skips the gate, which only runs when the request names the status,
    and stores the task still completed but with an empty report. *)
Theorem TaskUpdate_clear_report_keeps_completed (pk uid : nat) (u : User) (t : Task) (db : DB)
    (req : request) :
  api_user db req = inr (uid, u) -> method req = PUT -> role u = ROLE_USER ->
  tasks db !! pk = Some t -> assigned_to t = uid -> status t = STATUS_COMPLETED ->
  data req = {["completion_report" := JStr ""]} ->
  let t' := mkTask (title t) (description t) (assigned_to t) (due_date t)
              STATUS_COMPLETED "" (worked_hours t) in
  TaskUpdate_view pk db req = (Ok (BObj (update_repr t')), task_save db pk t') /\
  ~ completion_ok t'.
Proof.
  intros Hu Hm Hr Ht Ha Hst Hd t'. split.
  - unfold TaskUpdate_view. rewrite (APIView_dispatch_auth _ _ _ uid u (TaskUpdate_put pk)) by (by rewrite ?Hm).
    unfold TaskUpdate_put. rewrite bool_decide_true by done. simpl.
    rewrite Ht. simpl. rewrite decide_True by done. simpl. rewrite Hd. simpl.
    unfold t', apply_patch. simpl. by rewrite Hst.
  - unfold completion_ok. simpl. tauto.
Qed.

(** C17 (finding): [worked_hours] sent as a JSON string the serializer
    accepts (such as "5"), with a non-empty report the serializer
    accepts (no NUL character), reaches [request.data['worked_hours'] <= 0],
    which compares a str with an int and raises: the request fails with
    a 500 and the task is not completed. *)
Theorem TaskUpdate_string_hours_crash (pk uid : nat) (u : User) (t : Task) (db : DB)
    (req : request) (rep h : string) (z : Z) :
  api_user db req = inr (uid, u) -> method req = PUT -> role u = ROLE_USER ->
  tasks db !! pk = Some t -> assigned_to t = uid ->
  data req !! "status" = Some (JStr "completed") ->
  data req !! "completion_report" = Some (JStr rep) -> rep <> EmptyString -> has_nul rep = false ->
  data req !! "worked_hours" = Some (JStr h) -> hours_field (JStr h) = Some (Some z) ->
  TaskUpdate_view pk db req = (ServerError, db).
Proof.
  intros Hu Hm Hr Ht Ha Hs Hrep Hne Hnul Hh Hz.
  unfold TaskUpdate_view. rewrite (APIView_dispatch_auth _ _ _ uid u (TaskUpdate_put pk)) by (by rewrite ?Hm).
  unfold TaskUpdate_put. rewrite bool_decide_true by done. simpl.
  rewrite Ht. simpl. rewrite decide_True by done. simpl.
  unfold TaskUpdateSerializer_is_valid, validate_field. rewrite Hs, Hrep, Hh, Hz. simpl.
  rewrite py_strip_has_nul by done.
  unfold completion_gate. rewrite bool_decide_true by done. rewrite Hrep, Hh. simpl.
  by rewrite py_truthy_str_true.
Qed.

(** C13: [GET /tasks/] by an authenticated user of role "user" lists
    exactly the tasks assigned to that user, each serialized with all
    eight fields of [TaskSerializer] (the report and the hours included),
    and changes nothing. *)
Theorem TaskList_exact (db : DB) (req : request) (uid : nat) (u : User) :
  api_user db req = inr (uid, u) -> method req = GET -> role u = ROLE_USER ->
  exists l, TaskList_view db req = (Ok (BList l), db) /\
    forall o, o ∈ l <-> exists k t, tasks db !! k = Some t /\ assigned_to t = uid /\ o = task_repr k t.
Proof.
  intros Hu Hm Hr. unfold TaskList_view.
  rewrite (APIView_dispatch_auth _ _ _ uid u TaskList_get) by (by rewrite ?Hm).
  unfold TaskList_get. rewrite bool_decide_true by done. simpl.
  eexists. split; [reflexivity|]. intros o. rewrite list_elem_of_fmap. split.
  - intros ([k t] & -> & Hin). apply elem_of_map_to_list in Hin.
    apply map_lookup_filter_Some in Hin as [Hk Ha]. eauto.
  - intros (k & t & Hk & Ha & ->). exists (k, t). split; [done|].
    apply elem_of_map_to_list, map_lookup_filter_Some. auto.
Qed.

(** C21: the report of a task that is not completed is refused with the
    400 "Report available only for completed tasks", whatever the role
    of the requester, and nothing changes. *)
Theorem TaskReport_not_completed (pk : nat) (db : DB) (req : request) (uid : nat) (u : User) (t : Task) :
  api_user db req = inr (uid, u) -> method req = GET ->
  tasks db !! pk = Some t -> status t <> STATUS_COMPLETED ->
  TaskReport_view pk db req = (BadRequest (BError "Report available only for completed tasks"), db).
Proof.
  intros Hu Hm Ht Hs. unfold TaskReport_view.
  rewrite (APIView_dispatch_auth _ _ _ uid u (TaskReport_get pk)) by (by rewrite ?Hm).
  unfold TaskReport_get. rewrite Ht. simpl. by rewrite bool_decide_false.
Qed.

(** C3: on a completed task the report view implements the
    specification's [can ViewReport]: it answers the report exactly when
    the requester is a superadmin or the admin managing the assignee, and
    a 403 otherwise; it never writes. *)
Theorem TaskReport_refines_can (pk : nat) (db : DB) (req : request) (uid : nat) (u : User)
    (t : Task) (a : User) :
  api_user db req = inr (uid, u) -> method req = GET ->
  tasks db !! pk = Some t -> status t = STATUS_COMPLETED -> users db !! assigned_to t = Some a ->
  (TaskReport_view pk db req).2 = db /\
  ((TaskReport_view pk db req).1 = Ok (BObj (report_repr t)) <->
   Spec.can uid u Spec.ViewReport (assigned_to t) a = true) /\
  (Spec.can uid u Spec.ViewReport (assigned_to t) a = false ->
   exists msg, (TaskReport_view pk db req).1 = Forbidden msg).
Proof.
  intros Hu Hm Ht Hs Ha. unfold TaskReport_view.
  rewrite (APIView_dispatch_auth _ _ _ uid u (TaskReport_get pk)) by (by rewrite ?Hm).
  unfold TaskReport_get. rewrite Ht. simpl. rewrite bool_decide_true by done. simpl.
  rewrite (owner_check_spec _ _ _ _ a) by done. unfold Spec.can.
  destruct (role u) eqn:Hr; autorewrite with taskdb; simpl.
  - try rewrite decide_False by discriminate. simpl. naive_solver.
  - try rewrite decide_True by done. case_bool_decide; simpl; naive_solver.
  - naive_solver.
Qed.

(** C14: the hours stored through the API stay in the range of the
    column: if every task's hours are null or in [0, 2147483647] before a
    [TaskUpdate] request, they are after it. *)
Theorem TaskUpdate_hours_in_range (pk : nat) (db db' : DB) (req : request) (r : response) :
  map_Forall (fun _ t => hours_in_range t) (tasks db) ->
  TaskUpdate_view pk db req = (r, db') ->
  map_Forall (fun _ t => hours_in_range t) (tasks db').
Proof.
  intros Hall Hv.
  apply TaskUpdate_view_cases in Hv as [[-> _] | (uid & u & t & p & _ & _ & _ & Ht & _ & Hp & _ & _ & ->)];
    [done|].
  apply map_Forall_insert_2; [|done]. unfold hours_in_range, apply_patch. simpl.
  destruct (p_hours p) as [[z|]|] eqn:Hh; simpl; [| done |].
  - by eapply patch_hours_range.
  - by apply (Hall pk t).
Qed.

(** C20 (finding): the API's update refuses every actor who is not a
    "user", whatever the task: an admin who manages the assignee, and the
    superadmin, are answered 403 and nothing is written, whereas the
    specification's scenario lets the managing admin complete the task
    through [updateTask]. *)
Theorem TaskUpdate_staff_forbidden (pk : nat) (db : DB) (req : request) (uid : nat) (u : User) :
  api_user db req = inr (uid, u) -> method req = PUT -> role u <> ROLE_USER ->
  TaskUpdate_view pk db req = (Forbidden "Only users can update their tasks", db).
Proof.
  intros Hu Hm Hr. unfold TaskUpdate_view, APIView_dispatch. rewrite Hu, Hm. simpl.
  unfold TaskUpdate_put. by rewrite bool_decide_false.
Qed.

End api_properties.

Section api_witnesses.
#[local] Existing Instance test_platform.

Definition sample_put (d : gmap string jval) : request := api_req (Some 3) PUT d.

Definition gate_req : request :=
  sample_put (<["status" := JStr "completed"]> (<["completion_report" := JStr "done"]>
              {["worked_hours" := JInt 0]})).

(** The scenario of the specification: U1 asks to complete task 1 with
    [worked_hours = 0]; the store is unchanged. *)
Lemma TaskUpdate_gate_atomic_witness :
  (TaskUpdate_view 1 sample_db gate_req).2 = sample_db.
Proof.
  refine (proj1 (TaskUpdate_gate_atomic 1 sample_db _ gate_req _ _ _ _)); [reflexivity | | ].
  - right. right. exists 0%Z. split; [reflexivity | lia].
  - apply surjective_pairing.
Defined.

Definition complete_req : request :=
  sample_put (<["status" := JStr "completed"]> (<["completion_report" := JStr " done "]>
              {["worked_hours" := JInt 5]})).

Lemma TaskUpdate_complete_ok_witness :
  completion_ok (mkTask "write report" "first task" 3 100 STATUS_COMPLETED "done" (Some 5%Z)).
Proof.
  refine (proj2 (TaskUpdate_complete_ok 1 3 user_U1 task_1 sample_db complete_req " done " 5
                   _ _ _ _ _ _ _ _ _ _ _)); try reflexivity.
  unfold HOURS_MAX. lia.
Defined.

Lemma TaskUpdate_write_scope_witness :
  (TaskUpdate_view 1 sample_db complete_req).2 = sample_db \/
  exists uid u t t', api_user sample_db complete_req = inr (uid, u) /\ role u = ROLE_USER /\
    tasks sample_db !! 1 = Some t /\ assigned_to t = uid /\
    (TaskUpdate_view 1 sample_db complete_req).2 = task_save sample_db 1 t' /\
    title t' = title t /\ description t' = description t /\
    assigned_to t' = assigned_to t /\ due_date t' = due_date t.
Proof.
  apply (TaskUpdate_write_scope 1 sample_db _ complete_req (TaskUpdate_view 1 sample_db complete_req).1).
  apply surjective_pairing.
Defined.

Definition blank_req : request :=
  sample_put (<["status" := JStr "completed"]> (<["completion_report" := JStr "   "]>
              {["worked_hours" := JInt 3]})).

Lemma TaskUpdate_blank_report_completes_witness :
  exists t', TaskUpdate_view 1 sample_db blank_req = (Ok (BObj (update_repr t')), task_save sample_db 1 t') /\
    status t' = STATUS_COMPLETED /\ completion_report t' = EmptyString /\ ~ completion_ok t'.
Proof.
  apply (TaskUpdate_blank_report_completes 1 3 user_U1 task_1 sample_db blank_req "   " 3);
    try reflexivity; try discriminate. unfold HOURS_MAX. lia.
Defined.

Definition clear_req : request := sample_put {["completion_report" := JStr ""]}.

Lemma TaskUpdate_clear_report_keeps_completed_witness :
  ~ completion_ok (mkTask "deploy" "third task" 3 102 STATUS_COMPLETED "" (Some 5%Z)).
Proof.
  exact (proj2 (TaskUpdate_clear_report_keeps_completed 3 3 user_U1 task_3 sample_db clear_req
                  eq_refl eq_refl eq_refl eq_refl eq_refl eq_refl eq_refl)).
Defined.

Definition string_hours_req : request :=
  sample_put (<["status" := JStr "completed"]> (<["completion_report" := JStr "done"]>
              {["worked_hours" := JStr "5"]})).

Lemma TaskUpdate_string_hours_crash_witness :
  TaskUpdate_view 1 sample_db string_hours_req = (ServerError, sample_db).
Proof.
  apply (TaskUpdate_string_hours_crash 1 3 user_U1 task_1 sample_db string_hours_req "done" "5" 5);
    try reflexivity; discriminate.
Defined.

Lemma TaskList_exact_witness :
  exists l, TaskList_view sample_db (api_req (Some 3) GET ∅) = (Ok (BList l), sample_db) /\
    forall o, o ∈ l <-> exists k t, tasks sample_db !! k = Some t /\ assigned_to t = 3 /\ o = task_repr k t.
Proof. apply (TaskList_exact sample_db _ 3 user_U1); reflexivity. Defined.

Lemma TaskReport_not_completed_witness :
  TaskReport_view 1 sample_db (api_req (Some 2) GET ∅) =
  (BadRequest (BError "Report available only for completed tasks"), sample_db).
Proof.
  apply (TaskReport_not_completed 1 sample_db _ 2 admin_A task_1); try reflexivity. discriminate.
Defined.

(** Admin B does not manage U1: the report of U1's completed task 3 is
    refused to B. *)
Lemma TaskReport_refines_can_witness :
  exists msg, (TaskReport_view 3 sample_db (api_req (Some 5) GET ∅)).1 = Forbidden msg.
Proof.
  apply (TaskReport_refines_can 3 sample_db (api_req (Some 5) GET ∅) 5 admin_B task_3 user_U1);
    reflexivity.
Defined.

Lemma TaskUpdate_hours_in_range_witness :
  map_Forall (fun _ t => hours_in_range t) (tasks (TaskUpdate_view 1 sample_db complete_req).2).
Proof.
  apply (TaskUpdate_hours_in_range 1 sample_db _ complete_req (TaskUpdate_view 1 sample_db complete_req).1).
  - refine (bool_decide_eq_true_1 _ _). vm_compute. reflexivity.
  - apply surjective_pairing.
Defined.

(** The scenario of the specification: admin A (pk 2), who manages U1,
    asks to complete U1's task 1 with a report and 5 hours. *)
Lemma TaskUpdate_staff_forbidden_witness :
  TaskUpdate_view 1 sample_db (api_req (Some 2) PUT complete_req.(data)) =
    (Forbidden "Only users can update their tasks", sample_db).
Proof. apply (TaskUpdate_staff_forbidden 1 sample_db _ 2 admin_A); [reflexivity | reflexivity | discriminate]. Defined.

End api_witnesses.

End Api.
