(* ===== verification/Forms.v ===== *)
(** * Forms: the forms of admin_views.py and how Django cleans them

    A bound form reads [request.POST] (a missing key reads as the empty
    string), cleans each field, then runs the model's validation
    ([ModelForm._post_clean]: [full_clean] on the fields of the form, with
    [limit_choices_to] of a foreign key checked against the database, and
    [validate_unique]).  The result is the list of the fields in error, or
    the cleaned values.

    - [TaskForm] (admin_views.py 45-59): title, description, assigned_to,
      due_date, status; the choices of [assigned_to] are the actor's
      [assigned_users] for an admin and every role "user" otherwise, and
      the model adds [limit_choices_to={'role': 'user'}] (models.py 43).
    - [CustomUserCreationForm] (admin_views.py 28-34): username, role,
      admin (optional, among the role "admin" users), password1,
      password2.
    - [CustomUserChangeForm] (admin_views.py 36-43): username, role, admin.

    The field cleaners follow django.forms.fields: [CharField] strips and
    refuses an empty required value, a value longer than [max_length] and
    a NUL character; [ChoiceField] accepts the stored values;
    [ModelChoiceField] looks the pk up in its queryset. *)

From S2P Require Import Prelude Models Http.
Import Models Http.

Module Forms.

(** [data.get(name)] of a QueryDict, with [None] cleaned to [''] *)
Definition field_value (post : gmap string string) (name : string) : string :=
  default EmptyString (post !! name).

(** [forms.CharField(required=..., max_length=..., strip=True)] *)
Definition clean_char (required : bool) (max_length : option nat) (v : string) : option string :=
  let s := py_strip v in
  if bool_decide (s = EmptyString) then (if required then None else Some EmptyString)
  else if has_nul s then None
  else match max_length with
       | Some n => if String.length s <=? n then Some s else None
       | None => Some s
       end.

(** A password field: [CharField(strip=False)], required. *)
Definition clean_password (v : string) : option string :=
  if bool_decide (v = EmptyString) || has_nul v then None else Some v.

(** The first field whose cleaning failed, as the error list. *)
Definition error_if_none {A} (name : string) (r : option A) : list string :=
  match r with None => [name] | Some _ => [] end.

(** [User.objects.filter(username=...)] other than [self_pk] is empty. *)
Definition username_free (db : DB) (self_pk : option nat) (name : string) : bool :=
  bool_decide (map_Forall (fun k u => Some k = self_pk \/ username u <> name) (users db)).

(** [ForeignKey.validate]: the referenced row exists and satisfies
    [limit_choices_to={'role': r}]. *)
Definition fk_role_ok (db : DB) (r : Role) (pk : nat) : bool :=
  bool_decide (role <$> users db !! pk = Some r).

Section cleaning.
Context `{Platform}.

(** [ModelChoiceField(queryset).clean]: [None] is an error, [Some None]
    the empty value of an optional field, [Some (Some pk)] a row of the
    queryset; the pk is [int(value)]. *)
Definition clean_model_choice (required : bool) (qs : gmap nat User) (v : string)
    : option (option nat) :=
  if bool_decide (v = EmptyString) then (if required then None else Some None)
  else match py_int v with
       | Some z => if bool_decide (0 <= z)%Z && bool_decide (is_Some (qs !! Z.to_nat z))
                   then Some (Some (Z.to_nat z)) else None
       | None => None
       end.

(** [forms.DateField]: the stripped value, parsed. *)
Definition clean_date (v : string) : option Z :=
  let s := py_strip v in
  if bool_decide (s = EmptyString) then None else parse_date s.

(** ** TaskForm *)

Record TaskFormData := mkTaskFormData {
  tf_title : string;
  tf_description : string;
  tf_assigned_to : nat;
  tf_due_date : Z;
  tf_status : task_status
}.

(** [TaskForm.__init__]: the choices of [assigned_to]. *)
Definition TaskForm_queryset (db : DB) (uid : nat) (u : User) : gmap nat User :=
  if decide (role u = ROLE_ADMIN) then assigned_users db uid
  else users_with_role db ROLE_USER.

Definition TaskForm_clean (db : DB) (uid : nat) (u : User) (post : gmap string string)
    : list string + TaskFormData :=
  let ti := clean_char true (Some 200) (field_value post "title"%string) in
  let de := clean_char true None (field_value post "description"%string) in
  let asg := clean_model_choice true (TaskForm_queryset db uid u) (field_value post "assigned_to"%string)
            ≫= fun (a : option nat) => a ≫= fun pk => if fk_role_ok db ROLE_USER pk then Some pk else None in
  let dd := clean_date (field_value post "due_date"%string) in
  let st := status_of_value (field_value post "status"%string) in
  match ti, de, asg, dd, st with
  | Some ti, Some de, Some asg, Some dd, Some st => inr (mkTaskFormData ti de asg dd st)
  | _, _, _, _, _ =>
      inl (error_if_none "title"%string ti ++ error_if_none "description"%string de ++
           error_if_none "assigned_to"%string asg ++ error_if_none "due_date"%string dd ++
           error_if_none "status"%string st)
  end.

(** [form.save()] on a new instance: the model defaults give an empty
    report and null hours. *)
Definition TaskForm_new (f : TaskFormData) : Task :=
  mkTask (tf_title f) (tf_description f) (tf_assigned_to f) (tf_due_date f) (tf_status f)
    EmptyString None.

(** [form.save()] with [instance=task]: the five fields of the form are
    replaced, the report and the hours kept. *)
Definition TaskForm_update (t : Task) (f : TaskFormData) : Task :=
  mkTask (tf_title f) (tf_description f) (tf_assigned_to f) (tf_due_date f) (tf_status f)
    (completion_report t) (worked_hours t).

(** ** CustomUserCreationForm and CustomUserChangeForm *)

Record UserFormData := mkUserFormData {
  uf_username : string;
  uf_role : Role;
  uf_admin : option nat
}.

(** The fields the two user forms share: [username] (UsernameField,
    max_length 150, its validators, unique), [role], [admin]. *)
Definition clean_user_fields (db : DB) (self_pk : option nat) (post : gmap string string)
    : option string * option Role * option (option nat) :=
  let un := clean_char true (Some 150) (field_value post "username"%string) ≫= fun n =>
            if username_valid n && username_free db self_pk n then Some n else None in
  let rl := role_of_value (field_value post "role"%string) in
  let ad := clean_model_choice false (users_with_role db ROLE_ADMIN) (field_value post "admin"%string)
            ≫= fun (a : option nat) => match a with
                        | Some pk => if fk_role_ok db ROLE_ADMIN pk then Some (Some pk) else None
                        | None => Some None
                        end in
  (un, rl, ad).

Definition CustomUserCreationForm_clean (db : DB) (post : gmap string string)
    : list string + (UserFormData * string) :=
  let '(un, rl, ad) := clean_user_fields db None post in
  let p1 := clean_password (field_value post "password1"%string) in
  let p2 := clean_password (field_value post "password2"%string) ≫= fun p2 =>
            match p1 with
            | Some p1 => if bool_decide (p1 = p2) && password_valid p2 then Some p2 else None
            | None => Some p2
            end in
  match un, rl, ad, p1, p2 with
  | Some un, Some rl, Some ad, Some p1, Some _ => inr (mkUserFormData un rl ad, p1)
  | _, _, _, _, _ =>
      inl (error_if_none "username"%string un ++ error_if_none "role"%string rl ++ error_if_none "admin"%string ad ++
           error_if_none "password1"%string p1 ++ error_if_none "password2"%string p2)
  end.

Definition CustomUserChangeForm_clean (db : DB) (pk : nat) (post : gmap string string)
    : list string + UserFormData :=
  let '(un, rl, ad) := clean_user_fields db (Some pk) post in
  match un, rl, ad with
  | Some un, Some rl, Some ad => inr (mkUserFormData un rl ad)
  | _, _, _ =>
      inl (error_if_none "username"%string un ++ error_if_none "role"%string rl ++ error_if_none "admin"%string ad)
  end.

End cleaning.

(** ** Lemmas *)

Section form_lemmas.
Context `{Platform}.

Lemma clean_model_choice_Some (required : bool) (qs : gmap nat User) (v : string) (pk : nat) :
  clean_model_choice required qs v = Some (Some pk) -> is_Some (qs !! pk).
Proof.
  unfold clean_model_choice. case_bool_decide; [by destruct required|].
  destruct (py_int v) as [z|]; [|done].
  destruct (bool_decide (0 <= z)%Z && bool_decide (is_Some (qs !! Z.to_nat z))) eqn:E; [|done].
  intros [= <-]. apply andb_true_iff in E as [_ E]. by apply bool_decide_eq_true in E.
Qed.

Lemma fk_role_ok_true (db : DB) (r : Role) (pk : nat) :
  fk_role_ok db r pk = true -> role <$> users db !! pk = Some r.
Proof. unfold fk_role_ok. by rewrite bool_decide_eq_true. Qed.

(** A valid [TaskForm] names an assignee of role "user" among the
    choices the actor is offered. *)
Lemma TaskForm_clean_assignee (db : DB) (uid : nat) (u : User) (post : gmap string string)
    (f : TaskFormData) :
  TaskForm_clean db uid u post = inr f ->
  role <$> users db !! tf_assigned_to f = Some ROLE_USER /\
  is_Some (TaskForm_queryset db uid u !! tf_assigned_to f).
Proof.
  unfold TaskForm_clean.
  destruct (clean_model_choice true _ _) as [[pk|]|] eqn:Hc; simpl;
    [destruct (fk_role_ok db ROLE_USER pk) eqn:Hfk|..];
    repeat case_match; try discriminate; intros [= <-]; simpl.
  split; [by apply fk_role_ok_true | by eapply clean_model_choice_Some].
Qed.

(** The choices of an admin are the users it manages. *)
Lemma TaskForm_queryset_admin (db : DB) (uid : nat) (u : User) (pk : nat) :
  role u = ROLE_ADMIN -> is_Some (TaskForm_queryset db uid u !! pk) ->
  (users db !! pk ≫= admin) = Some uid.
Proof.
  intros Hr [x Hx]. unfold TaskForm_queryset in Hx. rewrite decide_True in Hx by done.
  apply map_lookup_filter_Some in Hx as [Hx Ha]. by rewrite Hx.
Qed.

Lemma TaskForm_queryset_exists (db : DB) (uid : nat) (u : User) (pk : nat) :
  is_Some (TaskForm_queryset db uid u !! pk) -> is_Some (users db !! pk).
Proof.
  intros [x Hx]. unfold TaskForm_queryset in Hx.
  case_decide; apply map_lookup_filter_Some in Hx as [Hx _]; eauto.
Qed.

Lemma users_with_role_exists (db : DB) (r : Role) (pk : nat) :
  is_Some (users_with_role db r !! pk) -> is_Some (users db !! pk).
Proof. intros [x Hx]. apply map_lookup_filter_Some in Hx as [Hx _]. eauto. Qed.

(** The admin a valid user form names is an existing row. *)
Lemma clean_user_fields_admin (db : DB) (self : option nat) (post : gmap string string)
    (un : option string) (rl : option Role) (ad : option nat) (u : User) :
  clean_user_fields db self post = (un, rl, Some ad) -> admin u = ad -> admin_ref_ok (users db) u.
Proof.
  unfold clean_user_fields, admin_ref_ok. intros [= _ _ Had] ->. destruct ad as [a|]; [|done].
  destruct (clean_model_choice false _ _) as [[pk|]|] eqn:Hc; simpl in Had; try done.
  destruct (fk_role_ok db ROLE_ADMIN pk); simplify_eq.
  eapply users_with_role_exists, clean_model_choice_Some, Hc.
Qed.

Lemma CustomUserCreationForm_clean_admin (db : DB) (post : gmap string string)
    (f : UserFormData) (pw : string) (u : User) :
  CustomUserCreationForm_clean db post = inr (f, pw) -> admin u = uf_admin f ->
  admin_ref_ok (users db) u.
Proof.
  unfold CustomUserCreationForm_clean.
  destruct (clean_user_fields db None post) as [[un rl] ad] eqn:Hc.
  repeat case_match; try discriminate. intros [= <- _]. simpl. intros Hu.
  simplify_eq. by eapply clean_user_fields_admin.
Qed.

Lemma CustomUserChangeForm_clean_admin (db : DB) (pk : nat) (post : gmap string string)
    (f : UserFormData) (u : User) :
  CustomUserChangeForm_clean db pk post = inr f -> admin u = uf_admin f ->
  admin_ref_ok (users db) u.
Proof.
  unfold CustomUserChangeForm_clean.
  destruct (clean_user_fields db (Some pk) post) as [[un rl] ad] eqn:Hc.
  repeat case_match; try discriminate. intros [= <-]. simpl. intros Hu.
  simplify_eq. by eapply clean_user_fields_admin.
Qed.

(** [validate_unique] of the forms is the UNIQUE constraint of the
    column, checked on the store the form reads. *)
Lemma username_free_except (db : DB) (k : nat) (n : string) :
  username_free db (Some k) n = true -> name_free_except (users db) k n.
Proof.
  unfold username_free. rewrite bool_decide_eq_true. intros Hf j v Hj.
  destruct (Hf j v Hj) as [[= ->]|?]; auto.
Qed.

Lemma username_free_none (db : DB) (n : string) :
  username_free db None n = true -> name_free (users db) n.
Proof.
  unfold username_free. rewrite bool_decide_eq_true. intros Hf j v Hj.
  by destruct (Hf j v Hj).
Qed.

Lemma clean_user_fields_username (db : DB) (self : option nat) (post : gmap string string)
    (n : string) (rl : option Role) (ad : option (option nat)) :
  clean_user_fields db self post = (Some n, rl, ad) -> username_free db self n = true.
Proof.
  unfold clean_user_fields. intros [= Hn _ _].
  destruct (clean_char _ _ _) as [n'|]; simpl in Hn; [|done].
  destruct (username_valid n' && username_free db self n') eqn:E; simplify_eq.
  by apply andb_true_iff in E as [_ ?].
Qed.

Lemma CustomUserCreationForm_clean_username (db : DB) (post : gmap string string)
    (f : UserFormData) (pw : string) :
  CustomUserCreationForm_clean db post = inr (f, pw) -> name_free (users db) (uf_username f).
Proof.
  unfold CustomUserCreationForm_clean.
  destruct (clean_user_fields db None post) as [[un rl] ad] eqn:Hc.
  repeat case_match; try discriminate. intros [= <- _]. simplify_eq.
  by eapply username_free_none, clean_user_fields_username.
Qed.

(** The creation form refuses, on its username field, a name that some
    row of the store has. *)
Lemma CustomUserCreationForm_clean_taken (db db' : DB) (post : gmap string string)
    (f : UserFormData) (pw : string) :
  CustomUserCreationForm_clean db post = inr (f, pw) -> ~ name_free (users db') (uf_username f) ->
  exists errs, CustomUserCreationForm_clean db' post = inl errs /\ "username"%string ∈ errs.
Proof.
  intros Hc Hn. unfold CustomUserCreationForm_clean, clean_user_fields in *.
  destruct (clean_char true (Some 150) (field_value post "username")) as [n|]; simpl in *;
    [|repeat case_match; discriminate].
  destruct (username_valid n && username_free db None n); simpl in Hc; [|repeat case_match; discriminate].
  assert (n = uf_username f) as -> by (repeat case_match; simplify_eq; done).
  assert (Hf : username_free db' None (uf_username f) = false).
  { destruct (username_free db' None (uf_username f)) eqn:E; [|done]. by apply username_free_none in E. }
  rewrite Hf, andb_false_r. simpl. eexists. split; [reflexivity | by left].
Qed.

Lemma CustomUserChangeForm_clean_username (db : DB) (pk : nat) (post : gmap string string)
    (f : UserFormData) :
  CustomUserChangeForm_clean db pk post = inr f -> name_free_except (users db) pk (uf_username f).
Proof.
  unfold CustomUserChangeForm_clean.
  destruct (clean_user_fields db (Some pk) post) as [[un rl] ad] eqn:Hc.
  repeat case_match; try discriminate. intros [= <-]. simplify_eq.
  by eapply username_free_except, clean_user_fields_username.
Qed.

End form_lemmas.

End Forms.
