(* ===== verification/Console.v ===== *)
(** * Console: the server-rendered views of admin_views.py

    Each view of admin_views.py is a [view] ([DB -> request -> response *
    DB]) built as in the source: the undecorated body receives
    [request.user] (pk and row) and the decorator of the source wraps it.
    A view with a [pk] argument of its URL takes it first.  [request.method
    == 'POST'] selects the write branch; every other method renders.

    [authenticate] is Django's ModelBackend (the user with that username,
    its password checked, active); [auth_login] stores the user's pk under
    a fresh session key and drops the request's old session, [auth_logout]
    flushes the request's session. *)

From S2P Require Import Prelude Models Http Fixtures Authz Forms.
Import Models Http Fixtures Authz Forms.

Module Console.

Local Open Scope view_scope.

Section views.
Context `{Platform}.

Definition is_post (req : request) : bool :=
  match method req with POST => true | _ => false end.

(** ** Sessions *)

Definition authenticate (db : DB) (name pw : string) : option (nat * User) :=
  match list_find (fun ku => username ku.2 = name) (map_to_list (users db)) with
  | Some (_, (pk, u)) => if check_password pw (password u) && is_active u then Some (pk, u) else None
  | None => None
  end.

Definition auth_login (db : DB) (req : request) (pk : nat) : nat * DB :=
  let k := next_session_key db in
  let ss := match cookie req with Some old => delete old (sessions db) | None => sessions db end in
  (k, with_sessions db (<[k := pk]> ss) (S k)).

Definition auth_logout (db : DB) (req : request) : DB :=
  match cookie req with
  | Some k => with_sessions db (delete k (sessions db)) (next_session_key db)
  | None => db
  end.

(** login_view (admin_views.py 62-77).  [request.POST['username']] raises
    on a missing key, and [print(user.role)] runs before the [None] test,
    so a failed authentication raises [AttributeError]. *)
Definition login_view (db : DB) (req : request) : response * DB :=
  run_view db (
    if is_post req then
      name <- get_or ServerError (post req !! "username"%string) ;;
      pw <- get_or ServerError (post req !! "password"%string) ;;
      p <- get_or ServerError (authenticate db name pw) ;;
      if bool_decide (role p.2 ∈ [ROLE_ADMIN; ROLE_SUPERADMIN]) then
        let kd := auth_login db req p.1 in
        ret (Redirect "dashboard" (Some kd.1), kd.2)
      else ret (Render "core/login.html" (CtxError "Invalid credentials or insufficient permissions"), db)
    else ret (Render "core/login.html" CtxNone, db)).

(** logout_view (admin_views.py 80-83) *)
Definition logout_view : view :=
  login_required (fun _ _ db req => (Redirect "login" None, auth_logout db req)).

(** dashboard (admin_views.py 86-88) *)
Definition dashboard : view :=
  admin_or_super_required (fun uid _ db _ => (Render "core/dashboard.html" (CtxUser uid), db)).

(** ** User management (superadmin only) *)

(** user_list (admin_views.py 95-100) *)
Definition user_list : view :=
  superadmin_required (fun _ _ db _ => (Render "core/user_list.html" (CtxUsers (users db)), db)).

(** user_create (admin_views.py 102-116): [form.save(commit=False)]
    builds the row with the username, role and admin of the form, the
    view sets the password and saves it, then for a "user" sets [admin]
    again and saves a second time. *)
Definition user_create : view :=
  superadmin_required (fun _ _ db req =>
    if is_post req then
      match CustomUserCreationForm_clean db (post req) with
      | inr (f, pw) =>
          let u := mkUser (uf_username f) EmptyString (make_password pw) (uf_role f) (uf_admin f)
                     false false true 0 in
          let pd := user_insert db u in
          let db2 := if decide (uf_role f = ROLE_USER)
                     then user_save pd.2 pd.1 (set_user_admin (joined_now db u) (uf_admin f))
                     else pd.2 in
          (Redirect "user_list" None, db2)
      | inl errs => (Render "core/user_form.html" (CtxForm true errs), db)
      end
    else (Render "core/user_form.html" (CtxForm false []), db)).

(** user_edit (admin_views.py 118-131): [form.save()] writes username,
    role and admin; for a "user" the admin is set and saved again. *)
Definition user_edit (pk : nat) : view :=
  superadmin_required (fun _ _ db req =>
    run_view db (
      u <- get_or NotFound (users db !! pk) ;;
      if is_post req then
        match CustomUserChangeForm_clean db pk (post req) with
        | inr f =>
            let u1 := mkUser (uf_username f) (email u) (password u) (uf_role f) (uf_admin f)
                        (is_staff u) (is_superuser u) (is_active u) (date_joined u) in
            let db1 := user_save db pk u1 in
            let db2 := if decide (uf_role f = ROLE_USER)
                       then user_save db1 pk (set_user_admin u1 (uf_admin f)) else db1 in
            ret (Redirect "user_list" None, db2)
        | inl errs => ret (Render "core/user_form.html" (CtxForm true errs), db)
        end
      else ret (Render "core/user_form.html" (CtxForm false []), db))).

(** user_delete (admin_views.py 133-139) *)
Definition user_delete (pk : nat) : view :=
  superadmin_required (fun _ _ db req =>
    run_view db (
      _ <- get_or NotFound (users db !! pk) ;;
      if is_post req then ret (Redirect "user_list" None, User_delete db pk)
      else ret (Render "core/user_confirm_delete.html" (CtxUser pk), db))).

(** ** Task management *)

(** task_list (admin_views.py 142-149) *)
Definition task_list : view :=
  admin_or_super_required (fun uid u db _ =>
    let ts := if decide (role u = ROLE_SUPERADMIN) then tasks db else tasks_of_admin db uid in
    (Render "core/task_list.html" (CtxTasks ts), db)).

(** task_create (admin_views.py 151-160) *)
Definition task_create : view :=
  admin_or_super_required (fun uid u db req =>
    if is_post req then
      match TaskForm_clean db uid u (post req) with
      | inr f => (Redirect "task_list" None, (task_insert db (TaskForm_new f)).2)
      | inl errs => (Render "core/task_form.html" (CtxForm true errs), db)
      end
    else (Render "core/task_form.html" (CtxForm false []), db)).

(** task_edit (admin_views.py 162-176) *)
Definition task_edit (pk : nat) : view :=
  admin_or_super_required (fun uid u db req =>
    run_view db (
      t <- get_or NotFound (tasks db !! pk) ;;
      owner_check db uid u t (Forbidden "Access denied") ;;
      if is_post req then
        match TaskForm_clean db uid u (post req) with
        | inr f => ret (Redirect "task_list" None, task_save db pk (TaskForm_update t f))
        | inl errs => ret (Render "core/task_form.html" (CtxForm true errs), db)
        end
      else ret (Render "core/task_form.html" (CtxForm false []), db))).

(** task_delete (admin_views.py 178-187) *)
Definition task_delete (pk : nat) : view :=
  admin_or_super_required (fun uid u db req =>
    run_view db (
      t <- get_or NotFound (tasks db !! pk) ;;
      owner_check db uid u t (Forbidden "Access denied") ;;
      if is_post req then ret (Redirect "task_list" None, Task_delete db pk)
      else ret (Render "core/task_confirm_delete.html" (CtxTask pk), db))).

(** task_detail (admin_views.py 189-195) *)
Definition task_detail (pk : nat) : view :=
  admin_or_super_required (fun uid u db _ =>
    run_view db (
      t <- get_or NotFound (tasks db !! pk) ;;
      owner_check db uid u t (Forbidden "Access denied") ;;
      ret (Render "core/task_detail.html" (CtxTask pk), db))).

End views.

(** ** Lemmas *)

Section console_lemmas.
Context `{Platform}.

Lemma authenticate_Some (db : DB) (name pw : string) (uid : nat) (u : User) :
  authenticate db name pw = Some (uid, u) ->
  users db !! uid = Some u /\ username u = name /\ is_active u = true /\
  check_password pw (password u) = true.
Proof.
  unfold authenticate. destruct (list_find _ _) as [[i [k x]]|] eqn:Hf; [|done].
  apply list_find_Some in Hf as (Hi & Hn & _). simpl in Hn.
  destruct (check_password pw (password x) && is_active x) eqn:Hc; [|done].
  intros [= <- <-]. apply andb_true_iff in Hc as [Hc Ha].
  split_and!; [|done..].
  apply elem_of_map_to_list. by eapply list_elem_of_lookup_2.
Qed.

(** After [auth_login] the new session key authenticates the user. *)
Lemma auth_login_session (db : DB) (req req' : request) (uid : nat) (u : User) :
  users db !! uid = Some u -> is_active u = true ->
  cookie req' = Some (auth_login db req uid).1 ->
  session_user (auth_login db req uid).2 req' = Some (uid, u).
Proof.
  intros Hu Ha Hc. unfold session_user. rewrite Hc. simpl.
  rewrite lookup_insert_eq. simpl. rewrite Hu. simpl. by rewrite Ha.
Qed.

(** A guarded task view of a staff actor on a task with an assignee. *)
Lemma owner_guard_staff (db : DB) (uid : nat) (u : User) (t : Task) (a : User)
    (act : Spec.action) (k : early response (response * DB)) :
  users db !! assigned_to t = Some a -> role u <> ROLE_USER -> act <> Spec.UpdateOwnTask ->
  run_view db (owner_check db uid u t (Forbidden "Access denied") ;; k)%view =
    if Spec.can uid u act (assigned_to t) a then run_view db k else (Forbidden "Access denied", db).
Proof.
  intros Ha Hr Hact. rewrite (owner_check_can _ _ _ _ a _ act) by done.
  by destruct (Spec.can _ _ _ _ _).
Qed.

(** A valid edit by the superadmin saves the row once with the form's
    username, role and admin; the second save of a "user" writes the same
    row again. *)
Lemma user_edit_valid (pk : nat) (db : DB) (req : request) (uid : nat) (u x : User)
    (f : UserFormData) :
  session_user db req = Some (uid, u) -> role u = ROLE_SUPERADMIN -> method req = POST ->
  users db !! pk = Some x -> CustomUserChangeForm_clean db pk (post req) = inr f ->
  user_edit pk db req =
    (Redirect "user_list" None,
     user_save db pk (mkUser (uf_username f) (email x) (password x) (uf_role f) (uf_admin f)
                        (is_staff x) (is_superuser x) (is_active x) (date_joined x))).
Proof.
  intros Hs Hr Hm Hx Hf. unfold user_edit.
  rewrite (superadmin_required_super _ _ _ uid u) by done.
  rewrite Hx. simpl. unfold is_post. rewrite Hm, Hf. simpl.
  case_decide; [|done]. unfold user_save, with_users. simpl. by rewrite insert_insert_eq.
Qed.

End console_lemmas.

(** ** Properties of the console *)

Section console_properties.
Context `{Platform}.

(** C2: [task_edit] implements the specification's [can EditTask] for a
    staff actor: an admin who does not manage the assignee is refused
    with 403 and nothing changes; a superadmin and the managing admin are
    never refused. *)
Theorem task_edit_refines_can (pk : nat) (db : DB) (req : request) (uid : nat) (u : User)
    (t : Task) (a : User) :
  session_user db req = Some (uid, u) -> role u <> ROLE_USER ->
  tasks db !! pk = Some t -> users db !! assigned_to t = Some a ->
  (Spec.can uid u Spec.EditTask (assigned_to t) a = false ->
     task_edit pk db req = (Forbidden "Access denied", db)) /\
  (Spec.can uid u Spec.EditTask (assigned_to t) a = true ->
     (task_edit pk db req).1 <> Forbidden "Access denied").
Proof.
  intros Hs Hr Ht Ha. unfold task_edit.
  rewrite (admin_or_super_required_staff _ _ _ uid u) by done.
  rewrite Ht. simpl. rewrite (owner_guard_staff _ _ _ _ a Spec.EditTask) by done.
  destruct (Spec.can _ _ _ _ _); split; try done.
  intros _. destruct (is_post req); [destruct (TaskForm_clean _ _ _ _)|]; simpl; discriminate.
Qed.

(** C7: a POST to [task_delete] by a staff actor deletes exactly task
    [pk] when the specification's [can DeleteTask] holds and is refused
    with 403, the store unchanged, otherwise. *)
Theorem task_delete_refines_can (pk : nat) (db : DB) (req : request) (uid : nat) (u : User)
    (t : Task) (a : User) :
  session_user db req = Some (uid, u) -> role u <> ROLE_USER -> method req = POST ->
  tasks db !! pk = Some t -> users db !! assigned_to t = Some a ->
  task_delete pk db req =
    if Spec.can uid u Spec.DeleteTask (assigned_to t) a
    then (Redirect "task_list" None, Task_delete db pk)
    else (Forbidden "Access denied", db).
Proof.
  intros Hs Hr Hm Ht Ha. unfold task_delete.
  rewrite (admin_or_super_required_staff _ _ _ uid u) by done.
  rewrite Ht. simpl. rewrite (owner_guard_staff _ _ _ _ a Spec.DeleteTask) by done.
  unfold is_post. by rewrite Hm.
Qed.

(** C18 (finding): the console lets a staff actor mark a task completed
    without any report or hours: [TaskForm] has neither field and
    [task_edit] has no completion gate, so a task without a report is
    stored completed, breaking the completion invariant. *)
Theorem task_edit_completes_without_report (pk : nat) (db : DB) (req : request) (uid : nat)
    (u : User) (t : Task) (a : User) (f : TaskFormData) :
  session_user db req = Some (uid, u) -> role u <> ROLE_USER -> method req = POST ->
  tasks db !! pk = Some t -> users db !! assigned_to t = Some a ->
  Spec.can uid u Spec.EditTask (assigned_to t) a = true ->
  TaskForm_clean db uid u (post req) = inr f -> tf_status f = STATUS_COMPLETED ->
  completion_report t = EmptyString ->
  task_edit pk db req = (Redirect "task_list" None, task_save db pk (TaskForm_update t f)) /\
  status (TaskForm_update t f) = STATUS_COMPLETED /\ ~ completion_ok (TaskForm_update t f).
Proof.
  intros Hs Hr Hm Ht Ha Hcan Hf Hst Hrep. split.
  - unfold task_edit. rewrite (admin_or_super_required_staff _ _ _ uid u) by done.
    rewrite Ht. simpl. rewrite (owner_guard_staff _ _ _ _ a Spec.EditTask) by done.
    rewrite Hcan. unfold is_post. rewrite Hm. simpl. by rewrite Hf.
  - unfold completion_ok, TaskForm_update. simpl. rewrite Hst, Hrep. tauto.
Qed.

(** C11: a task created from the console is assigned to a User of role
    "user" and, when the creator is an admin, to one of the users that
    admin manages; the only write is the insertion of that task with an
    empty report and null hours. *)
Theorem task_create_assignee_scope (db db' : DB) (req : request) (r : response) :
  task_create db req = (r, db') ->
  db' = db \/
  exists uid u f, session_user db req = Some (uid, u) /\ role u <> ROLE_USER /\
    TaskForm_clean db uid u (post req) = inr f /\
    db' = (task_insert db (TaskForm_new f)).2 /\
    role <$> users db !! tf_assigned_to f = Some ROLE_USER /\
    (role u = ROLE_ADMIN -> (users db !! tf_assigned_to f ≫= admin) = Some uid).
Proof.
  unfold task_create, admin_or_super_required, login_required.
  destruct (session_user db req) as [[uid u]|] eqn:Hs; [|intros [= _ <-]; by left].
  case_bool_decide as Hr; [|intros [= _ <-]; by left].
  destruct (is_post req); [|intros [= _ <-]; by left].
  destruct (TaskForm_clean db uid u (post req)) as [errs|f] eqn:Hf; [intros [= _ <-]; by left|].
  intros [= _ <-]. right. exists uid, u, f.
  destruct (TaskForm_clean_assignee _ _ _ _ _ Hf) as [Hrole Hq].
  split_and!; try done.
  - intros Hu. rewrite Hu in Hr. set_solver.
  - intros Ha. by apply (TaskForm_queryset_admin db uid u).
Qed.

(** C9: a superadmin's POST to [user_delete] on an existing user removes
    it, deletes every task assigned to it (CASCADE), clears the [admin]
    of every user it managed (SET_NULL), and keeps every other task. *)
Theorem user_delete_cascade (pk : nat) (db : DB) (req : request) (uid : nat) (u x : User) :
  session_user db req = Some (uid, u) -> role u = ROLE_SUPERADMIN -> method req = POST ->
  users db !! pk = Some x ->
  user_delete pk db req = (Redirect "user_list" None, User_delete db pk) /\
  users (User_delete db pk) !! pk = None /\
  map_Forall (fun _ t => assigned_to t <> pk) (tasks (User_delete db pk)) /\
  map_Forall (fun _ v => admin v <> Some pk) (users (User_delete db pk)) /\
  (forall k t, tasks db !! k = Some t -> assigned_to t <> pk -> tasks (User_delete db pk) !! k = Some t).
Proof.
  intros Hs Hr Hm Hx. split_and!.
  - unfold user_delete. rewrite (superadmin_required_super _ _ _ uid u) by done.
    rewrite Hx. simpl. unfold is_post. by rewrite Hm.
  - by rewrite User_delete_lookup, decide_True.
  - apply User_delete_no_dangling.
  - apply User_delete_no_dangling.
  - intros k t Hk Ha. by apply User_delete_task_lookup.
Qed.

(** C8: user management is superadmin-only: for a logged-in user of any
    other role, [user_list], [user_create], [user_edit] and [user_delete]
    answer 403 and leave the store unchanged. *)
Theorem user_management_superadmin_only (pk : nat) (db : DB) (req : request) (uid : nat) (u : User) :
  session_user db req = Some (uid, u) -> role u <> ROLE_SUPERADMIN ->
  user_list db req = (Forbidden "Access denied", db) /\
  user_create db req = (Forbidden "Access denied", db) /\
  user_edit pk db req = (Forbidden "Access denied", db) /\
  user_delete pk db req = (Forbidden "Access denied", db).
Proof. intros Hs Hr. split_and!; by apply (superadmin_required_other _ _ _ uid u). Qed.

(** C22 (finding): a login POST whose credentials do not authenticate
    does not render the "Invalid credentials" page: [print(user.role)] on
    [None] raises, and the answer is a 500. *)
Theorem login_view_bad_credentials_crash (db : DB) (req : request) (name pw : string) :
  method req = POST -> post req !! "username"%string = Some name ->
  post req !! "password"%string = Some pw -> authenticate db name pw = None ->
  login_view db req = (ServerError, db).
Proof.
  intros Hm Hn Hp Ha. unfold login_view, is_post. rewrite Hm. simpl.
  rewrite Hn. simpl. rewrite Hp. simpl. by rewrite Ha.
Qed.

(** A login POST that authenticates a user of role "user" renders
    the login page with the error and changes nothing; one that
    authenticates an admin or superadmin redirects to the dashboard with
    a new session key under which later requests are that user, and
    changes neither users nor tasks. *)
Theorem login_view_role_gate (db : DB) (req : request) (name pw : string) (uid : nat) (u : User) :
  method req = POST -> post req !! "username"%string = Some name ->
  post req !! "password"%string = Some pw -> authenticate db name pw = Some (uid, u) ->
  (role u = ROLE_USER ->
     login_view db req = (Render "core/login.html" (CtxError "Invalid credentials or insufficient permissions"), db)) /\
  (role u <> ROLE_USER -> exists k db', login_view db req = (Redirect "dashboard" (Some k), db') /\
     users db' = users db /\ tasks db' = tasks db /\
     forall req', cookie req' = Some k -> session_user db' req' = Some (uid, u)).
Proof.
  intros Hm Hn Hp Ha. destruct (authenticate_Some _ _ _ _ _ Ha) as (Hu & _ & Hact & _).
  unfold login_view, is_post. rewrite Hm. simpl. rewrite Hn. simpl. rewrite Hp. simpl.
  rewrite Ha. simpl. split.
  - intros Hr. by rewrite Hr.
  - intros Hr. rewrite bool_decide_true by (destruct (role u); set_solver).
    eexists _, _. split; [reflexivity|]. split_and!; [done | done |].
    intros req' Hc. by apply auth_login_session.
Qed.

(** C10: [task_list] implements the specification's [can ListTasks] for
    staff on a well-formed store: an admin sees exactly the tasks of the
    users it manages, a superadmin every task. *)
Theorem task_list_refines_can (db : DB) (req : request) (uid : nat) (u : User) :
  db_wf db -> session_user db req = Some (uid, u) -> role u <> ROLE_USER ->
  exists ts, task_list db req = (Render "core/task_list.html" (CtxTasks ts), db) /\
    forall k t, ts !! k = Some t <-> tasks db !! k = Some t /\
      exists a, users db !! assigned_to t = Some a /\ Spec.can uid u Spec.ListTasks (assigned_to t) a = true.
Proof.
  intros [Hwf _] Hs Hr. unfold task_list.
  rewrite (admin_or_super_required_staff _ _ _ uid u) by done.
  eexists. split; [reflexivity|]. intros k t. unfold Spec.can.
  destruct (role u) eqn:Hrole; [| | done]; simpl.
  - split; [|naive_solver]. intros Hk. split; [done|].
    destruct (Hwf k t Hk) as [a Ha]. eauto.
  - unfold tasks_of_admin, assignee_admin. rewrite map_lookup_filter_Some. simpl.
    split.
    + intros [Hk Hadm]. split; [done|].
      destruct (users db !! assigned_to t) as [a|]; simpl in Hadm; [|done].
      exists a. split; [done|]. by apply bool_decide_eq_true.
    + intros [Hk (a & Ha & Hc)]. split; [done|]. rewrite Ha. simpl.
      by apply bool_decide_eq_true in Hc.
Qed.

(** C24 (finding): [user_edit] does not clear [admin] when the new role is
    not "user": the form writes whatever admin it is given, so the edited
    row keeps an admin reference although its role is not "user", against
    the specification's data-model invariant. *)
Theorem user_edit_keeps_admin_ref (pk : nat) (db : DB) (req : request) (uid : nat) (u x : User)
    (f : UserFormData) (a : nat) :
  session_user db req = Some (uid, u) -> role u = ROLE_SUPERADMIN -> method req = POST ->
  users db !! pk = Some x -> CustomUserChangeForm_clean db pk (post req) = inr f ->
  uf_role f <> ROLE_USER -> uf_admin f = Some a ->
  exists x', users (user_edit pk db req).2 !! pk = Some x' /\ role x' = uf_role f /\
    admin x' = Some a /\ ~ admin_ref_is_admin (user_edit pk db req).2 pk x'.
Proof.
  intros Hs Hr Hm Hx Hf Hrole Ha.
  rewrite (user_edit_valid pk db req uid u x f) by done. simpl.
  eexists. rewrite lookup_insert_eq. split_and!; [done | done | simpl; by rewrite Ha |].
  unfold admin_ref_is_admin. simpl. rewrite Ha. tauto.
Qed.

(** C25 (finding): editing the role of a user who has tasks to anything
    but "user" keeps the tasks assigned to it, so a stored task is then
    assigned to a User whose role is not "user". *)
Theorem user_edit_orphans_assignments (pk : nat) (db : DB) (req : request) (uid : nat) (u x : User)
    (f : UserFormData) (k : nat) (t : Task) :
  session_user db req = Some (uid, u) -> role u = ROLE_SUPERADMIN -> method req = POST ->
  users db !! pk = Some x -> CustomUserChangeForm_clean db pk (post req) = inr f ->
  uf_role f <> ROLE_USER -> tasks db !! k = Some t -> assigned_to t = pk ->
  tasks (user_edit pk db req).2 !! k = Some t /\ ~ assignee_is_user (user_edit pk db req).2 t.
Proof.
  intros Hs Hr Hm Hx Hf Hrole Ht Ha.
  rewrite (user_edit_valid pk db req uid u x f) by done. simpl. split; [done|].
  unfold assignee_is_user. simpl. rewrite Ha, lookup_insert_eq. simpl. congruence.
Qed.

(** C28 (finding): [user_edit] can make a user its own admin.  The
    admin choices are the users whose role is "admin" before the save, so
    an admin edited into a "user" may name itself; the row is stored with
    [admin] pointing to its own pk, which the specification forbids. *)
Theorem user_edit_self_admin (pk : nat) (db : DB) (req : request) (uid : nat) (u x : User)
    (f : UserFormData) :
  session_user db req = Some (uid, u) -> role u = ROLE_SUPERADMIN -> method req = POST ->
  users db !! pk = Some x -> CustomUserChangeForm_clean db pk (post req) = inr f ->
  uf_admin f = Some pk ->
  exists x', users (user_edit pk db req).2 !! pk = Some x' /\ admin x' = Some pk /\
    ~ admin_ref_is_admin (user_edit pk db req).2 pk x'.
Proof.
  intros Hs Hr Hm Hx Hf Ha.
  rewrite (user_edit_valid pk db req uid u x f) by done. simpl.
  eexists. rewrite lookup_insert_eq. split_and!; [done | simpl; by rewrite Ha |].
  unfold admin_ref_is_admin. simpl. rewrite Ha. tauto.
Qed.

(** C38 (finding): [user_create] stores the form's admin whatever the
    role: a superadmin who creates an "admin" (or a "superadmin") and
    picks an admin in the form stores a non-"user" row with an admin
    reference, which the specification allows only on users. *)
Theorem user_create_admin_ref_non_user (db : DB) (req : request) (uid : nat) (u : User)
    (f : UserFormData) (pw : string) (a : nat) :
  session_user db req = Some (uid, u) -> role u = ROLE_SUPERADMIN -> method req = POST ->
  CustomUserCreationForm_clean db (post req) = inr (f, pw) ->
  uf_role f <> ROLE_USER -> uf_admin f = Some a ->
  exists x, users (user_create db req).2 !! next_user_pk db = Some x /\ role x = uf_role f /\
    admin x = Some a /\ ~ admin_ref_is_admin (user_create db req).2 (next_user_pk db) x.
Proof.
  intros Hs Hr Hm Hf Hrole Ha. unfold user_create.
  rewrite (superadmin_required_super _ _ _ uid u) by done. unfold is_post. rewrite Hm, Hf. simpl.
  rewrite decide_False by done. simpl. eexists. rewrite lookup_insert_eq.
  split_and!; [done | done | simpl; by rewrite Ha |].
  unfold admin_ref_is_admin. simpl. rewrite Ha. tauto.
Qed.

(** Logout ends exactly the session it is called with: afterwards
    the request's cookie no longer identifies anyone, every other cookie
    identifies whom it did, and users and tasks are unchanged. *)
Theorem logout_ends_session (db : DB) (req : request) (uid : nat) (u : User) :
  session_user db req = Some (uid, u) ->
  session_user (logout_view db req).2 req = None /\
  (forall req', cookie req' <> cookie req ->
     session_user (logout_view db req).2 req' = session_user db req') /\
  users (logout_view db req).2 = users db /\ tasks (logout_view db req).2 = tasks db.
Proof.
  intros Hs. unfold logout_view, login_required. rewrite Hs. simpl. unfold auth_logout.
  destruct (cookie req) as [k|] eqn:Hc; [|unfold session_user in Hs; by rewrite Hc in Hs].
  split_and!; [| | done | done].
  - unfold session_user. rewrite Hc. simpl. by rewrite lookup_delete_eq.
  - intros req' Hne. unfold session_user. simpl.
    destruct (cookie req') as [k'|]; [|done]. simpl.
    rewrite lookup_delete_ne; [done|]. congruence.
Qed.

End console_properties.

Section console_witnesses.
#[local] Existing Instance test_platform.

(** A POST of [TaskForm] putting task 1 (U1's) in state completed. *)
Definition edit_post : gmap string string :=
  <["title" := "write report"]> (<["description" := "first task"]> (<["assigned_to" := "3"]>
  (<["due_date" := "100"]> {["status" := "completed"]})))%string.

Definition edit_form : TaskFormData :=
  mkTaskFormData "write report" "first task" 3 100 STATUS_COMPLETED.

(** Admin A (session 11) does not manage U2: editing task 2 is refused. *)
Lemma task_edit_refines_can_witness :
  task_edit 2 sample_db (console_req (Some 11) POST edit_post) = (Forbidden "Access denied", sample_db).
Proof.
  apply (task_edit_refines_can 2 sample_db _ 2 admin_A task_2 user_U2);
    try reflexivity; discriminate.
Defined.

Lemma task_delete_refines_can_witness :
  task_delete 1 sample_db (console_req (Some 11) POST ∅) = (Redirect "task_list" None, Task_delete sample_db 1).
Proof.
  exact (task_delete_refines_can 1 sample_db (console_req (Some 11) POST ∅) 2 admin_A task_1 user_U1
           eq_refl ltac:(discriminate) eq_refl eq_refl eq_refl).
Defined.

Lemma task_edit_completes_without_report_witness :
  ~ completion_ok (TaskForm_update task_1 edit_form).
Proof.
  refine (proj2 (proj2 (task_edit_completes_without_report 1 sample_db
            (console_req (Some 11) POST edit_post) 2 admin_A task_1 user_U1 edit_form
            _ _ _ _ _ _ _ _ _))); try reflexivity. discriminate.
Defined.

Definition create_req : request := console_req (Some 11) POST edit_post.

Lemma task_create_assignee_scope_witness :
  (task_create sample_db create_req).2 = sample_db \/
  exists uid u f, session_user sample_db create_req = Some (uid, u) /\ role u <> ROLE_USER /\
    TaskForm_clean sample_db uid u (post create_req) = inr f /\
    (task_create sample_db create_req).2 = (task_insert sample_db (TaskForm_new f)).2 /\
    role <$> users sample_db !! tf_assigned_to f = Some ROLE_USER /\
    (role u = ROLE_ADMIN -> (users sample_db !! tf_assigned_to f ≫= admin) = Some uid).
Proof.
  apply (task_create_assignee_scope sample_db _ create_req (task_create sample_db create_req).1).
  apply surjective_pairing.
Defined.

(** The superadmin (session 10) deletes U1 (pk 3): tasks 1 and 3 go. *)
Lemma user_delete_cascade_witness :
  map_Forall (fun _ t => assigned_to t <> 3) (tasks (User_delete sample_db 3)).
Proof.
  exact (proj1 (proj2 (proj2 (user_delete_cascade 3 sample_db (console_req (Some 10) POST ∅)
           1 root user_U1 eq_refl eq_refl eq_refl eq_refl)))).
Defined.

(** Admin A (session 11) cannot delete U1. *)
Lemma user_management_superadmin_only_witness :
  user_delete 3 sample_db (console_req (Some 11) POST ∅) = (Forbidden "Access denied", sample_db).
Proof.
  exact (proj2 (proj2 (proj2 (user_management_superadmin_only 3 sample_db
           (console_req (Some 11) POST ∅) 2 admin_A eq_refl ltac:(discriminate))))).
Defined.

Definition login_post (name pw : string) : request :=
  console_req None POST (<["username" := name]> {["password" := pw]})%string.

Lemma login_view_bad_credentials_crash_witness :
  login_view sample_db (login_post "A" "wrong") = (ServerError, sample_db).
Proof.
  apply (login_view_bad_credentials_crash sample_db _ "A" "wrong"); reflexivity.
Defined.

Lemma login_view_role_gate_witness :
  exists k db', login_view sample_db (login_post "A" "A") = (Redirect "dashboard" (Some k), db') /\
     users db' = users sample_db /\ tasks db' = tasks sample_db /\
     forall req', cookie req' = Some k -> session_user db' req' = Some (2, admin_A).
Proof.
  apply (login_view_role_gate sample_db _ "A" "A" 2 admin_A); try reflexivity. discriminate.
Defined.

Lemma task_list_refines_can_witness :
  exists ts, task_list sample_db (console_req (Some 11) GET ∅) =
    (Render "core/task_list.html" (CtxTasks ts), sample_db) /\
    forall k t, ts !! k = Some t <-> tasks sample_db !! k = Some t /\
      exists a, users sample_db !! assigned_to t = Some a /\ Spec.can 2 admin_A Spec.ListTasks (assigned_to t) a = true.
Proof.
  apply task_list_refines_can; [| reflexivity | discriminate].
  refine (bool_decide_eq_true_1 _ _). vm_compute. reflexivity.
Defined.

(** The superadmin turns U1 into an admin while its form still names A. *)
Definition promote_req : request :=
  console_req (Some 10) POST (<["username" := "U1"]> (<["role" := "admin"]> {["admin" := "2"]}))%string.

Lemma user_edit_keeps_admin_ref_witness :
  exists x', users (user_edit 3 sample_db promote_req).2 !! 3 = Some x' /\ role x' = ROLE_ADMIN /\
    admin x' = Some 2 /\ ~ admin_ref_is_admin (user_edit 3 sample_db promote_req).2 3 x'.
Proof.
  apply (user_edit_keeps_admin_ref 3 sample_db promote_req 1 root user_U1
           (mkUserFormData "U1" ROLE_ADMIN (Some 2)) 2); try reflexivity. discriminate.
Defined.

Lemma user_edit_orphans_assignments_witness :
  tasks (user_edit 3 sample_db promote_req).2 !! 1 = Some task_1 /\
  ~ assignee_is_user (user_edit 3 sample_db promote_req).2 task_1.
Proof.
  apply (user_edit_orphans_assignments 3 sample_db promote_req 1 root user_U1
           (mkUserFormData "U1" ROLE_ADMIN (Some 2))); try reflexivity. discriminate.
Defined.

(** The superadmin turns admin A (pk 2) into a "user" managed by A. *)
Definition self_admin_req : request :=
  console_req (Some 10) POST (<["username" := "A"]> (<["role" := "user"]> {["admin" := "2"]}))%string.

Lemma user_edit_self_admin_witness :
  exists x', users (user_edit 2 sample_db self_admin_req).2 !! 2 = Some x' /\ admin x' = Some 2 /\
    ~ admin_ref_is_admin (user_edit 2 sample_db self_admin_req).2 2 x'.
Proof.
  apply (user_edit_self_admin 2 sample_db self_admin_req 1 root admin_A
           (mkUserFormData "A" ROLE_USER (Some 2))); reflexivity.
Defined.

(** The superadmin creates an "admin" Z and names admin A as its admin. *)
Definition create_admin_req : request :=
  console_req (Some 10) POST (<["username" := "Z"]> (<["role" := "admin"]> (<["admin" := "2"]>
    (<["password1" := "zpassword"]> {["password2" := "zpassword"]}))))%string.

Lemma user_create_admin_ref_non_user_witness :
  exists x, users (user_create sample_db create_admin_req).2 !! 6 = Some x /\ role x = ROLE_ADMIN /\
    admin x = Some 2 /\ ~ admin_ref_is_admin (user_create sample_db create_admin_req).2 6 x.
Proof.
  apply (user_create_admin_ref_non_user sample_db create_admin_req 1 root
           (mkUserFormData "Z" ROLE_ADMIN (Some 2)) "zpassword"); try reflexivity. discriminate.
Defined.

Definition logout_req : request := console_req (Some 11) POST ∅.

Lemma logout_ends_session_witness :
  session_user (logout_view sample_db logout_req).2 logout_req = None /\
  session_user (logout_view sample_db logout_req).2 (console_req (Some 10) GET ∅) = Some (1, root).
Proof.
  pose proof (logout_ends_session sample_db logout_req 2 admin_A eq_refl) as (H1 & H2 & _).
  split; [exact H1|]. rewrite H2; [reflexivity | discriminate].
Defined.

End console_witnesses.

End Console.
