(* ===== verification/Commands.v ===== *)
(** * Commands: the management commands of management/commands/

    [createadminuser] (createadminuser.py 14-47) creates a user through
    [User.objects.create_user] and makes it a staff "admin".
    [createsuperadminuser] (createsuperadminuser.py 24-64) runs Django's
    [createsuperuser], then ([createsuperadminuser_promote]) gives the role
    "superadmin" to the most recently joined user
    ([order_by('-date_joined').first()], the scan [latest_joined], proved
    equal to the reference [newest] when join dates are distinct).

    A command either fails with a [CommandError] (its message) and leaves
    the store as it was, or returns the new store.  Its input [Stdin] is
    the list of lines typed at its prompts, each [input()] taking the
    next one and raising [EOFError] past the end, whether stdin is a
    terminal, and the [DJANGO_SUPERUSER_*] variables of the environment.
    Django's [createsuperuser] is modelled from its [handle()]:
    interactive without a terminal it creates nobody and returns;
    interactive, it validates the [--username] option or prompts until a
    typed line is a valid unused name ([prompt_username]), then the email
    ([prompt_email]) and the password, asked twice until both lines agree,
    are not blank and pass the validators or the bypass is confirmed
    ([prompt_password]); non-interactive, it takes the username and email
    from the options or the environment and the password from
    [DJANGO_SUPERUSER_PASSWORD], unusable without it.  The row is an
    active staff superuser whose role is the model default "user". *)

From S2P Require Import Prelude Models Http Fixtures.
Import Models Http Fixtures.

Module Commands.

Local Open Scope view_scope.

(** What a command sees of its process: the lines typed at its
    prompts, in order ([input()] and [getpass] read the next one),
    whether stdin is a terminal, the [DJANGO_SUPERUSER_*] variables of
    the environment, and the login name of the system user
    ([getpass.getuser()], already normalized), which Django offers as
    the default username. *)
Record Stdin := mkStdin {
  in_lines : list string;
  in_tty : bool;
  env_username : option string;
  env_email : option string;
  env_password : option string;
  login_name : string
}.

(** [--username], [--email], and the non-interactive flag. *)
Record Options := mkOptions {
  opt_username : option string;
  opt_email : option string;
  opt_noinput : bool
}.

Definition CommandError : Type := string.

(** [if not x]: a missing or empty option. *)
Definition py_falsy_opt (o : option string) : bool :=
  match o with None => true | Some s => negb (py_truthy_str s) end.

Definition username_taken (db : DB) (name : string) : bool :=
  bool_decide (map_Exists (fun _ u => username u = name) (users db)).

(** [except Exception as e: raise CommandError(f'<prefix>{str(e)}')]. *)
Definition reraise {A} (prefix : string) (m : early CommandError A) : early CommandError A :=
  match m with inl e => inl (prefix +:+ e) | inr a => inr a end.

Lemma reraise_inr {A} (prefix : string) (m : early CommandError A) (a : A) :
  reraise prefix m = inr a -> m = inr a.
Proof. by destruct m. Qed.

(** The [EOFError] of [input()] once nothing more is typed. *)
Definition EOF_error : CommandError := "EOF when reading a line".

(** [input(prompt)]: the next line, and the lines left. *)
Definition input (ls : list string) : early CommandError (string * list string) :=
  match ls with [] => inl EOF_error | l :: ls' => inr (l, ls') end.

(** [if not x: x = input(...)]: the option, or the next line when it is
    missing or empty. *)
Definition input_unless (o : option string) (ls : list string)
    : early CommandError (option string * list string) :=
  if py_falsy_opt o then p <- input ls ;; ret (Some p.1, p.2) else ret (o, ls).

Section commands.
Context `{Platform}.

(** The row [UserManager.create_user(username, email, password)] builds:
    an unset username is refused, the password hashed. *)
Definition create_user_row (name : option string) (mail : option string) (pw : string)
    : early CommandError User :=
  n <- get_or "The given username must be set" name ;;
  check (py_truthy_str n) "The given username must be set" ;;
  ret (mkUser n (default EmptyString mail) (make_password pw) ROLE_USER None false false true 0).

(** [UserManager.create_user]: the INSERT fails on a duplicate username
    (the unique constraint). *)
Definition create_user (db : DB) (name : option string) (mail : option string) (pw : string)
    : early CommandError (nat * User * DB) :=
  u <- create_user_row name mail pw ;;
  check (negb (username_taken db (username u))) "UNIQUE constraint failed: core_user.username" ;;
  let pd := user_insert db u in
  ret (pd.1, joined_now db u, pd.2).

(** The username, email and password of createadminuser.handle
    (createadminuser.py 15-30): under [--noinput] the options and the
    built-in password; otherwise a line for each missing option, then
    the password twice.  An [input()] past the typed lines raises
    [EOFError] outside the [try]. *)
Definition createadminuser_input (opts : Options) (stdin : Stdin)
    : early CommandError (option string * option string * string) :=
  if opt_noinput opts then ret (opt_username opts, opt_email opts, "adminpass123"%string)
  else
    n <- input_unless (opt_username opts) (in_lines stdin) ;;
    m <- input_unless (opt_email opts) n.2 ;;
    p1 <- input m.2 ;;
    p2 <- input p1.2 ;;
    check (bool_decide (p1.1 = p2.1)) "Passwords do not match." ;;
    ret (n.1, m.1, p1.1).

(** The row image [user.save()] writes at the end of the [try] block:
    the created user made a staff admin. *)
Definition admin_row (user : User) : User :=
  mkUser (username user) (email user) (password user) ROLE_ADMIN (admin user) true false
    (is_active user) (date_joined user).

(** createadminuser.handle *)
Definition createadminuser (db : DB) (opts : Options) (stdin : Stdin) : early CommandError DB :=
  i <- createadminuser_input opts stdin ;;
  let '(name, mail, pw) := i in
  reraise "Failed to create admin user: " (
    r <- create_user db name mail pw ;;
    let '(pk, user, db1) := r in
    ret (user_save db1 pk (admin_row user))).

(** ** Django's createsuperuser

    Modelled from Django's [createsuperuser.Command.handle] for the
    user model of models.py ([USERNAME_FIELD] "username",
    [REQUIRED_FIELDS] ["email"]). *)

(** [_validate_username] finds no error: the name is unused, not blank,
    and passes the field's validators. *)
Definition username_ok (db : DB) (n : string) : bool :=
  negb (username_taken db n) && py_truthy_str n && username_valid n.

(** The message [_validate_username] returns, in its order. *)
Definition username_error (db : DB) (n : string) : CommandError :=
  if username_taken db n then "Error: That username is already taken."
  else if py_truthy_str n then "Error: invalid username" else "Username cannot be blank.".

(** [EmailField(blank=True).clean]: the empty value, or a valid
    address. *)
Definition email_ok (e : string) : bool := negb (py_truthy_str e) || email_valid e.

(** [get_default_username()]: the login name when it is a valid, unused
    username, otherwise [''] (no default). *)
Definition get_default_username (db : DB) (stdin : Stdin) : string :=
  let n := login_name stdin in if username_valid n && negb (username_taken db n) then n else EmptyString.

(** [get_input_data]: [if default and raw_value == '': raw_value = default]. *)
Definition input_default (dflt l : string) : string :=
  if py_truthy_str dflt && negb (py_truthy_str l) then dflt else l.

(** [while username is None]: each line is cleaned ([''] taking the
    default) and validated; a refused one is reported and prompted for
    again. *)
Fixpoint prompt_username (db : DB) (dflt : string) (ls : list string)
    : early CommandError (string * list string) :=
  match ls with
  | [] => inl EOF_error
  | l :: ls' =>
      let raw := input_default dflt l in
      if username_ok db raw then inr (raw, ls') else prompt_username db dflt ls'
  end.

(** [while user_data['email'] is None]: a line that does not clean is
    prompted for again. *)
Fixpoint prompt_email (ls : list string) : early CommandError (string * list string) :=
  match ls with
  | [] => inl EOF_error
  | l :: ls' => if email_ok l then inr (l, ls') else prompt_email ls'
  end.

(** [while user_data['password'] is None]: two lines that differ, or a
    blank password, are refused; a password the validators refuse is
    kept only when the next line answers "y" to "Bypass password
    validation and create user anyway? [y/N]". *)
Fixpoint prompt_password (ls : list string) : early CommandError (string * list string) :=
  match ls with
  | p1 :: p2 :: ls' =>
      if negb (bool_decide (p1 = p2)) then prompt_password ls'
      else if negb (py_truthy_str (py_strip p1)) then prompt_password ls'
      else if password_valid p2 then inr (p1, ls')
      else match ls' with
           | [] => inl EOF_error
           | r :: ls'' => if bool_decide (r = "y" \/ r = "Y") then inr (p1, ls'') else prompt_password ls''
           end
  | _ => inl EOF_error
  end.

(** The interactive branch: the username (the option if it validates,
    otherwise prompted), the email (the option, cleaned, or prompted),
    the password (prompted). *)
Definition createsuperuser_interactive (db : DB) (name mail : option string) (stdin : Stdin)
    : early CommandError (string * string * option string) :=
  let dflt := get_default_username db stdin in
  u <- (match name with
        | Some n =>
            if negb (py_truthy_str n) then inl "Username cannot be blank."
            else if username_ok db n then ret (n, in_lines stdin)
            else prompt_username db dflt (in_lines stdin)
        | None => prompt_username db dflt (in_lines stdin)
        end) ;;
  e <- (match mail with
        | Some m => if email_ok m then ret (m, u.2) else inl "Enter a valid email address."
        | None => prompt_email u.2
        end) ;;
  p <- prompt_password e.2 ;;
  ret (u.1, e.1, Some p.1).

(** The non-interactive branch: the username of the option or of
    [DJANGO_SUPERUSER_USERNAME], which must validate; the email of the
    option or of [DJANGO_SUPERUSER_EMAIL], which must be given and
    clean; the password of [DJANGO_SUPERUSER_PASSWORD], if set. *)
Definition createsuperuser_noinput (db : DB) (name mail : option string) (stdin : Stdin)
    : early CommandError (string * string * option string) :=
  n <- get_or "You must use --username with --noinput."
         (match name with Some n => Some n | None => env_username stdin end) ;;
  check (username_ok db n) (username_error db n) ;;
  m <- get_or "You must use --email with --noinput."
         (if py_falsy_opt mail then (if py_falsy_opt (env_email stdin) then None else env_email stdin)
          else mail) ;;
  check (email_ok m) "Enter a valid email address." ;;
  ret (n, m, env_password stdin).

(** Django's [createsuperuser]: interactive without a terminal it
    skips creation ([NotRunningInTTYException]) and returns normally;
    otherwise [create_superuser] builds an active staff superuser of the
    model's default role "user", with the hashed password, or an
    unusable one when none was given. *)
Definition createsuperuser_row (db : DB) (name : option string) (mail : option string)
    (interactive : bool) (stdin : Stdin) : early CommandError (option User) :=
  if interactive && negb (in_tty stdin) then ret None
  else
    d <- (if interactive then createsuperuser_interactive db name mail stdin
          else createsuperuser_noinput db name mail stdin) ;;
    let '(n, m, pw) := d in
    ret (Some (mkUser n m (match pw with Some p => make_password p | None => unusable_password end)
                 ROLE_USER None true true true 0)).

(** [call_command('createsuperuser', ...)]: the row, if any, is
    inserted. *)
Definition createsuperuser (db : DB) (name : option string) (mail : option string)
    (interactive : bool) (stdin : Stdin) : early CommandError DB :=
  o <- createsuperuser_row db name mail interactive stdin ;;
  ret (match o with Some u => (user_insert db u).2 | None => db end).

(** [User.objects.order_by('-date_joined').first()]: a scan keeping the
    row with the latest [date_joined]. *)
Definition latest_step (ku : nat * User) (best : option (nat * User)) : option (nat * User) :=
  match best with
  | None => Some ku
  | Some b => if date_joined b.2 <? date_joined ku.2 then Some ku else best
  end.

Definition latest_joined (us : gmap nat User) : option (nat * User) :=
  foldr latest_step None (map_to_list us).

(** [--noinput]/[--no-input] of createsuperadminuser: [action='store_false',
    dest='interactive', default=True]. *)
Definition superadmin_interactive (opts : Options) : bool := negb (opt_noinput opts).

(** The arguments createsuperadminuser.handle passes to
    [createsuperuser] (createsuperadminuser.py 25-35): an empty
    [--username] or [--email] is not passed. *)
Definition createsuperadminuser_args (opts : Options) : option string * option string :=
  (if py_falsy_opt (opt_username opts) then None else opt_username opts,
   if py_falsy_opt (opt_email opts) then None else opt_email opts).

(** The second [try] block of createsuperadminuser.handle
    (createsuperadminuser.py 43-64): the newest user by [date_joined] is
    given the role "superadmin", on the store as it is when the query
    runs. *)
Definition createsuperadminuser_promote (db1 : DB) : early CommandError DB :=
  p <- get_or "Could not set superadmin role: No user was created." (latest_joined (users db1)) ;;
  if decide (role p.2 = ROLE_SUPERADMIN) then ret db1
  else ret (user_save db1 p.1 (set_user_role p.2 ROLE_SUPERADMIN)).

(** createsuperadminuser.handle *)
Definition createsuperadminuser (db : DB) (opts : Options) (stdin : Stdin) : early CommandError DB :=
  let args := createsuperadminuser_args opts in
  db1 <- reraise "Failed to create base user: " (createsuperuser db args.1 args.2 (superadmin_interactive opts) stdin) ;;
  createsuperadminuser_promote db1.

End commands.

(** ** Lemmas *)

Lemma latest_step_elem (l : list (nat * User)) (b : nat * User) :
  foldr latest_step None l = Some b -> b ∈ l.
Proof.
  induction l as [|x l IH]; simpl; [done|]. unfold latest_step at 1.
  destruct (foldr latest_step None l) as [b'|]; [|intros [= <-]; left].
  destruct (date_joined b'.2 <? date_joined x.2); intros [= <-]; [left | right; auto].
Qed.

(** The scan returns the row whose [date_joined] is strictly later than
    every other row's. *)
Lemma latest_step_max (l : list (nat * User)) (k : nat) (u : User) :
  NoDup l.*1 -> (k, u) ∈ l ->
  (forall k' u', (k', u') ∈ l -> k' <> k -> date_joined u' < date_joined u) ->
  foldr latest_step None l = Some (k, u).
Proof.
  induction l as [|[kx ux] l IH]; simpl; [intros _ Hin; by apply not_elem_of_nil in Hin|].
  intros Hnd Hin Hmax. apply NoDup_cons in Hnd as [Hx Hnd].
  destruct (decide (kx = k)) as [->|Hne].
  - assert (ux = u) as ->.
    { apply elem_of_cons in Hin as [[= ->]|Hin]; [done|].
      exfalso. apply Hx. apply list_elem_of_fmap. by exists (k, u). }
    destruct (foldr latest_step None l) as [[kb ub]|] eqn:Hb; simpl; [|done].
    apply latest_step_elem in Hb.
    assert (kb <> k) by (intros ->; apply Hx, list_elem_of_fmap; by exists (k, ub)).
    rewrite (proj2 (Nat.ltb_lt (date_joined ub) (date_joined u))); [done|].
    apply (Hmax kb ub); [by right | done].
  - apply elem_of_cons in Hin as [[= -> ->]|Hin]; [done|].
    rewrite IH; [| done | done | intros k' u' Hk' Hne'; apply (Hmax k' u'); [by right | done]].
    simpl. rewrite (proj2 (Nat.ltb_ge (date_joined u) (date_joined ux))); [done|].
    specialize (Hmax kx ux (list_elem_of_here _ _) Hne). lia.
Qed.

Lemma latest_joined_max (us : gmap nat User) (k : nat) (u : User) :
  us !! k = Some u ->
  (forall k' u', us !! k' = Some u' -> k' <> k -> date_joined u' < date_joined u) ->
  latest_joined us = Some (k, u).
Proof.
  intros Hk Hmax. apply latest_step_max.
  - apply NoDup_fst_map_to_list.
  - by apply elem_of_map_to_list.
  - intros k' u' Hin. apply elem_of_map_to_list in Hin. by apply Hmax.
Qed.

Lemma latest_joined_lookup (us : gmap nat User) (k : nat) (u : User) :
  latest_joined us = Some (k, u) -> us !! k = Some u.
Proof. intros Hl. apply elem_of_map_to_list. by apply latest_step_elem. Qed.

(** The reference meaning of [order_by('-date_joined').first()]: a row
    whose join date is at least every other row's. *)
Definition newest (us : gmap nat User) (k : nat) (u : User) : Prop :=
  us !! k = Some u /\ map_Forall (fun _ v => date_joined v <= date_joined u) us.

Lemma latest_step_ge (l : list (nat * User)) (b : nat * User) :
  foldr latest_step None l = Some b -> Forall (fun x => date_joined x.2 <= date_joined b.2) l.
Proof.
  revert b. induction l as [|x l IH]; intros b; simpl; [done|].
  destruct (foldr latest_step None l) as [b'|] eqn:Hb; simpl.
  - pose proof (IH b' eq_refl) as Hall.
    destruct (date_joined b'.2 <? date_joined x.2) eqn:Hlt; intros [= <-].
    + apply Nat.ltb_lt in Hlt. constructor; [lia|]. eapply Forall_impl; [exact Hall|]. simpl. lia.
    + apply Nat.ltb_ge in Hlt. by constructor.
  - intros [= <-]. destruct l as [|y l]; [constructor; [lia | constructor]|]. exfalso.
    simpl in Hb. unfold latest_step at 1 in Hb.
    destruct (foldr latest_step None l); [case_match|]; discriminate.
Qed.

Lemma latest_joined_newest (us : gmap nat User) (k : nat) (u : User) :
  latest_joined us = Some (k, u) -> newest us k u.
Proof.
  intros Hl. split; [by apply latest_joined_lookup|].
  intros k' v Hv. apply latest_step_ge in Hl. rewrite Forall_forall in Hl.
  apply (Hl (k', v)). by apply elem_of_map_to_list.
Qed.

Lemma latest_joined_None (us : gmap nat User) : latest_joined us = None <-> us = ∅.
Proof.
  unfold latest_joined. split.
  - destruct (map_to_list us) as [|x l] eqn:E; [intros _; by apply map_to_list_empty_iff|].
    simpl. unfold latest_step at 1. destruct (foldr latest_step None l); [case_match|]; discriminate.
  - intros ->. reflexivity.
Qed.

Section command_lemmas.
Context `{Platform}.

(** A username [username_taken] does not find is free for an INSERT. *)
Lemma username_taken_free (db : DB) (n : string) :
  negb (username_taken db n) = true -> name_free (users db) n.
Proof.
  unfold username_taken. rewrite negb_true_iff, bool_decide_eq_false. intros Hn j v Hj Heq.
  apply Hn. by exists j, v.
Qed.

Lemma username_ok_free (db : DB) (n : string) : username_ok db n = true -> name_free (users db) n.
Proof. unfold username_ok. intros [[Hn _]%andb_prop _]%andb_prop. by apply username_taken_free. Qed.

(** The username loop ends only on a name [_validate_username] accepts. *)
Lemma prompt_username_inr (db : DB) (dflt : string) (ls rest : list string) (n : string) :
  prompt_username db dflt ls = inr (n, rest) -> username_ok db n = true.
Proof.
  induction ls as [|l ls IH]; simpl; [done|]. case_match eqn:E; [by intros [= <- _] | exact IH].
Qed.

(** The username loop returns the first line it accepts, every earlier
    one refused. *)
Lemma prompt_username_first (db : DB) (dflt : string) (ls rest : list string) (n : string) :
  prompt_username db dflt ls = inr (n, rest) ->
  exists pre l, ls = pre ++ l :: rest /\ n = input_default dflt l /\
    Forall (fun l' => username_ok db (input_default dflt l') = false) pre.
Proof.
  induction ls as [|l ls IH]; simpl; [done|]. destruct (username_ok db (input_default dflt l)) eqn:E.
  - intros [= <- <-]. by exists [], l.
  - intros (pre & l' & -> & -> & Hpre)%IH. exists (l :: pre), l'. split_and!; [done | done | by constructor].
Qed.


Lemma prompt_email_suffix (ls rest : list string) (m : string) :
  prompt_email ls = inr (m, rest) -> exists pre, ls = pre ++ rest.
Proof.
  induction ls as [|l ls IH]; simpl; [done|]. case_match.
  - intros [= _ <-]. by exists [l].
  - intros (pre & ->)%IH. by exists (l :: pre).
Qed.

(** The password loop keeps a password typed twice in a row, not
    blank. *)
Lemma prompt_password_twice (ls rest : list string) (p : string) :
  prompt_password ls = inr (p, rest) ->
  py_truthy_str (py_strip p) = true /\ exists pre rest', ls = pre ++ p :: p :: rest'.
Proof.
  remember (length ls) as len eqn:Hlen. revert ls Hlen.
  induction len as [len IH] using lt_wf_ind. intros ls ->.
  assert (Hrec : forall pre ls', length ls' < length ls -> ls = pre ++ ls' -> prompt_password ls' = inr (p, rest) ->
            py_truthy_str (py_strip p) = true /\ exists pre rest', ls = pre ++ p :: p :: rest').
  { intros pre ls' Hlt -> Hp. destruct (IH _ Hlt ls' eq_refl Hp) as (Hb & pre' & rest' & ->).
    split; [done|]. exists (pre ++ pre'), rest'. by rewrite <- app_assoc. }
  destruct ls as [|p1 [|p2 ls]]; simpl; try done.
  case_bool_decide as Heq; simpl; [|apply (Hrec [p1; p2]); simpl; [lia | done]].
  subst p2. destruct (py_truthy_str (py_strip p1)) eqn:Hb; simpl; [|apply (Hrec [p1; p1]); simpl; [lia | done]].
  destruct (password_valid p1); [intros [= <- _]; split; [done|]; by exists [], ls|].
  destruct ls as [|r ls]; [done|]. case_bool_decide; [intros [= <- _]; split; [done|]; by exists [], (r :: ls)|].
  apply (Hrec [p1; p1; r]); simpl; [lia | done].
Qed.

(** What an interactive run reads: the password it keeps was typed
    twice in a row, after the lines the username and email prompts
    consumed. *)
Lemma createsuperuser_interactive_password (db : DB) (name mail : option string) (stdin : Stdin)
    (n m : string) (pw : option string) :
  createsuperuser_interactive db name mail stdin = inr (n, m, pw) ->
  exists p, pw = Some p /\ py_truthy_str (py_strip p) = true /\
    exists pre rest, in_lines stdin = pre ++ p :: p :: rest.
Proof.
  unfold createsuperuser_interactive. intros Hc.
  apply bind_inr_inv in Hc as ([n' ls1] & Hn & Hc). apply bind_inr_inv in Hc as ([m' ls2] & Hm & Hc).
  apply bind_inr_inv in Hc as ([p rest] & Hp & [= _ _ <-]). simpl in *.
  assert (Hs1 : exists pre, in_lines stdin = pre ++ ls1).
  { destruct name as [x|]; [destruct (py_truthy_str x); [destruct (username_ok db x)|]|];
      simpl in Hn; unfold ret in Hn; try discriminate; [injection Hn as _ <-; by exists []|..];
      apply prompt_username_first in Hn as (pre & l & -> & _); by exists (pre ++ [l]); rewrite <- app_assoc. }
  assert (Hs2 : exists pre, ls1 = pre ++ ls2).
  { destruct mail as [x|]; [destruct (email_ok x); simpl in Hm; [injection Hm as _ <-; by exists [] | done]|].
    by apply prompt_email_suffix in Hm. }
  destruct (prompt_password_twice _ _ _ Hp) as (Hb & pre3 & rest3 & ->).
  destruct Hs1 as [pre1 ->], Hs2 as [pre2 ->]. exists p. split_and!; [done | done |].
  exists (pre1 ++ pre2 ++ pre3), rest3. by rewrite !app_assoc.
Qed.


Lemma createsuperuser_interactive_inr (db : DB) (name mail : option string) (stdin : Stdin)
    (n m : string) (pw : option string) :
  createsuperuser_interactive db name mail stdin = inr (n, m, pw) -> username_ok db n = true.
Proof.
  unfold createsuperuser_interactive. intros Hc.
  apply bind_inr_inv in Hc as ([n' ls] & Hn & Hc). apply bind_inr_inv in Hc as (e & _ & Hc).
  apply bind_inr_inv in Hc as (p & _ & [= <- _ _]). revert Hn.
  destruct name as [x|]; [|apply prompt_username_inr].
  destruct (py_truthy_str x); simpl; [|done].
  destruct (username_ok db x) eqn:Hx; [by intros [= <- _] | apply prompt_username_inr].
Qed.

Lemma createsuperuser_noinput_inr (db : DB) (name mail : option string) (stdin : Stdin)
    (n m : string) (pw : option string) :
  createsuperuser_noinput db name mail stdin = inr (n, m, pw) ->
  username_ok db n = true /\ pw = env_password stdin /\
  match name with Some x => n = x | None => env_username stdin = Some n end.
Proof.
  unfold createsuperuser_noinput. intros Hc.
  apply bind_inr_inv in Hc as (n' & Hn & Hc). destruct (username_ok db n') eqn:Hok; simpl in Hc; [|done].
  apply bind_inr_inv in Hc as (m' & _ & Hc). destruct (email_ok m'); simpl in Hc; [|done].
  injection Hc as <- _ <-. split_and!; [done | done |].
  destruct name; simpl in Hn; [|destruct (env_username stdin); simpl in Hn]; by simplify_eq.
Qed.

(** The row [createsuperuser] creates, when it creates one, is an
    active staff superuser of role "user", with no admin, whose
    username no row has; it creates none exactly when interactive
    without a terminal. *)
Lemma createsuperuser_row_inr (db : DB) (name mail : option string) (interactive : bool)
    (stdin : Stdin) (o : option User) :
  createsuperuser_row db name mail interactive stdin = inr o ->
  match o with
  | None => interactive = true /\ in_tty stdin = false
  | Some u => (interactive = false \/ in_tty stdin = true) /\
      role u = ROLE_USER /\ admin u = None /\ is_staff u = true /\ is_superuser u = true /\
      is_active u = true /\ name_free (users db) (username u)
  end.
Proof.
  unfold createsuperuser_row.
  destruct interactive, (in_tty stdin); simpl; try (intros [= <-]; done);
    intros Hc; apply bind_inr_inv in Hc as ([[n m] pw] & Hd & [= <-]);
    [apply createsuperuser_interactive_inr in Hd | apply createsuperuser_noinput_inr in Hd as [Hd _]..];
    (split; [tauto|]); split_and!; try done; by apply username_ok_free.
Qed.

(** A successful [createsuperuser] inserts that row, or, interactive
    without a terminal, leaves the store as it was. *)
Lemma createsuperuser_inr (db db1 : DB) (name mail : option string) (interactive : bool)
    (stdin : Stdin) :
  createsuperuser db name mail interactive stdin = inr db1 ->
  (db1 = db /\ interactive = true /\ in_tty stdin = false) \/
  ((interactive = false \/ in_tty stdin = true) /\
   exists u, db1 = (user_insert db u).2 /\ role u = ROLE_USER /\ admin u = None /\
    is_staff u = true /\ is_superuser u = true /\ is_active u = true /\ name_free (users db) (username u)).
Proof.
  unfold createsuperuser. intros Hc. apply bind_inr_inv in Hc as (o & Ho%createsuperuser_row_inr & [= <-]).
  destruct o as [u|]; [right | by left].
  destruct Ho as (Hi & Ho). split; [done|]. by exists u.
Qed.

Lemma create_user_row_inr (name mail : option string) (pw : string) (u : User) :
  create_user_row name mail pw = inr u ->
  u = mkUser (username u) (default EmptyString mail) (make_password pw) ROLE_USER None false false true 0.
Proof.
  unfold create_user_row. destruct name as [n|]; simpl; [|done].
  destruct (py_truthy_str n); simpl; [|done]. by intros [= <-].
Qed.

(** A successful [create_user] inserts one active "user" row with the
    hashed password at the next pk, and returns that row. *)
Lemma create_user_inr (db : DB) (name mail : option string) (pw : string)
    (pk : nat) (u : User) (db1 : DB) :
  create_user db name mail pw = inr (pk, u, db1) ->
  exists u0, create_user_row name mail pw = inr u0 /\
    pk = next_user_pk db /\ u = joined_now db u0 /\ db1 = (user_insert db u0).2 /\
    name_free (users db) (username u0).
Proof.
  unfold create_user. intros Hc. apply bind_inr_inv in Hc as (u0 & Hu0 & Hc).
  destruct (negb (username_taken db (username u0))) eqn:Hn; simpl in Hc; [|done].
  injection Hc as <- <- <-. exists u0. split_and!; try done. by apply username_taken_free.
Qed.

Lemma input_inr (ls rest : list string) (l : string) : input ls = inr (l, rest) -> ls = l :: rest.
Proof. destruct ls; simpl; [done | by intros [= -> ->]]. Qed.

(** [input_unless] reads one line exactly when the option is missing. *)
Lemma input_unless_inr (o o' : option string) (ls rest : list string) :
  input_unless o ls = inr (o', rest) ->
  exists pre, ls = pre ++ rest /\ length pre = (if py_falsy_opt o then 1 else 0).
Proof.
  unfold input_unless. destruct (py_falsy_opt o); simpl.
  - destruct ls as [|l ls]; simpl; [done|]. intros [= _ <-]. by exists [l].
  - intros [= _ <-]. by exists [].
Qed.

(** The password createadminuser uses: the built-in one under
    [--noinput]; otherwise the line typed after the prompts of the
    missing options, which the next line repeats. *)
Lemma createadminuser_input_inr (opts : Options) (stdin : Stdin) (name mail : option string) (pw : string) :
  createadminuser_input opts stdin = inr (name, mail, pw) ->
  (opt_noinput opts = true -> pw = "adminpass123"%string) /\
  (opt_noinput opts = false -> exists pre rest, in_lines stdin = pre ++ pw :: pw :: rest /\
     length pre = (if py_falsy_opt (opt_username opts) then 1 else 0) +
                  (if py_falsy_opt (opt_email opts) then 1 else 0)).
Proof.
  unfold createadminuser_input. destruct (opt_noinput opts); simpl; [by intros [= _ _ <-]|].
  intros Hc. split; [done|]. intros _.
  apply bind_inr_inv in Hc as ([n ls1] & (pre1 & E1 & L1)%input_unless_inr & Hc).
  apply bind_inr_inv in Hc as ([m ls2] & (pre2 & E2 & L2)%input_unless_inr & Hc).
  apply bind_inr_inv in Hc as ([p1 ls3] & Hp1%input_inr & Hc).
  apply bind_inr_inv in Hc as ([p2 ls4] & Hp2%input_inr & Hc). simpl in *. subst ls1 ls2 ls3.
  case_bool_decide as Heq; simpl in Hc; [|done]. injection Hc as <- <- <-. subst p2.
  exists (pre1 ++ pre2), ls4. by rewrite E1, <- app_assoc, length_app, L1, L2.
Qed.

(** A successful [createadminuser] inserts one "user" row with the
    hashed password of its input and saves it again as a staff admin. *)
Lemma createadminuser_inr (db db' : DB) (opts : Options) (stdin : Stdin) :
  createadminuser db opts stdin = inr db' ->
  exists u0 name mail pw, createadminuser_input opts stdin = inr (name, mail, pw) /\
    db' = user_save (user_insert db u0).2 (next_user_pk db) (admin_row (joined_now db u0)) /\
    admin u0 = None /\ role u0 = ROLE_USER /\ is_superuser u0 = false /\
    password u0 = make_password pw /\ name_free (users db) (username u0).
Proof.
  intros Hc. unfold createadminuser in Hc.
  apply bind_inr_inv in Hc as ([[name mail] pw] & Hpw & Hc). apply reraise_inr in Hc.
  apply bind_inr_inv in Hc as ([[pk user] db1] & Hcu & Hc).
  apply create_user_inr in Hcu as (u0 & Hrow & -> & -> & -> & Hn). injection Hc as <-.
  exists u0, name, mail, pw. rewrite (create_user_row_inr _ _ _ _ Hrow). simpl.
  by split_and!.
Qed.

End command_lemmas.

(** [order_by('-date_joined').first()] on a store with distinct join
    dates is the reference [newest]. *)
Lemma latest_joined_newest_iff (us : gmap nat User) (k : nat) (u : User) :
  dates_distinct us -> latest_joined us = Some (k, u) <-> newest us k u.
Proof.
  intros Hd. split; [apply latest_joined_newest|].
  intros [Hk Hmax]. destruct (latest_joined us) as [[k' u']|] eqn:E.
  - destruct (latest_joined_newest _ _ _ E) as [Hk' Hmax'].
    assert (date_joined u' = date_joined u) as Heq.
    { specialize (Hmax k' u' Hk'). specialize (Hmax' k u Hk). simpl in *. lia. }
    pose proof (Hd k u Hk k' u' Hk' Heq) as ->. by rewrite Hk in Hk'; injection Hk' as ->.
  - apply latest_joined_None in E. subst. by rewrite lookup_empty in Hk.
Qed.

Section command_lemmas2.
Context `{Platform}.

(** The second [try] block on a store whose newest user is [k]: that
    user gets the role "superadmin", no other row changes. *)
Lemma createsuperadminuser_promote_newest (db : DB) (k : nat) (u : User) :
  dates_distinct (users db) -> newest (users db) k u ->
  exists db', createsuperadminuser_promote db = inr db' /\ users db' = <[k := set_user_role u ROLE_SUPERADMIN]> (users db) /\
    next_user_pk db' = next_user_pk db.
Proof.
  intros Hd Hn. unfold createsuperadminuser_promote. rewrite (proj2 (latest_joined_newest_iff _ k u Hd) Hn). simpl.
  case_decide as Hr; eexists; (split; [reflexivity|]); [|done].
  split; [|done]. rewrite insert_id; [by destruct u | destruct Hn as [Hk _]].
  rewrite Hk. f_equal. destruct u; simpl in *; by subst.
Qed.

(** A row [createsuperuser] builds comes from one of its two branches. *)
Lemma createsuperuser_row_some (db : DB) (name mail : option string) (interactive : bool)
    (stdin : Stdin) (u0 : User) :
  createsuperuser_row db name mail interactive stdin = inr (Some u0) ->
  exists n m pw,
    (if interactive then createsuperuser_interactive db name mail stdin
     else createsuperuser_noinput db name mail stdin) = inr (n, m, pw) /\
    u0 = mkUser n m (match pw with Some p => make_password p | None => unusable_password end)
           ROLE_USER None true true true 0 /\
    (interactive = false \/ in_tty stdin = true).
Proof.
  unfold createsuperuser_row. destruct (interactive && negb (in_tty stdin)) eqn:Ht; [done|].
  intros Hc. apply bind_inr_inv in Hc as ([[n m] pw] & Hd & Hc). unfold ret in Hc. injection Hc as <-.
  exists n, m, pw. split_and!; [done | done |]. destruct interactive, (in_tty stdin); auto.
Qed.

(** A run whose [createsuperuser] builds the row [u0] inserts it and
    promotes it: on a well-formed store it is the newest user. *)
Lemma createsuperadminuser_row_promoted (db : DB) (opts : Options) (stdin : Stdin) (u0 : User) :
  db_wf db ->
  createsuperuser_row db (createsuperadminuser_args opts).1 (createsuperadminuser_args opts).2
    (superadmin_interactive opts) stdin = inr (Some u0) ->
  createsuperadminuser db opts stdin =
    inr (user_save (user_insert db u0).2 (next_user_pk db) (set_user_role (joined_now db u0) ROLE_SUPERADMIN)).
Proof.
  intros Hwf Hrow. destruct (createsuperuser_row_inr _ _ _ _ _ _ Hrow) as (_ & Hr & _).
  unfold createsuperadminuser, createsuperuser. rewrite Hrow. unfold ret. cbn [bind reraise].
  unfold createsuperadminuser_promote. destruct Hwf as (_ & _ & _ & _ & Hclk & _).
  rewrite (latest_joined_max _ (next_user_pk db) (joined_now db u0)).
  - cbn [bind get_or]. rewrite decide_False; [done|]. simpl. by rewrite Hr.
  - simpl. apply lookup_insert_eq.
  - intros k' u' Hk' Hne. simpl in Hk'. rewrite lookup_insert_ne in Hk' by done.
    unfold joined_now. simpl. exact (Hclk k' u' Hk').
Qed.

(** The promoted row at the next pk, and no other row changed. *)
Lemma promoted_row_lookup (db : DB) (u0 : User) (k : nat) :
  users (user_save (user_insert db u0).2 (next_user_pk db) (set_user_role (joined_now db u0) ROLE_SUPERADMIN)) !! k =
  if decide (k = next_user_pk db) then Some (set_user_role (joined_now db u0) ROLE_SUPERADMIN) else users db !! k.
Proof. simpl. case_decide; [subst; apply lookup_insert_eq | by rewrite !lookup_insert_ne]. Qed.

(** A successful run with [--noinput] or on a terminal: the branch of
    [createsuperuser] that ran, and the store, where the row it built is
    inserted and promoted. *)
Lemma createsuperadminuser_created (db db' : DB) (opts : Options) (stdin : Stdin) :
  db_wf db -> (opt_noinput opts = true \/ in_tty stdin = true) ->
  createsuperadminuser db opts stdin = inr db' ->
  exists n m pw,
    (if opt_noinput opts
     then createsuperuser_noinput db (createsuperadminuser_args opts).1 (createsuperadminuser_args opts).2 stdin
     else createsuperuser_interactive db (createsuperadminuser_args opts).1 (createsuperadminuser_args opts).2 stdin)
      = inr (n, m, pw) /\
    let u0 := mkUser n m (match pw with Some p => make_password p | None => unusable_password end)
                ROLE_USER None true true true 0 in
    db' = user_save (user_insert db u0).2 (next_user_pk db) (set_user_role (joined_now db u0) ROLE_SUPERADMIN).
Proof.
  intros Hwf Htty Hc.
  destruct (createsuperuser_row db (createsuperadminuser_args opts).1 (createsuperadminuser_args opts).2
              (superadmin_interactive opts) stdin) as [e|[u0|]] eqn:Hrow.
  - unfold createsuperadminuser, createsuperuser in Hc. by rewrite Hrow in Hc.
  - rewrite (createsuperadminuser_row_promoted db opts stdin u0 Hwf Hrow) in Hc. injection Hc as <-.
    apply createsuperuser_row_some in Hrow as (n & m & pw & Hd & -> & _).
    exists n, m, pw. unfold superadmin_interactive in Hd. by destruct (opt_noinput opts).
  - apply createsuperuser_row_inr in Hrow as [Hi Ht]. unfold superadmin_interactive in Hi.
    destruct Htty as [E|E]; rewrite E in *; discriminate.
Qed.

End command_lemmas2.

(** ** Properties of the commands *)

Section command_properties.
Context `{Platform}.

(** C26: on a well-formed store, a successful [createsuperadminuser]
    run with [--noinput] or on a terminal gives the role "superadmin"
    to the user it has just created (the next pk), a staff superuser,
    and changes no other user: the newest [date_joined] is the new
    row's, because the clock is past every stored one. *)
Theorem createsuperadminuser_promotes_created (db db' : DB) (opts : Options) (stdin : Stdin) :
  db_wf db -> (opt_noinput opts = true \/ in_tty stdin = true) ->
  createsuperadminuser db opts stdin = inr db' ->
  exists u, users db' !! next_user_pk db = Some u /\ role u = ROLE_SUPERADMIN /\
    is_superuser u = true /\ is_staff u = true /\
    forall k, k <> next_user_pk db -> users db' !! k = users db !! k.
Proof.
  intros Hwf Htty (n & m & pw & _ & ->)%createsuperadminuser_created; [|done..].
  eexists. rewrite promoted_row_lookup, decide_True by done. split_and!; [done..|].
  intros k Hk. by rewrite promoted_row_lookup, decide_False.
Qed.

(** C37 (finding): [createsuperadminuser] run interactively (without
    [--noinput]) when stdin is not a terminal creates no user, since
    Django's [createsuperuser] then skips creation and returns normally,
    and it still succeeds: it makes the user who joined last, an
    existing one, a "superadmin", and changes no other row. *)
Theorem createsuperadminuser_no_tty_promotes_existing (db : DB) (opts : Options) (stdin : Stdin)
    (k : nat) (u : User) :
  db_wf db -> opt_noinput opts = false -> in_tty stdin = false -> newest (users db) k u ->
  exists db', createsuperadminuser db opts stdin = inr db' /\
    next_user_pk db' = next_user_pk db /\
    role <$> users db' !! k = Some ROLE_SUPERADMIN /\
    forall k', k' <> k -> users db' !! k' = users db !! k'.
Proof.
  intros Hwf Hi Ht Hn. unfold createsuperadminuser, createsuperuser, createsuperuser_row, superadmin_interactive.
  rewrite Hi, Ht. simpl.
  destruct (createsuperadminuser_promote_newest db k u (proj1 (proj2 (proj2 (proj2 (proj2 (proj2 Hwf)))))) Hn)
    as (db' & -> & Hu & Hp).
  exists db'. rewrite Hu. split_and!; [done | done | by rewrite lookup_insert_eq |].
  intros k' Hk'. by rewrite lookup_insert_ne.
Qed.


(** C39: on a terminal, the superadmin an interactive
    [createsuperadminuser] creates has a password that was typed twice
    in a row at the password prompt and is not blank: a mismatched pair
    or a blank password is asked for again.  It is stored hashed, and
    that password checks against it. *)
Theorem createsuperadminuser_tty_password (db db' : DB) (opts : Options) (stdin : Stdin) :
  db_wf db -> opt_noinput opts = false -> in_tty stdin = true ->
  createsuperadminuser db opts stdin = inr db' ->
  exists u p, users db' !! next_user_pk db = Some u /\ role u = ROLE_SUPERADMIN /\
    (exists pre rest, in_lines stdin = pre ++ p :: p :: rest) /\ py_strip p <> EmptyString /\
    check_password p (password u) = true.
Proof.
  intros Hwf Hni Ht (n & m & pw & Hd & ->)%createsuperadminuser_created; [|done | by right].
  rewrite Hni in Hd. apply createsuperuser_interactive_password in Hd as (p & -> & Hb & Hl).
  eexists _, p. rewrite promoted_row_lookup, decide_True by done. simpl. split_and!; [done | done | done | |].
  - intros E. rewrite E in Hb. discriminate.
  - apply check_password_make.
Qed.


(** C27: a successful [createadminuser] creates exactly one user, at the
    next pk, with role "admin", [is_staff] set and [is_superuser] unset,
    and the hash of a password that is the built-in "adminpass123" in
    non-interactive mode, and otherwise the line typed at the
    "Password: " prompt (after one line for each missing option),
    repeated on the next line; no other user changes. *)
Theorem createadminuser_creates_admin (db db' : DB) (opts : Options) (stdin : Stdin) :
  createadminuser db opts stdin = inr db' ->
  exists u pw, users db' !! next_user_pk db = Some u /\ role u = ROLE_ADMIN /\
    is_staff u = true /\ is_superuser u = false /\ admin u = None /\
    password u = make_password pw /\
    (opt_noinput opts = true -> pw = "adminpass123"%string) /\
    (opt_noinput opts = false -> exists pre rest, in_lines stdin = pre ++ pw :: pw :: rest /\
       length pre = (if py_falsy_opt (opt_username opts) then 1 else 0) +
                    (if py_falsy_opt (opt_email opts) then 1 else 0)) /\
    forall k, k <> next_user_pk db -> users db' !! k = users db !! k.
Proof.
  intros (u0 & name & mail & pw & Hin & -> & Ha & _ & _ & Hp & _)%createadminuser_inr.
  destruct (createadminuser_input_inr _ _ _ _ _ Hin) as [Hno Hyes].
  exists (admin_row (joined_now db u0)), pw. simpl. rewrite lookup_insert_eq. unfold admin_row. simpl.
  split_and!; [done | done | done | done | by rewrite Ha | by rewrite Hp | done | done |].
  intros k Hk. by rewrite !lookup_insert_ne by done.
Qed.

End command_properties.

Section command_witnesses.
#[local] Existing Instance test_platform.

(** A terminal session typing the username, the email and the password
    twice; the environment sets nothing. *)
Definition tty_stdin (lines : list string) : Stdin := mkStdin lines true None None None "".
Definition new_stdin : Stdin := tty_stdin ["C"; "c@example.org"; "cpassword"; "cpassword"]%string.
Definition interactive_opts : Options := mkOptions None None false.
Definition noinput_opts (name : string) : Options := mkOptions (Some name) None true.

Lemma createsuperadminuser_promotes_created_witness :
  match createsuperadminuser sample_db interactive_opts new_stdin with
  | inr db' => exists u, users db' !! 6 = Some u /\ role u = ROLE_SUPERADMIN
  | inl _ => False
  end.
Proof.
  destruct (createsuperadminuser sample_db interactive_opts new_stdin) as [e|db'] eqn:E;
    [vm_compute in E; discriminate|].
  destruct (createsuperadminuser_promotes_created sample_db db' interactive_opts new_stdin
              ltac:(refine (bool_decide_eq_true_1 _ _); vm_compute; reflexivity) (or_intror (eq_refl : in_tty new_stdin = true)) E)
    as (u & Hu & Hr & _). eauto.
Defined.

(** The same input piped into the command: no terminal. *)
Lemma createsuperadminuser_no_tty_promotes_existing_witness :
  exists db', createsuperadminuser sample_db interactive_opts (mkStdin (in_lines new_stdin) false None None None "") = inr db' /\
    next_user_pk db' = 6 /\ role <$> users db' !! 5 = Some ROLE_SUPERADMIN.
Proof.
  destruct (createsuperadminuser_no_tty_promotes_existing sample_db interactive_opts
              (mkStdin (in_lines new_stdin) false None None None "") 5 admin_B
              ltac:(refine (bool_decide_eq_true_1 _ _); vm_compute; reflexivity) eq_refl eq_refl)
    as (db' & E & Hp & Hr & _).
  - split; [reflexivity|]. apply (bool_decide_unpack _). vm_compute. reflexivity.
  - exists db'. split_and!; [exact E | exact Hp | exact Hr].
Defined.


Lemma createsuperadminuser_tty_password_witness :
  match createsuperadminuser sample_db interactive_opts new_stdin with
  | inr db' => exists u, users db' !! 6 = Some u /\ check_password "cpassword" (password u) = true
  | inl _ => False
  end.
Proof.
  destruct (createsuperadminuser sample_db interactive_opts new_stdin) as [e|db'] eqn:E;
    [vm_compute in E; discriminate|].
  destruct (createsuperadminuser_tty_password sample_db db' interactive_opts new_stdin
              ltac:(refine (bool_decide_eq_true_1 _ _); vm_compute; reflexivity) eq_refl eq_refl E)
    as (u & p & Hu & _ & _ & _ & Hc).
  exists u. split; [exact Hu|]. vm_compute in E. injection E as <-. vm_compute in Hu. by injection Hu as <-.
Defined.


Lemma createadminuser_creates_admin_witness :
  match createadminuser sample_db (noinput_opts "D") new_stdin with
  | inr db' => exists u, users db' !! 6 = Some u /\ role u = ROLE_ADMIN /\ password u = "$adminpass123"%string
  | inl _ => False
  end.
Proof.
  destruct (createadminuser sample_db (noinput_opts "D") new_stdin) as [e|db'] eqn:E;
    [vm_compute in E; discriminate|].
  destruct (createadminuser_creates_admin sample_db db' _ _ E) as (u & pw & Hu & Hr & _ & _ & _ & Hp & Hno & _).
  rewrite (Hno eq_refl) in Hp. eauto.
Defined.

End command_witnesses.

End Commands.
