(* ===== verification/Urls.v ===== *)
(** * Urls: the two URL tables as one dispatcher

    [admin_route] has one constructor per [path] of admin_urls.py (the
    console), [api_route] one per [path] of api_urls.py (the API), each
    carrying the [<int:pk>] of its pattern.  [admin_urlpatterns] and
    [api_urlpatterns] send a route to the view its [path] names, as
    Django's URL resolver does; [dispatch] takes a route of either table.
    Paths are taken as already resolved: the prefixes under which the
    project mounts the two tables are not in the repository. *)

From S2P Require Import Prelude Models Http Authz Api Forms Console.
Import Models Http Authz Api Forms Console.

Module Urls.

Inductive admin_route :=
  | admin_login | admin_logout | admin_dashboard
  | admin_user_list | admin_user_create | admin_user_edit (pk : nat) | admin_user_delete (pk : nat)
  | admin_task_list | admin_task_create | admin_task_edit (pk : nat) | admin_task_delete (pk : nat)
  | admin_task_detail (pk : nat).

Inductive api_route := api_task_list | api_task_update (pk : nat) | api_task_report (pk : nat).

Inductive endpoint := Admin (r : admin_route) | ApiRoute (r : api_route).

Section dispatch.
Context `{Platform}.

(** admin_urls.py 9-22 *)
Definition admin_urlpatterns (r : admin_route) : DB -> request -> response * DB :=
  match r with
  | admin_login => login_view
  | admin_logout => logout_view
  | admin_dashboard => dashboard
  | admin_user_list => user_list
  | admin_user_create => user_create
  | admin_user_edit pk => user_edit pk
  | admin_user_delete pk => user_delete pk
  | admin_task_list => task_list
  | admin_task_create => task_create
  | admin_task_edit pk => task_edit pk
  | admin_task_delete pk => task_delete pk
  | admin_task_detail pk => task_detail pk
  end.

(** api_urls.py 5-9 *)
Definition api_urlpatterns (r : api_route) : DB -> request -> response * DB :=
  match r with
  | api_task_list => TaskList_view
  | api_task_update pk => TaskUpdate_view pk
  | api_task_report pk => TaskReport_view pk
  end.

Definition dispatch (ep : endpoint) : DB -> request -> response * DB :=
  match ep with
  | Admin r => admin_urlpatterns r
  | ApiRoute r => api_urlpatterns r
  end.

End dispatch.

End Urls.
