(* ===== verification/System.v ===== *)
(** * System: the whole program as a transition system

    A state is the store [DB].  A step is either one HTTP request to one
    of the routes of [Urls.dispatch] (the console and the API), or one run
    of a management command that succeeds ([createadminuser],
    [createsuperadminuser]); a command that fails leaves the store as it
    was, which is no step.  [reachable] states are those a run reaches
    from the empty database.

    The main result is that every reachable state is well formed
    ([db_wf]: no task or user refers to a missing row, the pk counters
    and the clock are ahead of every row).  It is proved per handler, from
    the store lemmas of [Models], then by induction on the run; the
    preservation lemmas are stated for any relation [store_rel] between
    the store before and after a request, and [dispatch_keeps] lifts the
    nine writing views to every route.  [task_effect] says what a request
    may do to the task table; from it, any property of single tasks kept
    by the four task writes holds on every reachable store (Section
    [task_invariant]), which gives the trimmed reports and the round trip
    of the update serializer.  The completion invariant of the
    specification is not one: a run of four steps reaches a completed
    task without a report.  Any task of an active user can be completed
    in one step. *)

From S2P Require Import Prelude Models Http Fixtures Authz Api Forms Console Commands Urls.
Import Models Http Fixtures Authz Api Forms Console Commands Urls.

Module System.

Local Open Scope view_scope.

(** ** Preservation through the decorators

    A relation [R] between the store before and after a request, that
    holds of a store and itself, is kept by a decorated view when it is
    kept by the body, since every refusal of a decorator returns the
    store it was given.  [preserves P] is the relation of a store
    invariant [P]. *)

Record store_rel := mkRel {
  rel :> DB -> DB -> Prop;
  rel_refl : forall db, rel db db
}.

Definition preserves (P : DB -> Prop) : store_rel := mkRel (fun db db' => P db -> P db') (fun _ H => H).

(** A predicate [P] holds of the store a view body answers with when it
    holds of the store given and of every store a successful body
    returns. *)
Lemma run_view_keeps (P : DB -> Prop) (db : DB) (o : outcome) :
  P db -> (forall rd, o = inr rd -> P rd.2) -> P (run_view db o).2.
Proof. destruct o; simpl; auto. Qed.

Section preserve.
Context `{Platform}.
Variable R : store_rel.

Definition keeps (v : view) : Prop := forall db req, R db (v db req).2.

Definition keeps_user (v : user_view) : Prop := forall pk u db req, R db (v pk u db req).2.

Lemma login_required_keeps (v : user_view) : keeps_user v -> keeps (login_required v).
Proof.
  intros Hv db req. unfold login_required.
  destruct (session_user db req) as [[pk u]|]; [apply Hv | simpl; apply rel_refl].
Qed.

Lemma admin_or_super_required_keeps (v : user_view) : keeps_user v -> keeps (admin_or_super_required v).
Proof.
  intros Hv. apply login_required_keeps. intros pk u db req.
  case_bool_decide; [apply Hv | simpl; apply rel_refl].
Qed.

Lemma superadmin_required_keeps (v : user_view) : keeps_user v -> keeps (superadmin_required v).
Proof.
  intros Hv. apply login_required_keeps. intros pk u db req.
  case_decide; [apply Hv | simpl; apply rel_refl].
Qed.

Lemma APIView_dispatch_keeps (handler : http_method -> option api_handler) :
  (forall m h, handler m = Some h -> keeps_user h) -> keeps (APIView_dispatch handler).
Proof.
  intros Hh db req. destruct (APIView_dispatch handler db req) as [r db'] eqn:E.
  apply APIView_dispatch_cases in E as [[-> _] | (uid & u & h & _ & Hm & Hrun)]; [simpl; apply rel_refl|].
  change db' with (r, db').2. rewrite <- Hrun. by eapply Hh.
Qed.

(** A view that answers without writing keeps every such relation. *)
Lemma read_only_keeps (v : view) : (forall db req, (v db req).2 = db) -> keeps v.
Proof. intros Hv db req. rewrite Hv. apply rel_refl. Qed.

Lemma read_only_user_keeps (v : user_view) :
  (forall pk u db req, (v pk u db req).2 = db) -> keeps_user v.
Proof. intros Hv pk u db req. rewrite Hv. apply rel_refl. Qed.

End preserve.

(** A body whose every successful result answers with the store it was
    given writes nothing. *)
Lemma run_view_same (db : DB) (o : outcome) :
  (forall rd, o = inr rd -> rd.2 = db) -> (run_view db o).2 = db.
Proof. by apply (run_view_keeps (fun d => d = db)). Qed.

(** The relation of a view that writes nothing. *)
Definition unchanged : store_rel := mkRel (fun db db' => db' = db) (fun _ => eq_refl).

Section read_only_views.
Context `{Platform}.

Lemma dashboard_ro : keeps unchanged dashboard.
Proof. by apply admin_or_super_required_keeps, read_only_user_keeps. Qed.

Lemma user_list_ro : keeps unchanged user_list.
Proof. by apply superadmin_required_keeps, read_only_user_keeps. Qed.

Lemma task_list_ro : keeps unchanged task_list.
Proof. by apply admin_or_super_required_keeps, read_only_user_keeps. Qed.

Lemma task_detail_ro (pk : nat) : keeps unchanged (task_detail pk).
Proof.
  apply admin_or_super_required_keeps, read_only_user_keeps. intros uid u db req.
  apply run_view_same. intros rd Hrd. early_inv Hrd. by injection Hrd as <-.
Qed.

Lemma TaskList_view_ro : keeps unchanged TaskList_view.
Proof.
  apply APIView_dispatch_keeps. intros [] h Hh; simplify_eq.
  apply read_only_user_keeps. intros uid u db req. unfold TaskList_get.
  by case_bool_decide.
Qed.

Lemma TaskReport_view_ro (pk : nat) : keeps unchanged (TaskReport_view pk).
Proof.
  apply APIView_dispatch_keeps. intros [] h Hh; simplify_eq.
  apply read_only_user_keeps. intros uid u db req.
  apply run_view_same. intros rd Hrd. early_inv Hrd. by injection Hrd as <-.
Qed.

(** A relation kept by the nine views that write is kept by every
    route. *)
Lemma dispatch_keeps (R : store_rel) :
  keeps R login_view -> keeps R logout_view -> keeps R user_create ->
  (forall pk, keeps R (user_edit pk)) -> (forall pk, keeps R (user_delete pk)) ->
  keeps R task_create -> (forall pk, keeps R (task_edit pk)) -> (forall pk, keeps R (task_delete pk)) ->
  (forall pk, keeps R (TaskUpdate_view pk)) ->
  forall ep, keeps R (dispatch ep).
Proof.
  intros ? ? ? ? ? ? ? ? ? [[]|[]]; simpl; auto; apply read_only_keeps.
  all: first [ apply dashboard_ro | apply user_list_ro | apply task_list_ro | apply task_detail_ro
             | apply TaskList_view_ro | apply TaskReport_view_ro ].
Qed.

End read_only_views.



(** ** Every handler keeps the store well formed *)

Section wf_views.
Context `{Platform}.

Lemma login_view_wf : keeps (preserves db_wf) login_view.
Proof.
  intros db req Hdb. unfold login_view. apply run_view_keeps; [done|]. intros rd Hrd.
  destruct (is_post req); [|by injection Hrd as <-]. early_inv Hrd.
  case_bool_decide; by injection Hrd as <-.
Qed.

Lemma logout_view_wf : keeps (preserves db_wf) logout_view.
Proof.
  apply login_required_keeps. intros pk u db req Hdb. unfold auth_logout. simpl.
  by destruct (cookie req).
Qed.

Lemma user_delete_wf (pk : nat) : keeps (preserves db_wf) (user_delete pk).
Proof.
  apply superadmin_required_keeps. intros uid u db req Hdb. apply run_view_keeps; [done|].
  intros rd Hrd. early_inv Hrd. destruct (is_post req); injection Hrd as <-; [|done].
  by apply User_delete_wf.
Qed.

Lemma task_delete_wf (pk : nat) : keeps (preserves db_wf) (task_delete pk).
Proof.
  apply admin_or_super_required_keeps. intros uid u db req Hdb. apply run_view_keeps; [done|].
  intros rd Hrd. early_inv Hrd. destruct (is_post req); injection Hrd as <-; [|done].
  by apply Task_delete_wf.
Qed.

(** The assignee a valid task form names is an existing row. *)
Lemma TaskForm_clean_assignee_row (db : DB) (uid : nat) (u : User) (post : gmap string string)
    (f : TaskFormData) :
  TaskForm_clean db uid u post = inr f -> is_Some (users db !! tf_assigned_to f).
Proof.
  intros Hf. destruct (TaskForm_clean_assignee _ _ _ _ _ Hf) as [Hr _].
  apply fmap_Some in Hr as (x & Hx & _). eauto.
Qed.

Lemma task_create_wf : keeps (preserves db_wf) task_create.
Proof.
  apply admin_or_super_required_keeps. intros uid u db req Hdb. simpl.
  destruct (is_post req); [|done].
  destruct (TaskForm_clean db uid u (post req)) as [errs|f] eqn:Hf; [done|].
  apply task_insert_wf; [done|]. by eapply TaskForm_clean_assignee_row.
Qed.

Lemma task_edit_wf (pk : nat) : keeps (preserves db_wf) (task_edit pk).
Proof.
  apply admin_or_super_required_keeps. intros uid u db req Hdb. apply run_view_keeps; [done|].
  intros rd Hrd. apply bind_inr_inv in Hrd as (t & Ht & Hrd). early_inv Hrd.
  destruct (is_post req); [|by injection Hrd as <-].
  destruct (TaskForm_clean db uid u (post req)) as [errs|f] eqn:Hf; injection Hrd as <-; [done|].
  destruct (tasks db !! pk) eqn:Hpk; [|done].
  apply task_save_wf; [done | by rewrite Hpk | by eapply TaskForm_clean_assignee_row].
Qed.


Lemma user_create_wf : keeps (preserves db_wf) user_create.
Proof.
  apply superadmin_required_keeps. intros uid u db req Hdb. simpl.
  destruct (is_post req); [|done].
  destruct (CustomUserCreationForm_clean db (post req)) as [errs|[f pw]] eqn:Hf; [done|]. simpl.
  pose proof (fun w => CustomUserCreationForm_clean_admin _ _ _ _ w Hf) as Hadm.
  pose proof (CustomUserCreationForm_clean_username _ _ _ _ Hf) as Hn.
  assert (Hwf : db_wf (user_insert db (mkUser (uf_username f) EmptyString (make_password pw)
             (uf_role f) (uf_admin f) false false true 0)).2) by (apply user_insert_wf; [|apply Hadm|]; done).
  case_decide; [|done].
  eapply user_save_wf; [done | apply lookup_insert_eq | | done | simpl; auto with taskdb].
  apply admin_ref_ok_insert, Hadm. done.
Qed.

Lemma user_edit_wf (pk : nat) : keeps (preserves db_wf) (user_edit pk).
Proof.
  apply superadmin_required_keeps. intros uid u db req Hdb. apply run_view_keeps; [done|].
  intros rd Hrd. apply bind_inr_inv in Hrd as (x & Hx & Hrd).
  destruct (users db !! pk) as [x'|] eqn:Hpk; [injection Hx as ->|done].
  destruct (is_post req); [|by injection Hrd as <-].
  destruct (CustomUserChangeForm_clean db pk (post req)) as [errs|f] eqn:Hf; injection Hrd as <-; [done|].
  pose proof (fun w => CustomUserChangeForm_clean_admin _ _ _ _ w Hf) as Hadm.
  pose proof (CustomUserChangeForm_clean_username _ _ _ _ Hf) as Hn.
  assert (Hwf : db_wf (user_save db pk (mkUser (uf_username f) (email x) (password x) (uf_role f)
             (uf_admin f) (is_staff x) (is_superuser x) (is_active x) (date_joined x))))
    by (eapply user_save_wf; [done | done | by apply Hadm | done | done]).
  case_decide; [|done].
  eapply user_save_wf; [done | apply lookup_insert_eq | | done | simpl; auto with taskdb].
  apply admin_ref_ok_insert, Hadm. done.
Qed.

Lemma TaskUpdate_view_wf (pk : nat) : keeps (preserves db_wf) (TaskUpdate_view pk).
Proof.
  intros db req Hdb. destruct (TaskUpdate_view pk db req) as [r db'] eqn:E. simpl.
  apply TaskUpdate_view_cases in E as [[-> _] | (uid & u & t & p & _ & _ & _ & Ht & _ & _ & _ & _ & ->)];
    [done|].
  apply task_save_wf; [done | by rewrite Ht |]. simpl.
  destruct Hdb as (Hta & _). exact (Hta pk t Ht).
Qed.

End wf_views.

(** ** The commands keep the store well formed *)

Section wf_commands.
Context `{Platform}.

Lemma admin_ref_ok_set_user_role (us : gmap nat User) (u : User) (r : Role) :
  admin_ref_ok us (set_user_role u r) <-> admin_ref_ok us u.
Proof. done. Qed.

Lemma createadminuser_wf (db db' : DB) (opts : Options) (stdin : Stdin) :
  db_wf db -> createadminuser db opts stdin = inr db' -> db_wf db'.
Proof.
  intros Hdb (u0 & ? & ? & ? & _ & -> & Ha & _ & _ & _ & Hn)%createadminuser_inr.
  assert (Hok : forall us, admin_ref_ok us u0) by (intros us; unfold admin_ref_ok; by rewrite Ha).
  eapply user_save_wf; [by apply user_insert_wf | apply lookup_insert_eq | apply Hok | done |].
  simpl. auto with taskdb.
Qed.

Lemma createsuperadminuser_wf (db db' : DB) (opts : Options) (stdin : Stdin) :
  db_wf db -> createsuperadminuser db opts stdin = inr db' -> db_wf db'.
Proof.
  intros Hdb Hc. unfold createsuperadminuser, createsuperadminuser_promote in Hc.
  apply bind_inr_inv in Hc as (db1 & Hs & Hc). apply reraise_inr in Hs.
  assert (Hwf : db_wf db1).
  { destruct (createsuperuser_inr _ _ _ _ _ _ Hs) as [(-> & _) | (_ & u & -> & _ & Ha & _ & _ & _ & Hn)]; [done|].
    apply user_insert_wf; [|unfold admin_ref_ok; rewrite Ha|]; done. }
  apply bind_inr_inv in Hc as ([k x] & Hl & Hc).
  destruct (latest_joined _) as [[k' x']|] eqn:Hlj; [injection Hl as -> -> | done].
  apply latest_joined_lookup in Hlj.
  case_decide; injection Hc as <-; [done|].
  eapply user_save_wf; [done | done | | done |].
  - apply admin_ref_ok_set_user_role. destruct Hwf as (_ & Hau & _). exact (Hau k x Hlj).
  - apply (name_free_except_unique _ _ x); [by apply db_wf_usernames | done].
Qed.

(** The commands write users only. *)
Lemma createadminuser_tasks (db db' : DB) (opts : Options) (stdin : Stdin) :
  createadminuser db opts stdin = inr db' -> tasks db' = tasks db.
Proof. by intros (u0 & ? & ? & ? & _ & -> & _)%createadminuser_inr. Qed.

Lemma createsuperadminuser_tasks (db db' : DB) (opts : Options) (stdin : Stdin) :
  createsuperadminuser db opts stdin = inr db' -> tasks db' = tasks db.
Proof.
  unfold createsuperadminuser, createsuperadminuser_promote. intros Hc.
  apply bind_inr_inv in Hc as (db1 & Hs & Hc). apply reraise_inr in Hs.
  assert (tasks db1 = tasks db) as <- by
    (by destruct (createsuperuser_inr _ _ _ _ _ _ Hs) as [(-> & _) | (_ & u & -> & _)]).
  apply bind_inr_inv in Hc as ([k x] & _ & Hc). by case_decide; injection Hc as <-.
Qed.

End wf_commands.

(** ** What the guarded task views answer on a well-formed store *)

Section answers.
Context `{Platform}.
Variable Q : response -> Prop.

Lemma admin_or_super_required_answers (v : user_view) (db : DB) (req : request) :
  Q (Redirect "LOGIN_URL" None) -> Q (Forbidden "Access denied") ->
  (forall pk u, Q (v pk u db req).1) -> Q (admin_or_super_required v db req).1.
Proof.
  intros Hl Hf Hv. unfold admin_or_super_required, login_required.
  destruct (session_user db req) as [[pk u]|]; [|done]. by case_bool_decide.
Qed.

End answers.

(** On a well-formed store the assignee row exists, so the ownership
    test either passes or refuses; it never raises. *)
Lemma owner_check_total (db : DB) (uid : nat) (u : User) (t : Task) (d : response) :
  is_Some (users db !! assigned_to t) ->
  owner_check db uid u t d = inr tt \/ owner_check db uid u t d = inl d.
Proof.
  intros [a Ha]. unfold owner_check. case_decide; [|by left].
  rewrite Ha. simpl. case_bool_decide; auto.
Qed.

Lemma owner_guarded_no_crash (db : DB) (pk uid : nat) (u : User) (d : response)
    (k : Task -> early response (response * DB)) :
  db_wf db -> d <> ServerError ->
  (forall t, exists rd, k t = inr rd /\ rd.1 <> ServerError) ->
  (run_view db (t <- get_or NotFound (tasks db !! pk) ;; owner_check db uid u t d ;; k t)).1
    <> ServerError.
Proof.
  intros [Hta _] Hd Hk. destruct (tasks db !! pk) as [t|] eqn:Ht; simpl; [|done].
  destruct (owner_check_total db uid u t d) as [-> | ->]; [exact (Hta pk t Ht) | | done].
  simpl. by destruct (Hk t) as (rd & -> & Hrd).
Qed.

(** ** What a request does to the task table

    Every handler leaves the task table as it was or smaller (deletions),
    inserts a task built by [TaskForm], replaces a stored task by its
    [TaskForm] edit, or replaces it by a patch the update serializer
    validated.  Any property of single tasks that these four writes keep
    is therefore an invariant of the program. *)

Section task_effects.
Context `{Platform}.

Inductive task_effect (ts ts' : gmap nat Task) : Prop :=
  | te_sub : (forall k t, ts' !! k = Some t -> ts !! k = Some t) -> task_effect ts ts'
  | te_new (pk : nat) (f : TaskFormData) : ts' = <[pk := TaskForm_new f]> ts -> task_effect ts ts'
  | te_edit (pk : nat) (t : Task) (f : TaskFormData) :
      ts !! pk = Some t -> ts' = <[pk := TaskForm_update t f]> ts -> task_effect ts ts'
  | te_patch (pk : nat) (t : Task) (d : gmap string jval) (p : TaskPatch) :
      ts !! pk = Some t -> TaskUpdateSerializer_is_valid d = inr p ->
      ts' = <[pk := apply_patch t p]> ts -> task_effect ts ts'.

Definition task_step : store_rel :=
  mkRel (fun db db' => task_effect (tasks db) (tasks db')) (fun db => te_sub _ _ (fun _ _ H => H)).

Lemma same_tasks_step (db db' : DB) : tasks db' = tasks db -> task_step db db'.
Proof. intros E. apply te_sub. by rewrite E. Qed.

Lemma login_view_tasks : keeps task_step login_view.
Proof.
  intros db req. unfold login_view. apply run_view_keeps; [apply (rel_refl task_step)|]. intros rd Hrd.
  destruct (is_post req); [|injection Hrd as <-; apply (rel_refl task_step)]. early_inv Hrd.
  case_bool_decide; injection Hrd as <-; by apply same_tasks_step.
Qed.

Lemma logout_view_tasks : keeps task_step logout_view.
Proof.
  apply login_required_keeps. intros pk u db req. apply same_tasks_step. simpl.
  unfold auth_logout. by destruct (cookie req).
Qed.

Lemma user_create_tasks : keeps task_step user_create.
Proof.
  apply superadmin_required_keeps. intros uid u db req. apply same_tasks_step. simpl.
  destruct (is_post req); [|done].
  destruct (CustomUserCreationForm_clean db (post req)) as [errs|[f pw]]; [done|]. simpl.
  by case_decide.
Qed.

Lemma user_edit_tasks (pk : nat) : keeps task_step (user_edit pk).
Proof.
  apply superadmin_required_keeps. intros uid u db req. apply same_tasks_step.
  apply (run_view_keeps (fun d => tasks d = tasks db)); [done|]. intros rd Hrd. early_inv Hrd.
  destruct (is_post req); [|by injection Hrd as <-].
  destruct (CustomUserChangeForm_clean db pk (post req)); injection Hrd as <-; [done|]. simpl.
  by case_decide.
Qed.

Lemma user_delete_tasks (pk : nat) : keeps task_step (user_delete pk).
Proof.
  apply superadmin_required_keeps. intros uid u db req.
  apply run_view_keeps; [apply (rel_refl task_step)|]. intros rd Hrd. early_inv Hrd.
  destruct (is_post req); injection Hrd as <-; [|apply (rel_refl task_step)].
  apply te_sub. intros k t Hk. apply User_delete_task_lookup in Hk. by destruct Hk.
Qed.

Lemma task_create_tasks : keeps task_step task_create.
Proof.
  apply admin_or_super_required_keeps. intros uid u db req. simpl.
  destruct (is_post req); [|apply (rel_refl task_step)].
  destruct (TaskForm_clean db uid u (post req)) as [errs|f]; [apply (rel_refl task_step)|].
  eapply te_new. reflexivity.
Qed.

Lemma task_edit_tasks (pk : nat) : keeps task_step (task_edit pk).
Proof.
  apply admin_or_super_required_keeps. intros uid u db req.
  apply run_view_keeps; [apply (rel_refl task_step)|]. intros rd Hrd.
  apply bind_inr_inv in Hrd as (t & Ht & Hrd). early_inv Hrd.
  destruct (is_post req); [|injection Hrd as <-; apply (rel_refl task_step)].
  destruct (TaskForm_clean db uid u (post req)) as [errs|f]; injection Hrd as <-; [apply (rel_refl task_step)|].
  destruct (tasks db !! pk) as [t0|] eqn:Hpk; [injection Ht as ->|done].
  eapply te_edit; [exact Hpk | reflexivity].
Qed.

Lemma task_delete_tasks (pk : nat) : keeps task_step (task_delete pk).
Proof.
  apply admin_or_super_required_keeps. intros uid u db req.
  apply run_view_keeps; [apply (rel_refl task_step)|]. intros rd Hrd. early_inv Hrd.
  destruct (is_post req); injection Hrd as <-; [|apply (rel_refl task_step)].
  apply te_sub. intros k t Hk. simpl in Hk. apply lookup_delete_Some in Hk. by destruct Hk.
Qed.

Lemma TaskUpdate_view_tasks (pk : nat) : keeps task_step (TaskUpdate_view pk).
Proof.
  intros db req. destruct (TaskUpdate_view pk db req) as [r db'] eqn:E. simpl.
  apply TaskUpdate_view_cases in E as [[-> _] | (uid & u & t & p & _ & _ & _ & Ht & _ & Hp & _ & _ & ->)];
    [apply (rel_refl task_step)|].
  eapply te_patch; [exact Ht | exact Hp | reflexivity].
Qed.

Lemma dispatch_tasks (ep : endpoint) : keeps task_step (dispatch ep).
Proof.
  apply dispatch_keeps; auto using login_view_tasks, logout_view_tasks, user_create_tasks,
    user_edit_tasks, user_delete_tasks, task_create_tasks, task_edit_tasks, task_delete_tasks,
    TaskUpdate_view_tasks.
Qed.

End task_effects.

(** ** The transition system *)

Section system.
Context `{Platform}.

(** One event of the program's life: a request to a route, or a run of a
    management command. *)
Inductive event :=
  | Request (ep : endpoint) (req : request)
  | CreateAdminUser (opts : Options) (stdin : Stdin)
  | CreateSuperAdminUser (opts : Options) (stdin : Stdin).

(** A request always answers, with the store its view leaves; a command
    that fails with a [CommandError] writes nothing. *)
Definition command_result (r : early CommandError DB) (db : DB) : DB :=
  match r with inr db' => db' | inl _ => db end.

Definition event_step (db : DB) (e : event) : DB :=
  match e with
  | Request ep req => (dispatch ep db req).2
  | CreateAdminUser opts stdin => command_result (createadminuser db opts stdin) db
  | CreateSuperAdminUser opts stdin => command_result (createsuperadminuser db opts stdin) db
  end.

(** The events of a run, in order, from a store. *)
Definition run (db : DB) (es : list event) : DB := foldl event_step db es.

Inductive step : DB -> DB -> Prop :=
  | step_request (ep : endpoint) (req : request) (db : DB) : step db (dispatch ep db req).2
  | step_createadminuser (opts : Options) (stdin : Stdin) (db db' : DB) :
      createadminuser db opts stdin = inr db' -> step db db'
  | step_createsuperadminuser (opts : Options) (stdin : Stdin) (db db' : DB) :
      createsuperadminuser db opts stdin = inr db' -> step db db'.

Definition reachable (db : DB) : Prop := rtc step empty_db db.

Lemma event_step_rtc (db : DB) (e : event) : rtc step db (event_step db e).
Proof.
  destruct e as [ep req|opts stdin|opts stdin]; simpl.
  - apply rtc_once, step_request.
  - destruct (createadminuser db opts stdin) eqn:E; simpl; [done|].
    by apply rtc_once, (step_createadminuser opts stdin).
  - destruct (createsuperadminuser db opts stdin) eqn:E; simpl; [done|].
    by apply rtc_once, (step_createsuperadminuser opts stdin).
Qed.

Lemma run_rtc (db : DB) (es : list event) : rtc step db (run db es).
Proof.
  revert db. induction es as [|e es IH]; intros db; [done|]. simpl.
  etrans; [apply event_step_rtc | apply IH].
Qed.

Lemma run_reachable (es : list event) : reachable (run empty_db es).
Proof. apply run_rtc. Qed.

Lemma dispatch_wf (ep : endpoint) : keeps (preserves db_wf) (dispatch ep).
Proof.
  apply dispatch_keeps; auto using login_view_wf, logout_view_wf, user_create_wf, user_edit_wf,
    user_delete_wf, task_create_wf, task_edit_wf, task_delete_wf, TaskUpdate_view_wf.
Qed.

Lemma step_wf (db db' : DB) : step db db' -> db_wf db -> db_wf db'.
Proof.
  destruct 1.
  - apply dispatch_wf.
  - intros. by eapply createadminuser_wf.
  - intros. by eapply createsuperadminuser_wf.
Qed.

Lemma step_tasks (db db' : DB) : step db db' -> task_step db db'.
Proof.
  destruct 1.
  - apply dispatch_tasks.
  - apply same_tasks_step. by eapply createadminuser_tasks.
  - apply same_tasks_step. by eapply createsuperadminuser_tasks.
Qed.

(** A property every step keeps holds all along a run. *)
Lemma rtc_step_invariant (P : DB -> Prop) :
  (forall db db', step db db' -> P db -> P db') ->
  forall db db', rtc step db db' -> P db -> P db'.
Proof. intros Hs db db' Hr. induction Hr as [|d1 d2 d3 H12 _ IH]; [done|]. intros Hp. by eapply IH, Hs. Qed.

Lemma rtc_step_wf (db db' : DB) : rtc step db db' -> db_wf db -> db_wf db'.
Proof. apply rtc_step_invariant, step_wf. Qed.

Lemma empty_db_wf : db_wf empty_db.
Proof. split_and!; apply map_Forall_empty. Qed.

End system.

(** ** Invariants of single tasks

    A property of a task that holds of every task [TaskForm] creates and
    is kept by a [TaskForm] edit and by every patch the update serializer
    validates holds of every task of every reachable store. *)

Section task_invariant.
Context `{Platform}.
Variable TP : Task -> Prop.
Hypothesis TP_new : forall f, TP (TaskForm_new f).
Hypothesis TP_update : forall t f, TP t -> TP (TaskForm_update t f).
Hypothesis TP_patch : forall t d p, TP t -> TaskUpdateSerializer_is_valid d = inr p -> TP (apply_patch t p).

Lemma task_effect_forall (ts ts' : gmap nat Task) :
  task_effect ts ts' -> map_Forall (fun _ => TP) ts -> map_Forall (fun _ => TP) ts'.
Proof.
  intros [Hsub | pk f -> | pk t f Ht -> | pk t d p Ht Hp ->] Hall.
  - intros k t Hk. by eapply Hall, Hsub.
  - by apply map_Forall_insert_2.
  - apply map_Forall_insert_2; [|done]. by apply TP_update, (Hall pk).
  - apply map_Forall_insert_2; [|done]. by eapply TP_patch; [apply (Hall pk) |].
Qed.

Lemma reachable_tasks_forall (db : DB) : reachable db -> map_Forall (fun _ => TP) (tasks db).
Proof.
  intros Hr. refine (rtc_step_invariant (fun d => map_Forall (fun _ => TP) (tasks d)) _ _ _ Hr _).
  - intros d d' Hs. apply task_effect_forall, (step_tasks _ _ Hs).
  - apply map_Forall_empty.
Qed.

End task_invariant.

(** The three obligations for [update_fields_canonical]: a new task has
    an empty report and no hours, the console form keeps both, and the
    serializer trims the report and bounds the hours. *)
Section canonical.
Context `{Platform}.

Lemma canonical_new (f : TaskFormData) : update_fields_canonical (TaskForm_new f).
Proof. done. Qed.

Lemma canonical_update (t : Task) (f : TaskFormData) :
  update_fields_canonical t -> update_fields_canonical (TaskForm_update t f).
Proof. done. Qed.

Lemma canonical_patch (t : Task) (d : gmap string jval) (p : TaskPatch) :
  update_fields_canonical t -> TaskUpdateSerializer_is_valid d = inr p ->
  update_fields_canonical (apply_patch t p).
Proof.
  intros (Hr & Hn & Hh) Hv. unfold update_fields_canonical. simpl. apply and_assoc. split.
  - destruct (p_report p) as [r|] eqn:E; simpl; [by eapply patch_report_canonical | done].
  - unfold hours_in_range. simpl. destruct (p_hours p) as [[z|]|] eqn:E; simpl; [| done | done].
    by eapply patch_hours_range.
Qed.

Lemma reachable_canonical (db : DB) : reachable db -> map_Forall (fun _ => update_fields_canonical) (tasks db).
Proof. apply reachable_tasks_forall; [apply canonical_new | apply canonical_update | apply canonical_patch]. Qed.

End canonical.

Section system_properties.
Context `{Platform}.

(** C4: every store a run of the program reaches from the empty
    database is well formed: every task's assignee and every user's
    admin is a stored user, the pk counters are past every stored pk,
    the clock past every join date, no two users joined at the same
    instant and no two share a username, whatever requests to the
    console and the API and whatever management commands the run is
    made of. *)
Theorem reachable_wf (db : DB) : reachable db -> db_wf db.
Proof. intros Hr. by eapply rtc_step_wf, empty_db_wf. Qed.

(** C12: on every reachable store the task views guarded by the
    ownership test never answer 500: [task_edit], [task_delete],
    [task_detail] and the API's [TaskReport] read [task.assigned_to.admin]
    only for a task whose assignee row exists (CASCADE removes the tasks
    of a deleted user), so they answer a page, a redirect, 403, 404, 400,
    401 or 405, whatever the request. *)
Theorem reachable_task_views_no_crash (db : DB) (req : request) (pk : nat) :
  reachable db ->
  (task_edit pk db req).1 <> ServerError /\ (task_delete pk db req).1 <> ServerError /\
  (task_detail pk db req).1 <> ServerError /\ (TaskReport_view pk db req).1 <> ServerError.
Proof.
  intros Hr. assert (Hw : db_wf db) by (eapply rtc_step_wf; [exact Hr | apply empty_db_wf]).
  split_and!; try (apply (admin_or_super_required_answers (fun r => r <> ServerError)); [done | done |];
                   intros uid u; cbv beta; apply owner_guarded_no_crash; [done | done |]; intros t).
  - destruct (is_post req); [destruct (TaskForm_clean db uid u (post req))|]; by eexists.
  - destruct (is_post req); by eexists.
  - by eexists.
  - apply (APIView_dispatch_answers (fun r => r <> ServerError)); [done | done |].
    intros [] h uid u Hh; simplify_eq. unfold TaskReport_get.
    destruct (tasks db !! pk) as [t|] eqn:Ht; simpl; [|done].
    do 2 (case_bool_decide; simpl; [|done]).
    destruct (owner_check_total db uid u t (Forbidden "You can only view reports for your assigned users"))
      as [-> | ->]; [exact (proj1 Hw pk t Ht) | done | done].
Qed.

(** C30: on every reachable store every task's report is stored
    trimmed and without a NUL character, and its hours are null or in
    [0, 2147483647]: the console creates tasks with an empty report and
    no hours and never edits them, and the API writes only what its
    serializer has trimmed, checked and bounded. *)
Theorem reachable_reports_trimmed (db : DB) (k : nat) (t : Task) :
  reachable db -> tasks db !! k = Some t ->
  py_strip (completion_report t) = completion_report t /\ has_nul (completion_report t) = false /\
  match worked_hours t with Some z => (0 <= z <= 2147483647)%Z | None => True end.
Proof. intros Hr Hk. exact (reachable_canonical db Hr k t Hk). Qed.

(** C31: round trip of the API on every reachable store: the body the
    update answers for a stored task, sent back as a PUT, is valid and
    its patch leaves the task unchanged. *)
Theorem reachable_update_roundtrip (db : DB) (k : nat) (t : Task) :
  reachable db -> tasks db !! k = Some t ->
  exists p, TaskUpdateSerializer_is_valid (json_dict (update_repr t)) = inr p /\ apply_patch t p = t.
Proof. intros Hr Hk. apply update_repr_roundtrip, (reachable_canonical db Hr k t Hk). Qed.

(** The PUT with which an assignee completes a task: status
    "completed", report "done", one hour. *)
Definition completion_request (uid : nat) : request :=
  mkRequest None (Some uid) PUT
    (<["status" := JStr "completed"]> (<["completion_report" := JStr "done"]>
      {["worked_hours" := JInt 1]}))%string ∅.

(** C36: progress of the task life cycle: from any store, a task whose
    assignee is an active "user" can be completed in one step of the
    program, the assignee's PUT on the API, and the completed task
    satisfies the completion rule. *)
Theorem task_completable (db : DB) (k : nat) (t : Task) (a : User) :
  tasks db !! k = Some t -> users db !! assigned_to t = Some a ->
  role a = ROLE_USER -> is_active a = true ->
  exists db' t', step db db' /\ tasks db' !! k = Some t' /\
    status t' = STATUS_COMPLETED /\ completion_ok t'.
Proof.
  intros Ht Ha Hr Hact. set (req := completion_request (assigned_to t)).
  assert (Hu : api_user db req = inr (assigned_to t, a)).
  { unfold api_user. simpl. rewrite Ha. simpl. by rewrite Hact. }
  pose proof (TaskUpdate_complete_result k (assigned_to t) a t db req "done" 1 Hu eq_refl Hr Ht eq_refl
                eq_refl eq_refl eq_refl ltac:(discriminate) eq_refl ltac:(unfold HOURS_MAX; lia)) as Hv.
  exists (dispatch (ApiRoute (api_task_update k)) db req).2. eexists. split_and!.
  - apply step_request.
  - simpl. rewrite Hv. simpl. apply lookup_insert_eq.
  - done.
  - unfold completion_ok. simpl. split; [discriminate | lia].
Qed.

End system_properties.

(** ** A run of the program *)

Section demo.
#[local] Existing Instance test_platform.

(** A deployment script: nothing typed, no terminal, the email and the
    password in [DJANGO_SUPERUSER_EMAIL] and [DJANGO_SUPERUSER_PASSWORD]. *)
Definition root_stdin : Stdin :=
  mkStdin [] false None (Some "root@example.org"%string) (Some "rootpass1"%string) "".

(** [createsuperadminuser --username root --noinput], the superadmin's
    login, the creation of a "user" and of a task assigned to it whose
    status is chosen as "completed" in the form. *)
Definition demo_run : list event :=
  [CreateSuperAdminUser (mkOptions (Some "root"%string) None true) root_stdin;
   Request (Admin admin_login)
     (console_req None POST (list_to_map [("username", "root"); ("password", "rootpass1")]%string));
   Request (Admin admin_user_create)
     (console_req (Some 1) POST (list_to_map [("username", "u"); ("role", "user"); ("admin", "");
                                              ("password1", "userpass1"); ("password2", "userpass1")]%string));
   Request (Admin admin_task_create)
     (console_req (Some 1) POST (list_to_map [("title", "t"); ("description", "d"); ("assigned_to", "2");
                                              ("due_date", "5"); ("status", "completed")]%string))].

Lemma reachable_wf_witness : reachable (run empty_db demo_run) /\ db_wf (run empty_db demo_run).
Proof. split; [apply run_reachable | apply (reachable_wf _ (run_reachable demo_run))]. Defined.

Lemma reachable_reports_trimmed_witness :
  reachable (run empty_db demo_run) /\ tasks (run empty_db demo_run) !! 1 = Some (mkTask "t" "d" 2 5 STATUS_COMPLETED "" None) /\
  py_strip "" = "" /\ has_nul "" = false /\ True.
Proof.
  assert (Hk : tasks (run empty_db demo_run) !! 1 = Some (mkTask "t" "d" 2 5 STATUS_COMPLETED "" None))
    by (vm_compute; reflexivity).
  split_and!; [apply run_reachable | exact Hk | ..];
    pose proof (reachable_reports_trimmed _ 1 _ (run_reachable demo_run) Hk) as (H1 & H2 & H3); assumption.
Defined.

Lemma reachable_update_roundtrip_witness :
  exists p, TaskUpdateSerializer_is_valid (json_dict (update_repr (mkTask "t" "d" 2 5 STATUS_COMPLETED "" None))) = inr p /\
    apply_patch (mkTask "t" "d" 2 5 STATUS_COMPLETED "" None) p = mkTask "t" "d" 2 5 STATUS_COMPLETED "" None.
Proof.
  apply (reachable_update_roundtrip (run empty_db demo_run) 1); [apply run_reachable | vm_compute; reflexivity].
Defined.

Lemma task_completable_witness :
  exists db' t', step sample_db db' /\ tasks db' !! 1 = Some t' /\
    status t' = STATUS_COMPLETED /\ completion_ok t'.
Proof. apply (task_completable sample_db 1 task_1 user_U1); reflexivity. Defined.

Lemma reachable_task_views_no_crash_witness :
  reachable (run empty_db demo_run) /\
  (task_edit 1 (run empty_db demo_run) (console_req (Some 1) POST ∅)).1 <> ServerError.
Proof.
  split; [apply run_reachable|].
  exact (proj1 (reachable_task_views_no_crash _ (console_req (Some 1) POST ∅) 1 (run_reachable demo_run))).
Defined.

(** C19 (finding): the completion rule of the specification is not an
    invariant of the program: the run [demo_run] reaches a store holding
    a completed task with an empty report and no hours, through the
    console's task form, which has a status field and no report. *)
Theorem reachable_completed_without_report :
  exists db k t, reachable db /\ tasks db !! k = Some t /\
    status t = STATUS_COMPLETED /\ completion_report t = EmptyString /\ worked_hours t = None.
Proof.
  exists (run empty_db demo_run), 1. eexists. split; [apply run_reachable|].
  split; [vm_compute; reflexivity | done].
Qed.

End demo.

End System.
