(* ===== verification/Interleaving.v ===== *)
(** * Interleaving: the task handlers as read phase and write phase

    Django runs every query in its own transaction (autocommit, no
    [ATOMIC_REQUESTS] in the repository), so a handler that reads a task
    and later saves it is two database steps, between which another
    request may commit.  [TaskUpdate.put] reads the task with
    [get_object_or_404] and writes it with [serializer.save()], which is
    [Model.save()]: an UPDATE of every column, followed by an INSERT when
    the UPDATE matched no row.  The console's [task_edit] reads then saves
    the same way, and [task_delete] reads then deletes.

    Each of these handlers is written here as its read phase: the answer
    it gives and the list of [write]s it will commit, computed on the
    store it read.  [commit_all] applies the writes.  Committed at once
    they are the atomic views of [Api] and [Console]
    ([TaskUpdate_put_atomic] here, and every handler in [Threads]);
    committed later, on a store another request has changed in between,
    they give results that no serial order of the same requests gives. *)

From S2P Require Import Prelude Models Http Fixtures Authz Api Forms Console.
Import Models Http Fixtures Authz Api Forms Console.

Module Interleaving.

Local Open Scope view_scope.

(** The two writes the task handlers issue: [task.save()] with the row
    image the handler built, and [task.delete()]. *)
Inductive write := WSave (pk : nat) (t : Task) | WDelete (pk : nat).

Definition commit_write (db : DB) (w : write) : DB :=
  match w with
  | WSave pk t => task_save db pk t
  | WDelete pk => Task_delete db pk
  end.

Definition commit_all (db : DB) (ws : list write) : DB := foldl commit_write db ws.

(** The read phase of a handler: an early answer writes nothing. *)
Definition phase_outcome : Type := early response (response * list write).

Definition run_phase (o : phase_outcome) : response * list write :=
  match o with inl r => (r, []) | inr rw => rw end.

Section phases.
Context `{Platform}.

(** TaskUpdate.put (api_views.py 30-45), up to [serializer.save()]. *)
Definition TaskUpdate_put_phase (pk uid : nat) (u : User) (db : DB) (req : request)
    : response * list write :=
  run_phase (
    check (bool_decide (role u = ROLE_USER)) (Forbidden "Only users can update their tasks") ;;
    task <- get_or NotFound (t ← tasks db !! pk; if decide (assigned_to t = uid) then Some t else None) ;;
    match TaskUpdateSerializer_is_valid (data req) with
    | inr p =>
        completion_gate (data req) ;;
        let t' := apply_patch task p in
        ret (Ok (BObj (update_repr t')), [WSave pk t'])
    | inl errs => stop (BadRequest (BFieldErrors errs))
    end).

(** The body of task_edit (admin_views.py 164-176), up to [form.save()]. *)
Definition task_edit_phase (pk uid : nat) (u : User) (db : DB) (req : request) : response * list write :=
  run_phase (
    t <- get_or NotFound (tasks db !! pk) ;;
    owner_check db uid u t (Forbidden "Access denied") ;;
    if is_post req then
      match TaskForm_clean db uid u (post req) with
      | inr f => ret (Redirect "task_list" None, [WSave pk (TaskForm_update t f)])
      | inl errs => ret (Render "core/task_form.html" (CtxForm true errs), [])
      end
    else ret (Render "core/task_form.html" (CtxForm false []), [])).

(** The body of task_delete (admin_views.py 180-187), up to
    [task.delete()]. *)
Definition task_delete_phase (pk uid : nat) (u : User) (db : DB) (req : request) : response * list write :=
  run_phase (
    t <- get_or NotFound (tasks db !! pk) ;;
    owner_check db uid u t (Forbidden "Access denied") ;;
    if is_post req then ret (Redirect "task_list" None, [WDelete pk])
    else ret (Render "core/task_confirm_delete.html" (CtxTask pk), [])).

End phases.

(** A handler run atomically: its writes committed on the store it read. *)
Definition atomically (rw : response * list write) (db : DB) : response * DB :=
  (rw.1, commit_all db rw.2).

(** ** The phased handlers are the atomic ones *)

Section atomic.
Context `{Platform}.

Lemma TaskUpdate_put_atomic (pk uid : nat) (u : User) (db : DB) (req : request) :
  TaskUpdate_put pk uid u db req = atomically (TaskUpdate_put_phase pk uid u db req) db.
Proof.
  unfold TaskUpdate_put, TaskUpdate_put_phase. case_bool_decide; simpl; [|done].
  destruct (tasks db !! pk) as [t|]; simpl; [|done]. case_decide; simpl; [|done].
  destruct (TaskUpdateSerializer_is_valid (data req)); simpl; [done|].
  by destruct (completion_gate (data req)) as [|[]].
Qed.

End atomic.

(** ** What each read phase sees *)

Section phase_lemmas.
Context `{Platform}.

(** The writes of an update whose request passes the role test, the
    serializer and the gate depend on the store only through task [pk]. *)
Lemma TaskUpdate_put_phase_writes (pk uid : nat) (u : User) (db : DB) (req : request) (p : TaskPatch) :
  role u = ROLE_USER -> TaskUpdateSerializer_is_valid (data req) = inr p ->
  completion_gate (data req) = inr tt ->
  (TaskUpdate_put_phase pk uid u db req).2 =
    match tasks db !! pk with
    | Some t => if decide (assigned_to t = uid) then [WSave pk (apply_patch t p)] else []
    | None => []
    end.
Proof.
  intros Hr Hv Hg. unfold TaskUpdate_put_phase. rewrite bool_decide_true by done. simpl.
  destruct (tasks db !! pk) as [t|]; simpl; [|done]. case_decide; simpl; [|done].
  by rewrite Hv, Hg.
Qed.

Lemma TaskUpdate_put_phase_inv (pk uid : nat) (u : User) (db : DB) (req : request) (r : response)
    (w : write) :
  TaskUpdate_put_phase pk uid u db req = (r, [w]) ->
  exists t p, role u = ROLE_USER /\ tasks db !! pk = Some t /\ assigned_to t = uid /\
    TaskUpdateSerializer_is_valid (data req) = inr p /\ completion_gate (data req) = inr tt /\
    w = WSave pk (apply_patch t p).
Proof.
  unfold TaskUpdate_put_phase. case_bool_decide; simpl; [|done].
  destruct (tasks db !! pk) as [t|]; simpl; [|done]. case_decide; simpl; [|done].
  destruct (TaskUpdateSerializer_is_valid (data req)) as [|p]; simpl; [done|].
  destruct (completion_gate (data req)) as [|[]] eqn:Hg; simpl; [done|].
  intros [= _ <-]. by exists t, p.
Qed.

Lemma task_edit_phase_inv (pk uid : nat) (u : User) (db : DB) (req : request) (r : response) (w : write) :
  task_edit_phase pk uid u db req = (r, [w]) ->
  exists t f, tasks db !! pk = Some t /\ owner_check db uid u t (Forbidden "Access denied") = inr tt /\
    is_post req = true /\ TaskForm_clean db uid u (post req) = inr f /\ w = WSave pk (TaskForm_update t f).
Proof.
  unfold task_edit_phase. destruct (tasks db !! pk) as [t|]; simpl; [|done].
  destruct (owner_check db uid u t _) as [|[]] eqn:Ho; simpl; [done|].
  destruct (is_post req) eqn:Hp; [|done].
  destruct (TaskForm_clean db uid u (post req)) as [|f] eqn:Hf; [done|]. intros [= _ <-]. by exists t, f.
Qed.

Lemma task_delete_phase_inv (pk uid : nat) (u : User) (db : DB) (req : request) (r : response) (w : write) :
  task_delete_phase pk uid u db req = (r, [w]) ->
  exists t, tasks db !! pk = Some t /\ owner_check db uid u t (Forbidden "Access denied") = inr tt /\
    is_post req = true /\ w = WDelete pk.
Proof.
  unfold task_delete_phase. destruct (tasks db !! pk) as [t|]; simpl; [|done].
  destruct (owner_check db uid u t _) as [|[]] eqn:Ho; simpl; [done|].
  destruct (is_post req) eqn:Hp; [|done]. intros [= _ <-]. by exists t.
Qed.

Lemma task_edit_phase_at (pk uid : nat) (u : User) (db : DB) (req : request) (t : Task) (f : TaskFormData) :
  tasks db !! pk = Some t -> owner_check db uid u t (Forbidden "Access denied") = inr tt ->
  is_post req = true -> TaskForm_clean db uid u (post req) = inr f ->
  (task_edit_phase pk uid u db req).2 = [WSave pk (TaskForm_update t f)].
Proof. intros Ht Ho Hp Hf. unfold task_edit_phase. rewrite Ht. simpl. by rewrite Ho, Hp, Hf. Qed.

Lemma task_delete_phase_at (pk uid : nat) (u : User) (db : DB) (req : request) (t : Task) :
  tasks db !! pk = Some t -> owner_check db uid u t (Forbidden "Access denied") = inr tt ->
  is_post req = true -> (task_delete_phase pk uid u db req).2 = [WDelete pk].
Proof. intros Ht Ho Hp. unfold task_delete_phase. rewrite Ht. simpl. by rewrite Ho, Hp. Qed.

(** The ownership test and the task form read users only, and the
    ownership test reads only the assignee of the task. *)
Lemma owner_check_same (db db' : DB) (uid : nat) (u : User) (t t' : Task) (d : response) :
  users db' = users db -> assigned_to t' = assigned_to t ->
  owner_check db' uid u t' d = owner_check db uid u t d.
Proof. intros Hu Ha. unfold owner_check. by rewrite Hu, Ha. Qed.

Lemma TaskForm_clean_same (db db' : DB) (uid : nat) (u : User) (post : gmap string string) :
  users db' = users db -> TaskForm_clean db' uid u post = TaskForm_clean db uid u post.
Proof.
  intros Hu. unfold TaskForm_clean, TaskForm_queryset, fk_role_ok, assigned_users, users_with_role.
  by rewrite Hu.
Qed.

End phase_lemmas.

(** ** Properties *)

Section interleaving_properties.
Context `{Platform}.

(** C33 (finding): an update racing a delete resurrects the task.  When
    the assignee's update and an admin's delete both read task [pk],
    either serial order leaves no task [pk] (after the delete the update
    answers 404), but the interleaving in which the delete commits
    between the update's read and its save leaves the task stored again:
    [save()] finds no row to UPDATE and INSERTs it. *)
Theorem update_delete_race (pk uidU uidA : nat) (uU uA : User) (db : DB) (reqU reqD : request)
    (rU rD : response) (wU wD : write) :
  TaskUpdate_put_phase pk uidU uU db reqU = (rU, [wU]) ->
  task_delete_phase pk uidA uA db reqD = (rD, [wD]) ->
  let dbU := commit_all db [wU] in
  let dbD := commit_all db [wD] in
  tasks (commit_all dbU (task_delete_phase pk uidA uA dbU reqD).2) !! pk = None /\
  tasks (commit_all dbD (TaskUpdate_put_phase pk uidU uU dbD reqU).2) !! pk = None /\
  is_Some (tasks (commit_all dbD [wU]) !! pk).
Proof.
  intros (t & p & Hr & Ht & Ha & Hv & Hg & ->)%TaskUpdate_put_phase_inv
         (t' & Ht' & Ho & Hp & ->)%task_delete_phase_inv dbU dbD.
  rewrite Ht in Ht'. injection Ht' as <-. split_and!.
  - rewrite (task_delete_phase_at _ _ _ _ _ (apply_patch t p)); [| apply lookup_insert_eq | | done].
    + apply lookup_delete_eq.
    + by rewrite (owner_check_same db _ _ _ t).
  - rewrite (TaskUpdate_put_phase_writes _ _ _ _ _ p) by done.
    assert (Hd : tasks dbD !! pk = None) by apply lookup_delete_eq. rewrite Hd. exact Hd.
  - simpl. rewrite lookup_insert_eq. by eexists.
Qed.

(** C34 (finding): an update racing a console edit loses the edit.  When
    an admin's edit and the assignee's update both read task [pk], either
    serial order stores the title the admin typed, but the interleaving
    in which the edit commits between the update's read and its save
    stores the title the task had before: [save()] writes every column
    of the row image it read. *)
Theorem edit_update_lost_update (pk uidA uidU : nat) (uA uU : User) (db : DB) (reqE reqU : request)
    (rE rU : response) (wE wU : write) :
  task_edit_phase pk uidA uA db reqE = (rE, [wE]) ->
  TaskUpdate_put_phase pk uidU uU db reqU = (rU, [wU]) ->
  let dbE := commit_all db [wE] in
  let dbU := commit_all db [wU] in
  exists t f,
    tasks db !! pk = Some t /\ TaskForm_clean db uidA uA (post reqE) = inr f /\
    title <$> tasks (commit_all dbE (TaskUpdate_put_phase pk uidU uU dbE reqU).2) !! pk = Some (tf_title f) /\
    title <$> tasks (commit_all dbU (task_edit_phase pk uidA uA dbU reqE).2) !! pk = Some (tf_title f) /\
    title <$> tasks (commit_all dbE [wU]) !! pk = Some (title t).
Proof.
  intros (t & f & Ht & Ho & Hp & Hf & ->)%task_edit_phase_inv
         (t' & p & Hr & Ht' & Ha & Hv & Hg & ->)%TaskUpdate_put_phase_inv dbE dbU.
  rewrite Ht in Ht'. injection Ht' as <-. exists t, f. split_and!; [done | done | | |].
  - rewrite (TaskUpdate_put_phase_writes _ _ _ _ _ p) by done. simpl. rewrite lookup_insert_eq.
    case_decide; simpl; by rewrite ?lookup_insert_eq.
  - rewrite (task_edit_phase_at _ _ _ _ _ (apply_patch t p) f); [| apply lookup_insert_eq | | done |].
    + simpl. by rewrite lookup_insert_eq.
    + by rewrite (owner_check_same db _ _ _ t).
    + by rewrite (TaskForm_clean_same db).
  - simpl. by rewrite lookup_insert_eq.
Qed.

End interleaving_properties.

Section interleaving_witnesses.
#[local] Existing Instance test_platform.

(** U1 (pk 3) completes task 1 through the API. *)
Definition race_put : request :=
  api_req (Some 3) PUT (<["status" := JStr "completed"]> (<["completion_report" := JStr "done"]>
                        {["worked_hours" := JInt 5]}))%string.

(** Admin A (pk 2, session 11), who manages U1, deletes task 1. *)
Definition race_delete : request := console_req (Some 11) POST ∅.

(** Admin A renames task 1. *)
Definition race_edit : request :=
  console_req (Some 11) POST (<["title" := "renamed"]> (<["description" := "first task"]>
    (<["assigned_to" := "3"]> (<["due_date" := "100"]> {["status" := "pending"]}))))%string.

Definition task_1_done : Task := mkTask "write report" "first task" 3 100 STATUS_COMPLETED "done" (Some 5%Z).

Lemma update_delete_race_witness :
  let dbU := commit_all sample_db [WSave 1 task_1_done] in
  let dbD := commit_all sample_db [WDelete 1] in
  tasks (commit_all dbU (task_delete_phase 1 2 admin_A dbU race_delete).2) !! 1 = None /\
  tasks (commit_all dbD (TaskUpdate_put_phase 1 3 user_U1 dbD race_put).2) !! 1 = None /\
  is_Some (tasks (commit_all dbD [WSave 1 task_1_done]) !! 1).
Proof.
  apply (update_delete_race 1 3 2 user_U1 admin_A sample_db race_put race_delete
           (Ok (BObj (update_repr task_1_done))) (Redirect "task_list" None));
    vm_compute; reflexivity.
Defined.

Lemma edit_update_lost_update_witness :
  let dbE := commit_all sample_db [WSave 1 (mkTask "renamed" "first task" 3 100 STATUS_PENDING "" None)] in
  let dbU := commit_all sample_db [WSave 1 task_1_done] in
  exists t f,
    tasks sample_db !! 1 = Some t /\ TaskForm_clean sample_db 2 admin_A (post race_edit) = inr f /\
    title <$> tasks (commit_all dbE (TaskUpdate_put_phase 1 3 user_U1 dbE race_put).2) !! 1 = Some (tf_title f) /\
    title <$> tasks (commit_all dbU (task_edit_phase 1 2 admin_A dbU race_edit).2) !! 1 = Some (tf_title f) /\
    title <$> tasks (commit_all dbE [WSave 1 task_1_done]) !! 1 = Some (title t).
Proof.
  apply (edit_update_lost_update 1 2 3 admin_A user_U1 sample_db race_edit race_put
           (Redirect "task_list" None) (Ok (BObj (update_repr task_1_done))));
    vm_compute; reflexivity.
Defined.

End interleaving_witnesses.

End Interleaving.
