(* ===== verification/Threads.v ===== *)
(** * Threads: every request and command as a program of queries

    Under Django's autocommit each query a handler issues is its own
    transaction.  A [thread] is what a handler does to the database, in
    order: [TRead] takes the snapshot its SELECTs read, [TQuery] issues
    one writing query and continues with its result, [TRet] answers.  It
    is the free monad over the queries (the [act]/[ret] of a free monad
    with a result type per action).

    [exec] runs one query on the store, with the two constraints the
    database enforces whoever writes: the UNIQUE constraint of
    [User.username] and the FOREIGN KEY constraints of [Task.assigned_to]
    and [User.admin].  A query that breaks one raises [IntegrityError],
    which the thread receives as [inl] of the message: a view lets it
    propagate (Django answers 500), a command's [try] turns it into its
    [CommandError].

    [route_thread] and [event_thread] give the thread of every route of
    the two URL tables and of both commands, written from the handlers:
    the decorator (or DRF's authentication) reads the session and the
    user from one snapshot, the view body's SELECTs before its first
    write read a later one, and each [save()], [delete()], [login()] and
    [logout()] is one query.
    [run_alone] runs a thread with no other thread between its queries;
    on a well-formed store that is the atomic event of [System]
    ([event_thread_alone]).  [bounded n t] says that [t] answers within
    [n] snapshots and queries whatever they return: every event is
    bounded by 4 ([event_thread_bounded]). *)

From S2P Require Import Prelude Models Http Fixtures Authz Api Forms Console Commands Urls System Interleaving.
Import Models Http Fixtures Authz Api Forms Console Commands Urls System Interleaving.

Module Threads.

Local Open Scope view_scope.

(** ** Queries and the constraints of the database *)

(** The writing queries the program issues. *)
Inductive query :=
  | QSaveTask (pk : nat) (t : Task)      (* task.save(), form.save() with an instance *)
  | QInsertTask (t : Task)               (* form.save() of a new task *)
  | QDeleteTask (pk : nat)               (* task.delete() *)
  | QSaveUser (pk : nat) (u : User)      (* user.save() *)
  | QUpdateRole (pk : nat) (r : Role)    (* user.save(update_fields=['role']) *)
  | QInsertUser (u : User)               (* user.save() of a new user, create_user *)
  | QDeleteUser (pk : nat)               (* user.delete() *)
  | QLogin (req : request) (pk : nat)    (* login(request, user) *)
  | QLogout (req : request).             (* logout(request) *)

(** What a query returns: the pk of an inserted row (and, for a user,
    the instance as saved), the key of a new session. *)
Definition query_result (q : query) : Type :=
  match q with
  | QInsertTask _ => nat
  | QInsertUser _ => nat * User
  | QLogin _ _ => nat
  | _ => unit
  end.

(** The message of an [IntegrityError]. *)
Definition db_error : Type := string.

Definition UNIQUE_username : db_error := "UNIQUE constraint failed: core_user.username".
Definition NO_ROWS : db_error := "Save with update_fields did not affect any rows.".
Definition FOREIGN_KEY : db_error := "FOREIGN KEY constraint failed".

(** The FOREIGN KEY constraints a row must meet to be written. *)
Definition task_fk_ok (db : DB) (t : Task) : bool := bool_decide (is_Some (users db !! assigned_to t)).
Definition user_fk_ok (db : DB) (u : User) : bool := bool_decide (admin_ref_ok (users db) u).

Section exec.
Context `{Platform}.

(** One query on the store.  [Model.save()] on a row that has gone is
    an INSERT with the same pk ([task_save], [user_save]); with
    [update_fields] it is an UPDATE of those columns only, and an error
    when no row matches; the collector of [user.delete()] runs as one
    query. *)
Definition exec (db : DB) (q : query) : early db_error (query_result q * DB) :=
  match q return early db_error (query_result q * DB) with
  | QSaveTask pk t =>
      check (task_fk_ok db t) FOREIGN_KEY ;; ret (tt, task_save db pk t)
  | QInsertTask t =>
      check (task_fk_ok db t) FOREIGN_KEY ;; ret (task_insert db t)
  | QDeleteTask pk => ret (tt, Task_delete db pk)
  | QSaveUser pk u =>
      check (bool_decide (name_free_except (users db) pk (username u))) UNIQUE_username ;;
      check (user_fk_ok db u) FOREIGN_KEY ;;
      ret (tt, user_save db pk u)
  | QUpdateRole pk r =>
      x <- get_or NO_ROWS (users db !! pk) ;;
      ret (tt, user_save db pk (set_user_role x r))
  | QInsertUser u =>
      check (bool_decide (name_free (users db) (username u))) UNIQUE_username ;;
      check (user_fk_ok db u) FOREIGN_KEY ;;
      let pd := user_insert db u in ret ((pd.1, joined_now db u), pd.2)
  | QDeleteUser pk => ret (tt, User_delete db pk)
  | QLogin req pk => ret (auth_login db req pk)
  | QLogout req => ret (tt, auth_logout db req)
  end.

End exec.

(** ** Threads *)

Inductive thread (A : Type) : Type :=
  | TRet (a : A)
  | TRead (k : DB -> thread A)
  | TQuery (q : query) (k : early db_error (query_result q) -> thread A).

Arguments TRet {A} a.
Arguments TRead {A} k.
Arguments TQuery {A} q k.

(** A query whose [IntegrityError] is handled by [h]. *)
Definition perform {A} (q : query) (h : db_error -> thread A) (k : query_result q -> thread A) : thread A :=
  TQuery q (fun r => match r with inl e => h e | inr x => k x end).

(** An early answer of the handler's checks, or the rest of the thread. *)
Definition then_t {A B} (m : early A B) (k : B -> thread A) : thread A :=
  match m with inl a => TRet a | inr b => k b end.

(** An uncaught exception of a view: Django answers 500. *)
Definition raise500 (_ : db_error) : thread response := TRet ServerError.

Section run.
Context `{Platform}.

(** A thread with no other thread between its queries. *)
Fixpoint run_alone {A} (t : thread A) (db : DB) : A * DB :=
  match t with
  | TRet a => (a, db)
  | TRead k => run_alone (k db) db
  | TQuery q k =>
      match exec db q with
      | inl e => run_alone (k (inl e)) db
      | inr (r, db') => run_alone (k (inr r)) db'
      end
  end.

Lemma run_alone_perform {A} (q : query) (h : db_error -> thread A) (k : query_result q -> thread A)
    (db db' : DB) (r : query_result q) :
  exec db q = inr (r, db') -> run_alone (perform q h k) db = run_alone (k r) db'.
Proof. intros E. simpl. by rewrite E. Qed.

Lemma run_alone_perform_fail {A} (q : query) (h : db_error -> thread A) (k : query_result q -> thread A)
    (db : DB) (e : db_error) :
  exec db q = inl e -> run_alone (perform q h k) db = run_alone (h e) db.
Proof. intros E. simpl. by rewrite E. Qed.

Lemma run_alone_then {A B} (m : early A B) (k : B -> thread A) (db : DB) :
  run_alone (then_t m k) db = match m with inl a => (a, db) | inr b => run_alone (k b) db end.
Proof. by destruct m. Qed.

End run.

(** ** The threads of the handlers *)

Section handlers.
Context `{Platform}.

Definition user_thread : Type := nat -> User -> request -> thread response.

(** The decorators (admin_views.py 11-25): [request.user] is loaded on
    its first use, by the decorator, from its own snapshot; the view's
    body reads later. *)
Definition login_required_t (v : user_thread) (req : request) : thread response :=
  TRead (fun db =>
    match session_user db req with
    | Some (pk, u) => v pk u req
    | None => TRet (Redirect "LOGIN_URL" None)
    end).

Definition admin_or_super_required_t (v : user_thread) : request -> thread response :=
  login_required_t (fun pk u req =>
    if bool_decide (role u ∈ [ROLE_ADMIN; ROLE_SUPERADMIN]) then v pk u req
    else TRet (Forbidden "Access denied")).

Definition superadmin_required_t (v : user_thread) : request -> thread response :=
  login_required_t (fun pk u req =>
    if decide (role u = ROLE_SUPERADMIN) then v pk u req
    else TRet (Forbidden "Access denied")).

(** A view that writes nothing answers from one snapshot. *)
Definition read_only_t (v : view) (req : request) : thread response := TRead (fun db => TRet (v db req).1).

(** The writes of a read phase of [Interleaving], one query each. *)
Definition write_query (w : write) : query :=
  match w with WSave pk t => QSaveTask pk t | WDelete pk => QDeleteTask pk end.

Fixpoint writes_t (ws : list write) (r : response) : thread response :=
  match ws with
  | [] => TRet r
  | w :: ws' => perform (write_query w) raise500 (fun _ => writes_t ws' r)
  end.

Definition phase_t (rw : response * list write) : thread response := writes_t rw.2 rw.1.

(** login_view (admin_views.py 62-77): [login()] is one query. *)
Definition login_view_t (req : request) : thread response :=
  TRead (fun db =>
  if is_post req then
    then_t (name <- get_or ServerError (post req !! "username"%string) ;;
            pw <- get_or ServerError (post req !! "password"%string) ;;
            get_or ServerError (authenticate db name pw)) (fun p =>
      if bool_decide (role p.2 ∈ [ROLE_ADMIN; ROLE_SUPERADMIN]) then
        perform (QLogin req p.1) raise500 (fun k => TRet (Redirect "dashboard" (Some k)))
      else TRet (Render "core/login.html" (CtxError "Invalid credentials or insufficient permissions")))
  else TRet (Render "core/login.html" CtxNone)).

(** logout_view (admin_views.py 80-83) *)
Definition logout_view_t : request -> thread response :=
  login_required_t (fun _ _ req => perform (QLogout req) raise500 (fun _ => TRet (Redirect "login" None))).

(** user_create (admin_views.py 102-116): the INSERT, then for a "user"
    the UPDATE of the instance the INSERT returned. *)
Definition user_create_t : request -> thread response :=
  superadmin_required_t (fun _ _ req => TRead (fun db =>
    if is_post req then
      match CustomUserCreationForm_clean db (post req) with
      | inr (f, pw) =>
          let u := mkUser (uf_username f) EmptyString (make_password pw) (uf_role f) (uf_admin f)
                     false false true 0 in
          perform (QInsertUser u) raise500 (fun r : nat * User =>
            if decide (uf_role f = ROLE_USER)
            then perform (QSaveUser r.1 (set_user_admin r.2 (uf_admin f))) raise500
                   (fun _ => TRet (Redirect "user_list" None))
            else TRet (Redirect "user_list" None))
      | inl errs => TRet (Render "core/user_form.html" (CtxForm true errs))
      end
    else TRet (Render "core/user_form.html" (CtxForm false [])))).

(** user_edit (admin_views.py 118-131): [form.save()], then for a "user"
    a second [save()]. *)
Definition user_edit_t (pk : nat) : request -> thread response :=
  superadmin_required_t (fun _ _ req => TRead (fun db =>
    then_t (get_or NotFound (users db !! pk)) (fun u =>
      if is_post req then
        match CustomUserChangeForm_clean db pk (post req) with
        | inr f =>
            let u1 := mkUser (uf_username f) (email u) (password u) (uf_role f) (uf_admin f)
                        (is_staff u) (is_superuser u) (is_active u) (date_joined u) in
            perform (QSaveUser pk u1) raise500 (fun _ =>
              if decide (uf_role f = ROLE_USER)
              then perform (QSaveUser pk (set_user_admin u1 (uf_admin f))) raise500
                     (fun _ => TRet (Redirect "user_list" None))
              else TRet (Redirect "user_list" None))
        | inl errs => TRet (Render "core/user_form.html" (CtxForm true errs))
        end
      else TRet (Render "core/user_form.html" (CtxForm false []))))).

(** user_delete (admin_views.py 133-139) *)
Definition user_delete_t (pk : nat) : request -> thread response :=
  superadmin_required_t (fun _ _ req => TRead (fun db =>
    then_t (get_or NotFound (users db !! pk)) (fun _ =>
      if is_post req then perform (QDeleteUser pk) raise500 (fun _ => TRet (Redirect "user_list" None))
      else TRet (Render "core/user_confirm_delete.html" (CtxUser pk))))).

(** task_create (admin_views.py 151-160) *)
Definition task_create_t : request -> thread response :=
  admin_or_super_required_t (fun uid u req => TRead (fun db =>
    if is_post req then
      match TaskForm_clean db uid u (post req) with
      | inr f => perform (QInsertTask (TaskForm_new f)) raise500 (fun _ => TRet (Redirect "task_list" None))
      | inl errs => TRet (Render "core/task_form.html" (CtxForm true errs))
      end
    else TRet (Render "core/task_form.html" (CtxForm false [])))).

(** task_edit and task_delete: their read phases, then their writes. *)
Definition task_edit_t (pk : nat) : request -> thread response :=
  admin_or_super_required_t (fun uid u req => TRead (fun db => phase_t (task_edit_phase pk uid u db req))).

Definition task_delete_t (pk : nat) : request -> thread response :=
  admin_or_super_required_t (fun uid u req => TRead (fun db => phase_t (task_delete_phase pk uid u db req))).

(** [APIView.dispatch] of TaskUpdate (api_views.py 27-45): the
    authentication reads the token's user, then [put] reads the task. *)
Definition TaskUpdate_view_t (pk : nat) (req : request) : thread response :=
  TRead (fun db =>
  then_t (p <- api_user db req ;;
          h <- get_or MethodNotAllowed (match method req with PUT => Some (TaskUpdate_put_phase pk) | _ => None end) ;;
          ret (p, h)) (fun ph =>
    TRead (fun db' => phase_t (ph.2 ph.1.1 ph.1.2 db' req)))).

Definition admin_urlpatterns_t (r : admin_route) : request -> thread response :=
  match r with
  | admin_login => login_view_t
  | admin_logout => logout_view_t
  | admin_dashboard => read_only_t dashboard
  | admin_user_list => read_only_t user_list
  | admin_user_create => user_create_t
  | admin_user_edit pk => user_edit_t pk
  | admin_user_delete pk => user_delete_t pk
  | admin_task_list => read_only_t task_list
  | admin_task_create => task_create_t
  | admin_task_edit pk => task_edit_t pk
  | admin_task_delete pk => task_delete_t pk
  | admin_task_detail pk => read_only_t (task_detail pk)
  end.

Definition api_urlpatterns_t (r : api_route) : request -> thread response :=
  match r with
  | api_task_list => read_only_t TaskList_view
  | api_task_update pk => TaskUpdate_view_t pk
  | api_task_report pk => read_only_t (TaskReport_view pk)
  end.

(** A request to a route of either table. *)
Definition route_thread (ep : endpoint) (req : request) : thread response :=
  match ep with
  | Admin r => admin_urlpatterns_t r req
  | ApiRoute r => api_urlpatterns_t r req
  end.

(** ** The threads of the commands *)

Definition then_c {B} (m : early CommandError B) (k : B -> thread (early CommandError unit))
    : thread (early CommandError unit) :=
  match m with inl e => TRet (inl e) | inr b => k b end.

(** [except Exception as e: raise CommandError(f'<prefix>{str(e)}')] *)
Definition command_fail (prefix : string) (e : db_error) : thread (early CommandError unit) :=
  TRet (inl (prefix +:+ e)).

(** createadminuser.handle: no SELECT, the INSERT of [create_user] and
    the UPDATE of [user.save()]. *)
Definition createadminuser_t (opts : Options) (stdin : Stdin) : thread (early CommandError unit) :=
  then_c (createadminuser_input opts stdin) (fun i =>
  then_c (reraise "Failed to create admin user: " (create_user_row i.1.1 i.1.2 i.2)) (fun u =>
  perform (QInsertUser u) (command_fail "Failed to create admin user: ") (fun r : nat * User =>
  perform (QSaveUser r.1 (admin_row r.2)) (command_fail "Failed to create admin user: ") (fun _ =>
  TRet (inr tt))))).

(** The second [try] block of createsuperadminuser.handle: it reads,
    then updates the role of the newest user. *)
Definition createsuperadminuser_promote_t : thread (early CommandError unit) :=
  TRead (fun db1 =>
  then_c (get_or "Could not set superadmin role: No user was created." (latest_joined (users db1))) (fun p =>
  if decide (role p.2 = ROLE_SUPERADMIN) then TRet (inr tt)
  else perform (QUpdateRole p.1 ROLE_SUPERADMIN)
         (command_fail "Could not set superadmin role: ") (fun _ => TRet (inr tt)))).

(** createsuperadminuser.handle: [createsuperuser] validates on one
    snapshot and inserts its row, if it builds one; then the second
    [try] block. *)
Definition createsuperadminuser_t (opts : Options) (stdin : Stdin) : thread (early CommandError unit) :=
  let args := createsuperadminuser_args opts in
  TRead (fun db =>
  then_c (reraise "Failed to create base user: "
            (createsuperuser_row db args.1 args.2 (superadmin_interactive opts) stdin)) (fun o =>
  match o with
  | Some u => perform (QInsertUser u) (command_fail "Failed to create base user: ")
                (fun _ => createsuperadminuser_promote_t)
  | None => createsuperadminuser_promote_t
  end)).

End handlers.

(** ** Events *)

(** What an event answers: a response, or the outcome of a command. *)
Inductive answer := AResponse (r : response) | ACommand (r : early CommandError unit).

Fixpoint thread_map {A B} (f : A -> B) (t : thread A) : thread B :=
  match t with
  | TRet a => TRet (f a)
  | TRead k => TRead (fun db => thread_map f (k db))
  | TQuery q k => TQuery q (fun r => thread_map f (k r))
  end.

Section events.
Context `{Platform}.

Definition event_thread (e : event) : thread answer :=
  match e with
  | Request ep req => thread_map AResponse (route_thread ep req)
  | CreateAdminUser opts stdin => thread_map ACommand (createadminuser_t opts stdin)
  | CreateSuperAdminUser opts stdin => thread_map ACommand (createsuperadminuser_t opts stdin)
  end.

(** The answer of the atomic event of [System]. *)
Definition event_answer (db : DB) (e : event) : answer :=
  match e with
  | Request ep req => AResponse (dispatch ep db req).1
  | CreateAdminUser opts stdin => ACommand (_ <- createadminuser db opts stdin ;; ret tt)
  | CreateSuperAdminUser opts stdin => ACommand (_ <- createsuperadminuser db opts stdin ;; ret tt)
  end.

End events.

(** ** Running a thread alone *)

Section alone_lemmas.
Context `{Platform}.

Lemma run_alone_map {A B} (f : A -> B) (t : thread A) (db : DB) :
  run_alone (thread_map f t) db = (f (run_alone t db).1, (run_alone t db).2).
Proof.
  revert db. induction t as [a|k IH|q k IH]; intros db; simpl; [done | apply IH |].
  destruct (exec db q) as [e|[r db']]; apply IH.
Qed.

Lemma login_required_t_alone (v : user_thread) (v' : user_view) (db : DB) (req : request) :
  (forall pk u, session_user db req = Some (pk, u) -> run_alone (v pk u req) db = v' pk u db req) ->
  run_alone (login_required_t v req) db = login_required v' db req.
Proof.
  intros Hv. unfold login_required_t, login_required. cbn [run_alone].
  destruct (session_user db req) as [[pk u]|]; auto.
Qed.

Lemma admin_or_super_required_t_alone (v : user_thread) (v' : user_view) (db : DB) (req : request) :
  (forall pk u, session_user db req = Some (pk, u) -> role u <> ROLE_USER ->
     run_alone (v pk u req) db = v' pk u db req) ->
  run_alone (admin_or_super_required_t v req) db = admin_or_super_required v' db req.
Proof.
  intros Hv. apply login_required_t_alone. intros pk u Hs.
  case_bool_decide as Hr; [|done]. apply Hv; [done|]. intros E. rewrite E in Hr.
  exact (bool_decide_eq_false_1 (ROLE_USER ∈ [ROLE_ADMIN; ROLE_SUPERADMIN]) eq_refl Hr).
Qed.

Lemma superadmin_required_t_alone (v : user_thread) (v' : user_view) (db : DB) (req : request) :
  (forall pk u, session_user db req = Some (pk, u) -> role u = ROLE_SUPERADMIN ->
     run_alone (v pk u req) db = v' pk u db req) ->
  run_alone (superadmin_required_t v req) db = superadmin_required v' db req.
Proof.
  intros Hv. apply login_required_t_alone. intros pk u Hs. case_decide; [by apply Hv | done].
Qed.

Lemma read_only_t_alone (v : view) (db : DB) (req : request) :
  keeps unchanged v -> run_alone (read_only_t v req) db = v db req.
Proof.
  intros Hv. specialize (Hv db req). simpl in *. destruct (v db req) as [r d]. simpl in *. by subst.
Qed.

(** The queries succeed when the constraints hold. *)
Lemma exec_save_task (db : DB) (pk : nat) (t : Task) :
  is_Some (users db !! assigned_to t) -> exec db (QSaveTask pk t) = inr (tt, task_save db pk t).
Proof. intros. unfold exec, task_fk_ok. by rewrite bool_decide_true. Qed.

Lemma exec_insert_task (db : DB) (t : Task) :
  is_Some (users db !! assigned_to t) -> exec db (QInsertTask t) = inr (task_insert db t).
Proof. intros. unfold exec, task_fk_ok. by rewrite bool_decide_true. Qed.

Lemma exec_save_user (db : DB) (pk : nat) (u : User) :
  name_free_except (users db) pk (username u) -> admin_ref_ok (users db) u ->
  exec db (QSaveUser pk u) = inr (tt, user_save db pk u).
Proof. intros. unfold exec, user_fk_ok. by rewrite !bool_decide_true. Qed.

Lemma exec_insert_user (db : DB) (u : User) :
  name_free (users db) (username u) -> admin_ref_ok (users db) u ->
  exec db (QInsertUser u) = inr ((next_user_pk db, joined_now db u), (user_insert db u).2).
Proof. intros. unfold exec, user_fk_ok. by rewrite !bool_decide_true. Qed.

(** An INSERT of a username some row has fails. *)
Lemma exec_insert_user_dup (db : DB) (u : User) :
  ~ name_free (users db) (username u) -> exec db (QInsertUser u) = inl UNIQUE_username.
Proof. intros. unfold exec. by rewrite bool_decide_false. Qed.

(** A write a handler may commit: a saved task's assignee exists. *)
Definition write_ok (us : gmap nat User) (w : write) : Prop :=
  match w with WSave _ t => is_Some (us !! assigned_to t) | WDelete _ => True end.

Lemma writes_t_alone (ws : list write) (r : response) (db : DB) :
  Forall (write_ok (users db)) ws -> run_alone (writes_t ws r) db = (r, commit_all db ws).
Proof.
  revert db. induction ws as [|w ws IH]; intros db Hok; [done|].
  apply Forall_cons in Hok as [Hw Hok].
  destruct w as [pk t|pk]; simpl in Hw; cbn [writes_t write_query]; [rewrite (run_alone_perform _ _ _ _ _ _ (exec_save_task _ _ _ Hw))|];
    apply IH; exact Hok.
Qed.

Lemma phase_t_alone (rw : response * list write) (db : DB) :
  Forall (write_ok (users db)) rw.2 -> run_alone (phase_t rw) db = atomically rw db.
Proof. apply writes_t_alone. Qed.

End alone_lemmas.

(** ** Every handler run alone is the handler of [Console] and [Api] *)

Section route_alone.
Context `{Platform}.

Lemma login_view_alone (db : DB) (req : request) : run_alone (login_view_t req) db = login_view db req.
Proof.
  unfold login_view_t, login_view. cbn [run_alone]. destruct (is_post req); [|done].
  destruct (post req !! "username"%string), (post req !! "password"%string); simpl; try done.
  destruct (authenticate db _ _) as [p|]; simpl; [|done]. by case_bool_decide.
Qed.

Lemma logout_view_alone (db : DB) (req : request) : run_alone (logout_view_t req) db = logout_view db req.
Proof. by apply login_required_t_alone. Qed.

Lemma user_create_alone (db : DB) (req : request) : run_alone (user_create_t req) db = user_create db req.
Proof.
  apply superadmin_required_t_alone. intros uid u _ _. cbn [run_alone]. destruct (is_post req); [|done].
  destruct (CustomUserCreationForm_clean db (post req)) as [errs|[f pw]] eqn:Hf; [done|].
  pose proof (fun w => CustomUserCreationForm_clean_admin _ _ _ _ w Hf) as Hadm.
  pose proof (CustomUserCreationForm_clean_username _ _ _ _ Hf) as Hn. cbv zeta.
  erewrite run_alone_perform by (apply exec_insert_user; [exact Hn | by apply Hadm]). cbn beta.
  case_decide; [|done].
  erewrite run_alone_perform; [done|]. apply exec_save_user.
  - apply name_free_except_insert, name_free_except_of_free, Hn.
  - apply admin_ref_ok_insert, Hadm. done.
Qed.

Lemma user_edit_alone (pk : nat) (db : DB) (req : request) :
  run_alone (user_edit_t pk req) db = user_edit pk db req.
Proof.
  apply superadmin_required_t_alone. intros uid u _ _. cbn [run_alone]. rewrite run_alone_then.
  destruct (users db !! pk) as [x|]; simpl; [|done]. destruct (is_post req); [|done].
  destruct (CustomUserChangeForm_clean db pk (post req)) as [errs|f] eqn:Hf; [done|].
  pose proof (fun w => CustomUserChangeForm_clean_admin _ _ _ _ w Hf) as Hadm.
  pose proof (CustomUserChangeForm_clean_username _ _ _ _ Hf) as Hn. cbv zeta.
  erewrite run_alone_perform by (apply exec_save_user; [exact Hn | by apply Hadm]). cbn beta.
  case_decide; [|done].
  erewrite run_alone_perform; [done|]. apply exec_save_user.
  - by apply name_free_except_insert.
  - apply admin_ref_ok_insert, Hadm. done.
Qed.

Lemma user_delete_alone (pk : nat) (db : DB) (req : request) :
  run_alone (user_delete_t pk req) db = user_delete pk db req.
Proof.
  apply superadmin_required_t_alone. intros uid u _ _. cbn [run_alone]. rewrite run_alone_then.
  destruct (users db !! pk); simpl; [|done]. by destruct (is_post req).
Qed.

Lemma task_create_alone (db : DB) (req : request) : run_alone (task_create_t req) db = task_create db req.
Proof.
  apply admin_or_super_required_t_alone. intros uid u _ _. cbn [run_alone]. destruct (is_post req); [|done].
  destruct (TaskForm_clean db uid u (post req)) as [errs|f] eqn:Hf; [done|].
  erewrite run_alone_perform; [done|]. apply exec_insert_task. by eapply TaskForm_clean_assignee_row.
Qed.

Lemma task_edit_alone (pk : nat) (db : DB) (req : request) :
  run_alone (task_edit_t pk req) db = task_edit pk db req.
Proof.
  apply admin_or_super_required_t_alone. intros uid u _ _. cbn [run_alone]. unfold task_edit_phase.
  destruct (tasks db !! pk) as [t|]; cbn -[phase_t]; [|done].
  destruct (owner_check db uid u t _) as [e|[]]; cbn -[phase_t]; [done|].
  destruct (is_post req); [|done].
  destruct (TaskForm_clean db uid u (post req)) as [|f] eqn:Hf; [done|].
  rewrite phase_t_alone; [done|]. repeat constructor. simpl. by eapply TaskForm_clean_assignee_row.
Qed.

Lemma task_delete_alone (pk : nat) (db : DB) (req : request) :
  run_alone (task_delete_t pk req) db = task_delete pk db req.
Proof.
  apply admin_or_super_required_t_alone. intros uid u _ _. cbn [run_alone]. unfold task_delete_phase.
  destruct (tasks db !! pk) as [t|]; cbn -[phase_t]; [|done].
  destruct (owner_check db uid u t _) as [e|[]]; cbn -[phase_t]; [done|].
  destruct (is_post req); [|done]. rewrite phase_t_alone; [done|]. repeat constructor.
Qed.

Lemma TaskUpdate_view_alone (pk : nat) (db : DB) (req : request) :
  db_wf db -> run_alone (TaskUpdate_view_t pk req) db = TaskUpdate_view pk db req.
Proof.
  intros Hdb. unfold TaskUpdate_view_t, TaskUpdate_view, APIView_dispatch. cbn [run_alone].
  rewrite run_alone_then. destruct (api_user db req) as [r|[uid u]]; simpl; [done|].
  destruct (method req); simpl; try done.
  rewrite phase_t_alone; [symmetry; apply TaskUpdate_put_atomic|].
  unfold TaskUpdate_put_phase. case_bool_decide; simpl; [|done].
  destruct (tasks db !! pk) as [t|] eqn:Ht; simpl; [|done]. case_decide; simpl; [|done].
  destruct (TaskUpdateSerializer_is_valid (data req)); simpl; [done|].
  destruct (completion_gate (data req)) as [|[]]; simpl; [done|].
  repeat constructor. simpl. destruct Hdb as (Hta & _). exact (Hta pk t Ht).
Qed.

Lemma route_alone (ep : endpoint) (req : request) (db : DB) :
  db_wf db -> run_alone (route_thread ep req) db = dispatch ep db req.
Proof.
  intros Hdb. destruct ep as [r|r]; destruct r;
    cbn [route_thread admin_urlpatterns_t api_urlpatterns_t dispatch admin_urlpatterns api_urlpatterns];
    auto using login_view_alone, logout_view_alone, user_create_alone, user_edit_alone, user_delete_alone,
      task_create_alone, task_edit_alone, task_delete_alone, TaskUpdate_view_alone;
    apply read_only_t_alone;
    auto using dashboard_ro, user_list_ro, task_list_ro, task_detail_ro, TaskList_view_ro, TaskReport_view_ro.
Qed.

End route_alone.

(** ** The commands run alone are the commands of [Commands] *)

Section command_alone.
Context `{Platform}.

Lemma username_taken_not_free (db : DB) (n : string) :
  username_taken db n = true -> ~ name_free (users db) n.
Proof.
  unfold username_taken. rewrite bool_decide_eq_true. intros (j & v & Hj & Hv) Hf.
  exact (Hf j v Hj Hv).
Qed.

Lemma createadminuser_alone (opts : Options) (stdin : Stdin) (db : DB) :
  run_alone (createadminuser_t opts stdin) db =
    (_ <- createadminuser db opts stdin ;; ret tt, command_result (createadminuser db opts stdin) db).
Proof.
  unfold createadminuser_t, createadminuser.
  destruct (createadminuser_input opts stdin) as [e|[[name mail] pw]]; cbn [then_c bind fst snd]; [done|].
  unfold create_user. destruct (create_user_row name mail pw) as [e|u0] eqn:Hrow; cbn [then_c bind reraise]; [done|].
  pose proof (create_user_row_inr _ _ _ _ Hrow) as Hu0.
  assert (Hadm : forall us, admin_ref_ok us u0) by (intros us; unfold admin_ref_ok; by rewrite Hu0).
  destruct (username_taken db (username u0)) eqn:Ht; cbn [negb check bind reraise].
  - by erewrite run_alone_perform_fail by (by apply exec_insert_user_dup, username_taken_not_free).
  - assert (Hn : name_free (users db) (username u0)) by (apply username_taken_free; by rewrite Ht).
    erewrite run_alone_perform by (by apply exec_insert_user). cbn beta.
    erewrite run_alone_perform; [done|]. apply exec_save_user.
    + simpl. apply name_free_except_insert, name_free_except_of_free, Hn.
    + unfold admin_ref_ok. simpl. by rewrite Hu0.
Qed.

Lemma createsuperadminuser_promote_alone (db : DB) :
  run_alone createsuperadminuser_promote_t db =
    (_ <- createsuperadminuser_promote db ;; ret tt, command_result (createsuperadminuser_promote db) db).
Proof.
  unfold createsuperadminuser_promote_t, createsuperadminuser_promote. cbn [run_alone].
  destruct (latest_joined _) as [[k x]|] eqn:Hl; cbn [then_c bind get_or fst snd]; [|done].
  apply latest_joined_lookup in Hl. case_decide; [done|].
  erewrite run_alone_perform; [done|]. unfold exec. by rewrite Hl.
Qed.

Lemma createsuperadminuser_alone (opts : Options) (stdin : Stdin) (db : DB) :
  db_wf db ->
  run_alone (createsuperadminuser_t opts stdin) db =
    (_ <- createsuperadminuser db opts stdin ;; ret tt, command_result (createsuperadminuser db opts stdin) db).
Proof.
  intros Hdb. unfold createsuperadminuser_t, createsuperadminuser, createsuperuser.
  cbn [run_alone].
  destruct (createsuperuser_row db _ _ _ stdin) as [e|o] eqn:Hrow; cbn [then_c bind reraise ret]; [done|].
  pose proof (createsuperuser_row_inr _ _ _ _ _ _ Hrow) as Ho.
  destruct o as [u|]; [|apply createsuperadminuser_promote_alone].
  destruct Ho as (_ & _ & Ha & _ & _ & _ & Hn).
  assert (Hadm : admin_ref_ok (users db) u) by (unfold admin_ref_ok; by rewrite Ha).
  erewrite run_alone_perform by (by apply exec_insert_user). rewrite createsuperadminuser_promote_alone.
  unfold createsuperadminuser_promote.
  destruct (latest_joined _) as [[k x]|] eqn:Hl; [simpl; by case_decide|].
  apply latest_joined_None in Hl. exfalso. simpl in Hl. by apply insert_non_empty in Hl.
Qed.

End command_alone.

(** ** Each event alone is its atomic event *)

Section thread_properties.
Context `{Platform}.

(** Every event of the program, run as a thread with no other
    thread between its queries, answers and writes exactly as the atomic
    event of [System] on a well-formed store: each request to a route of
    the two URL tables and each management command.  The constraints of
    the database never fail then: the handlers check on the same store
    what the constraints check (the forms' [validate_unique] and
    choices, [createsuperuser]'s username test), and a well-formed store
    has unique usernames and existing references. *)
Lemma event_thread_alone (e : event) (db : DB) :
  db_wf db -> run_alone (event_thread e) db = (event_answer db e, event_step db e).
Proof.
  intros Hdb. destruct e as [ep req|opts stdin|opts stdin]; cbn [event_thread event_answer event_step];
    rewrite run_alone_map.
  - by rewrite route_alone.
  - by rewrite createadminuser_alone.
  - by rewrite createsuperadminuser_alone.
Qed.

End thread_properties.

(** ** Every event takes at most four steps *)

(** [bounded n t]: [t] answers after at most [n] reads and queries,
    whatever they return. *)
Inductive bounded {A} : nat -> thread A -> Prop :=
  | bounded_ret (n : nat) (a : A) : bounded n (TRet a)
  | bounded_read (n : nat) (k : DB -> thread A) :
      (forall db, bounded n (k db)) -> bounded (S n) (TRead k)
  | bounded_query (n : nat) (q : query) (k : early db_error (query_result q) -> thread A) :
      (forall r, bounded n (k r)) -> bounded (S n) (TQuery q k).

Lemma bounded_mono {A} (n m : nat) (t : thread A) : bounded n t -> n <= m -> bounded m t.
Proof.
  intros Hb. revert m. induction Hb as [n a|n k _ IH|n q k _ IH]; intros m Hm; [constructor| |];
    destruct m as [|m]; [lia| |lia|]; constructor; intros; apply IH; lia.
Qed.

Lemma bounded_map {A B} (f : A -> B) (n : nat) (t : thread A) : bounded n t -> bounded n (thread_map f t).
Proof. induction 1; simpl; by constructor. Qed.

(** Run through the structure of a thread, spending one unit of the
    bound per read or query. *)
Ltac bounded_steps :=
  repeat first
    [ progress intros
    | apply bounded_ret
    | apply bounded_read
    | apply bounded_query
    | progress unfold perform, then_t, then_c, command_fail, raise500 in *
    | progress cbn [writes_t write_query fst snd]
    | case_match ].

Section bounded_events.
Context `{Platform}.

Lemma phase_writes_bounded (n : nat) (rw : response * list write) :
  length rw.2 <= n -> bounded n (phase_t rw).
Proof.
  destruct rw as [r ws]. simpl. revert n. induction ws as [|w ws IH]; intros n Hn; [constructor|].
  destruct n as [|n]; simpl in Hn; [lia|]. unfold phase_t. simpl. constructor.
  intros [e|x]; [constructor | apply IH; lia].
Qed.

(** Each read phase of [Interleaving] commits at most one write. *)
Lemma task_edit_phase_writes (pk uid : nat) (u : User) (db : DB) (req : request) :
  length (task_edit_phase pk uid u db req).2 <= 1.
Proof.
  unfold task_edit_phase. destruct (tasks db !! pk) as [t|]; simpl; [|lia].
  destruct (owner_check db uid u t _) as [|[]]; simpl; [lia|].
  destruct (is_post req); [destruct (TaskForm_clean db uid u (post req))|]; simpl; lia.
Qed.

Lemma task_delete_phase_writes (pk uid : nat) (u : User) (db : DB) (req : request) :
  length (task_delete_phase pk uid u db req).2 <= 1.
Proof.
  unfold task_delete_phase. destruct (tasks db !! pk) as [t|]; simpl; [|lia].
  destruct (owner_check db uid u t _) as [|[]]; simpl; [lia|]. destruct (is_post req); simpl; lia.
Qed.

Lemma TaskUpdate_put_phase_length (pk uid : nat) (u : User) (db : DB) (req : request) :
  length (TaskUpdate_put_phase pk uid u db req).2 <= 1.
Proof.
  unfold TaskUpdate_put_phase. case_bool_decide; simpl; [|lia].
  destruct (tasks db !! pk) as [t|]; simpl; [|lia]. case_decide; simpl; [|lia].
  destruct (TaskUpdateSerializer_is_valid (data req)); simpl; [lia|].
  destruct (completion_gate (data req)) as [|[]]; simpl; lia.
Qed.

Lemma TaskUpdate_view_bounded (pk : nat) (req : request) : bounded 4 (TaskUpdate_view_t pk req).
Proof.
  unfold TaskUpdate_view_t, then_t. apply bounded_read. intros db.
  destruct (api_user db req) as [r|p]; simpl; [apply bounded_ret|].
  destruct (method req); simpl; try apply bounded_ret.
  repeat constructor. intros db'. apply phase_writes_bounded.
  pose proof (TaskUpdate_put_phase_length pk p.1 p.2 db' req). lia.
Qed.

Lemma route_thread_bounded (ep : endpoint) (req : request) : bounded 4 (route_thread ep req).
Proof.
  destruct ep as [r|r]; destruct r; cbn [route_thread admin_urlpatterns_t api_urlpatterns_t];
    try apply TaskUpdate_view_bounded;
    unfold login_view_t, logout_view_t, user_create_t, user_edit_t, user_delete_t, task_create_t,
      task_edit_t, task_delete_t, read_only_t, admin_or_super_required_t,
      superadmin_required_t, login_required_t;
    bounded_steps; apply phase_writes_bounded;
    eauto using Nat.le_trans, task_edit_phase_writes, task_delete_phase_writes.
Qed.

Lemma createadminuser_bounded (opts : Options) (stdin : Stdin) : bounded 2 (createadminuser_t opts stdin).
Proof. unfold createadminuser_t. bounded_steps. Qed.

Lemma createsuperadminuser_bounded (opts : Options) (stdin : Stdin) :
  bounded 4 (createsuperadminuser_t opts stdin).
Proof. unfold createsuperadminuser_t. bounded_steps. Qed.

(** Every event, request or command, answers within four steps. *)
Lemma event_thread_bounded (e : event) : bounded 4 (event_thread e).
Proof.
  destruct e; apply bounded_map;
    eauto using route_thread_bounded, createsuperadminuser_bounded, bounded_mono, createadminuser_bounded.
Qed.

End bounded_events.

End Threads.
