(* ===== verification/Schedules.v ===== *)
(** * Schedules: requests and commands running at the same time

    A [config] is the store and the threads of the events in flight.  A
    step ([cstep]) lets one thread, any of them, take its snapshot or
    run its next query ([tstep]); the order in which the threads step is
    the schedule, chosen by the server and the database.

    - Running the events one after the other, each alone, is a schedule,
      and it ends in the store of [System.run] with the answers of the
      atomic events: the transition system of [System] is the serial
      part of this one ([serial_schedule_run]).
    - Races, on every well-formed store: a [user_create] whose admin is
      deleted between its two saves answers 500 after storing the user
      ([user_create_delete_admin_race]); two creations of the same
      username both validate and the second answers 500
      ([user_create_duplicate_username_race]).  They are proved by
      stepping the two threads by hand ([rtc2_read_l] and the like) or
      running one alone ([rtc_alone]).
    - Library facts of the model: every schedule is finite, with at most
      four steps per event, a configuration where no thread can step has
      every event answered ([schedules_terminate]), and the store keeps
      the constraints the database enforces
      ([schedules_keep_constraints]). *)

From S2P Require Import Prelude Models Http Fixtures Authz Api Forms Console Commands Urls System Interleaving Threads.
Import Models Http Fixtures Authz Api Forms Console Commands Urls System Interleaving Threads.

Module Schedules.

Local Open Scope view_scope.

(** ** One thread, one step *)

Section tstep.
Context `{Platform}.

(** The next step of a thread on the store: [None] once it has
    answered. *)
Definition tstep {A} (db : DB) (t : thread A) : option (thread A * DB) :=
  match t with
  | TRet _ => None
  | TRead k => Some (k db, db)
  | TQuery q k =>
      match exec db q with
      | inl e => Some (k (inl e), db)
      | inr (r, db') => Some (k (inr r), db')
      end
  end.

End tstep.

Definition answered {A} (t : thread A) : Prop := match t with TRet _ => True | _ => False end.

#[export] Instance answered_dec {A} (t : thread A) : Decision (answered t).
Proof. destruct t; simpl; apply _. Defined.

(** ** Configurations *)

Record config := mkConfig {
  cstore : DB;
  cthreads : list (thread answer)
}.

Section config_step.
Context `{Platform}.

Inductive cstep : config -> config -> Prop :=
  | cstep_thread (db db' : DB) (ts : list (thread answer)) (i : nat) (t t' : thread answer) :
      ts !! i = Some t -> tstep db t = Some (t', db') ->
      cstep (mkConfig db ts) (mkConfig db' (<[i := t']> ts)).

(** The serial schedule: each event runs alone, in order, on the store
    the previous one left; the answers it gives. *)
Fixpoint serial_answers (db : DB) (es : list event) : list answer :=
  match es with
  | [] => []
  | e :: es' => event_answer db e :: serial_answers (event_step db e) es'
  end.

End config_step.

(** ** Termination *)

(** [t'] is a continuation of [t]: what [t] becomes after one step. *)
Definition thread_lt {A} (t' t : thread A) : Prop :=
  match t with
  | TRet _ => False
  | TRead k => exists db, t' = k db
  | TQuery q k => exists r, t' = k r
  end.

Lemma thread_lt_wf {A} : well_founded (@thread_lt A).
Proof.
  intros t. induction t as [a|k IH|q k IH]; constructor; simpl; [done | |];
    intros t' [x ->]; apply IH.
Qed.

Lemma tstep_lt `{Platform} {A} (db db' : DB) (t t' : thread A) :
  tstep db t = Some (t', db') -> thread_lt t' t.
Proof.
  destruct t as [a|k|q k]; simpl; [done | intros [= <- _]; by eexists |].
  destruct (exec db q) as [e|[r d]]; intros [= <- _]; by eexists.
Qed.

(** One thread of a list replaced by a continuation. *)
Definition threads_lt {A} (ts' ts : list (thread A)) : Prop :=
  exists i t t', ts !! i = Some t /\ thread_lt t' t /\ ts' = <[i := t']> ts.

Lemma threads_lt_cons {A} (t : thread A) :
  Acc thread_lt t -> forall ts, Acc threads_lt ts -> Acc threads_lt (t :: ts).
Proof.
  induction 1 as [t _ IHt]. intros ts Hts. induction Hts as [ts Hacc IHts].
  constructor. intros ts' (i & x & x' & Hi & Hlt & ->). destruct i as [|i]; simpl in *.
  - injection Hi as ->. apply IHt; [done|]. by constructor.
  - apply IHts. by exists i, x, x'.
Qed.

Lemma threads_lt_wf {A} : well_founded (@threads_lt A).
Proof.
  intros ts. induction ts as [|t ts IH].
  - constructor. intros ts' (i & x & x' & Hi & _). by rewrite lookup_nil in Hi.
  - apply threads_lt_cons; [apply thread_lt_wf | exact IH].
Qed.

Section termination.
Context `{Platform}.

Lemma cstep_lt (c c' : config) : cstep c c' -> threads_lt (cthreads c') (cthreads c).
Proof. destruct 1 as [db db' ts i t t' Hi Ht]. exists i, t, t'. split_and!; [done | | done]. by eapply tstep_lt. Qed.

Lemma cstep_sn (c : config) : sn cstep c.
Proof.
  destruct c as [db ts]. revert db. induction (threads_lt_wf ts) as [ts _ IH]. intros db.
  constructor. intros [db' ts'] Hs. apply (IH ts'); [exact (cstep_lt _ _ Hs)].
Qed.

(** A thread that has not answered can step: [exec] always returns. *)
Lemma tstep_progress {A} (db : DB) (t : thread A) :
  ~ answered t -> exists t' db', tstep db t = Some (t', db').
Proof. destruct t as [a|k|q k]; simpl; [done | eauto |]. destruct (exec db q) as [e|[r d]]; eauto. Qed.

Lemma cstep_red (c : config) : ~ Forall answered (cthreads c) -> red cstep c.
Proof.
  destruct c as [db ts]. simpl. intros Hn. apply not_Forall_Exists in Hn; [|apply _].
  apply Exists_exists in Hn as (t & Ht & Hna). apply list_elem_of_lookup in Ht as [i Hi].
  destruct (tstep_progress db t Hna) as (t' & db' & Hs). eexists. by eapply cstep_thread.
Qed.

(** A configuration can step exactly while some thread has not
    answered. *)
Lemma cstep_nf (c : config) : nf cstep c <-> Forall answered (cthreads c).
Proof.
  split.
  - intros Hnf. destruct (decide (Forall answered (cthreads c))) as [|Hn]; [done|].
    by destruct (Hnf (cstep_red c Hn)).
  - destruct c as [db ts]. intros Hall [c' Hs]. inversion Hs as [db0 db' ts0 i t t' Hi Ht]; subst.
    apply (Forall_lookup_1 _ _ _ _ Hall) in Hi. by destruct t.
Qed.

#[export] Instance cstep_red_dec (c : config) : Decision (red cstep c).
Proof.
  destruct (decide (Forall answered (cthreads c))) as [Hall|Hn]; [right | left; by apply cstep_red].
  by apply cstep_nf.
Defined.

End termination.

(** ** The serial schedule *)

Section serial.
Context `{Platform}.

(** Thread [i] run to its answer with no other thread stepping. *)
Lemma rtc_alone (t : thread answer) (db : DB) (ts : list (thread answer)) (i : nat) :
  ts !! i = Some t ->
  rtc cstep (mkConfig db ts) (mkConfig (run_alone t db).2 (<[i := TRet (run_alone t db).1]> ts)).
Proof.
  revert db ts. induction t as [a|k IH|q k IH]; intros db ts Hi; simpl.
  - by rewrite list_insert_id.
  - eapply rtc_l; [by eapply (cstep_thread db db ts i (TRead k))|].
    rewrite <- (list_insert_insert_eq ts i (TRet _) (k db)). apply IH.
    apply list_lookup_insert_eq. by eapply lookup_lt_Some.
  - assert (Hlt : i < length ts) by (by eapply lookup_lt_Some).
    destruct (exec db q) as [e|[r db']] eqn:E;
      (eapply rtc_l; [eapply (cstep_thread _ _ ts i (TQuery q k)); [done | simpl; by rewrite E] |]).
    + rewrite <- (list_insert_insert_eq ts i (TRet _) (k (inl e))). by apply IH, list_lookup_insert_eq.
    + rewrite <- (list_insert_insert_eq ts i (TRet _) (k (inr r))). by apply IH, list_lookup_insert_eq.
Qed.

Lemma serial_rtc (pre : list answer) (db : DB) (es : list event) :
  db_wf db ->
  rtc cstep (mkConfig db ((TRet <$> pre) ++ (event_thread <$> es)))
            (mkConfig (run db es) ((TRet <$> pre) ++ (TRet <$> serial_answers db es))).
Proof.
  revert pre db. induction es as [|e es IH]; intros pre db Hdb; [done|].
  assert (Hlen : length (TRet (A:=answer) <$> pre) = length pre) by apply length_fmap.
  eapply rtc_trans.
  - apply (rtc_alone (event_thread e) db _ (length pre)).
    rewrite lookup_app_r by lia. by rewrite Hlen, Nat.sub_diag.
  - rewrite event_thread_alone by done. simpl.
    rewrite insert_app_r_alt by lia. rewrite Hlen, Nat.sub_diag. simpl.
    specialize (IH (pre ++ [event_answer db e]) (event_step db e)).
    rewrite fmap_app, <- !app_assoc in IH. simpl in IH. apply IH.
    exact (rtc_step_wf _ _ (event_step_rtc db e) Hdb).
Qed.

End serial.

(** ** The constraints hold under every schedule *)

Section constraints.
Context `{Platform}.

Lemma exec_constraints (db db' : DB) (q : query) (r : query_result q) :
  db_constraints db -> exec db q = inr (r, db') -> db_constraints db'.
Proof.
  intros (Ht & Ha & Hun). destruct q as [pk t|t|pk|pk u|pk rl|u|pk|req pk|req]; simpl; intros E; unfold ret in E.
  - unfold task_fk_ok in E. case_bool_decide; simplify_eq/=.
    split_and!; [by apply map_Forall_insert_2 | done | done].
  - unfold task_fk_ok, task_insert in E. case_bool_decide; simplify_eq/=.
    split_and!; [by apply map_Forall_insert_2 | done | done].
  - simplify_eq/=. split_and!; [by apply map_Forall_delete | done | done].
  - unfold user_fk_ok in E. do 2 case_bool_decide; simplify_eq/=. split_and!.
    + intros k t Hk. apply is_Some_insert. by eapply Ht.
    + apply map_Forall_insert_2; [by apply admin_ref_ok_insert|].
      intros k v Hk. apply admin_ref_ok_insert. by eapply Ha.
    + by apply field_unique_insert.
  - destruct (users db !! pk) as [x|] eqn:Hx; simplify_eq/=. split_and!.
    + intros k t Hk. apply is_Some_insert. by eapply Ht.
    + apply map_Forall_insert_2; [apply admin_ref_ok_insert; exact (Ha pk x Hx)|].
      intros k v Hk. apply admin_ref_ok_insert. by eapply Ha.
    + apply field_unique_insert; [done|]. exact (name_free_except_unique _ _ x Hun Hx).
  - unfold user_fk_ok in E. do 2 case_bool_decide; simplify_eq/=. split_and!.
    + intros k t Hk. apply is_Some_insert. by eapply Ht.
    + apply map_Forall_insert_2; [unfold admin_ref_ok in *; simpl; by apply admin_ref_ok_insert|].
      intros k v Hk. apply admin_ref_ok_insert. by eapply Ha.
    + apply field_unique_insert; [done|]. by apply name_free_except_of_free.
  - simplify_eq/=. by apply User_delete_constraints.
  - unfold auth_login in E. by simplify_eq/=.
  - simplify_eq/=. unfold auth_logout. by destruct (cookie req).
Qed.

Lemma cstep_constraints (c c' : config) : cstep c c' -> db_constraints (cstore c) -> db_constraints (cstore c').
Proof.
  destruct 1 as [db db' ts i t t' Hi Ht]. simpl. destruct t as [a|k|q k]; simpl in Ht; [done | by simplify_eq|].
  destruct (exec db q) as [e|[r d]] eqn:E; injection Ht as <- <-; [done|]. intros Hc. by eapply exec_constraints.
Qed.

End constraints.

(** ** Executable schedules *)

Section run_schedule.
Context `{Platform}.

(** A schedule as the list of the threads that step, in order; a thread
    that has answered, or is not there, does not step. *)
Definition schedule_step (c : config) (i : nat) : config :=
  match cthreads c !! i with
  | Some t =>
      match tstep (cstore c) t with
      | Some (t', db') => mkConfig db' (<[i := t']> (cthreads c))
      | None => c
      end
  | None => c
  end.

Definition run_schedule (c : config) (sched : list nat) : config := foldl schedule_step c sched.

Lemma run_schedule_rtc (c : config) (sched : list nat) : rtc cstep c (run_schedule c sched).
Proof.
  revert c. induction sched as [|i sched IH]; intros c; [done|]. simpl.
  etrans; [|apply IH]. unfold schedule_step. destruct c as [db ts]. simpl.
  destruct (ts !! i) as [t|] eqn:Hi; [|done].
  destruct (tstep db t) as [[t' db']|] eqn:Ht; [|done].
  apply rtc_once. by eapply cstep_thread.
Qed.

End run_schedule.

(** ** How long a schedule is *)

Section step_bound.
Context `{Platform}.

Lemma bounded_tstep {A} (n : nat) (t t' : thread A) (db db' : DB) :
  bounded n t -> tstep db t = Some (t', db') -> exists m, n = S m /\ bounded m t'.
Proof.
  destruct 1 as [n a|n k Hk|n q k Hk]; simpl; [done| |]; intros E.
  - simplify_eq. eauto.
  - destruct (exec db q) as [e|[r db1]]; simplify_eq; eauto.
Qed.

Lemma sum_list_insert_pred (ns : list nat) (i m : nat) :
  ns !! i = Some (S m) -> S (sum_list (<[i := m]> ns)) = sum_list ns.
Proof.
  revert i. induction ns as [|n ns IH]; intros [|i] Hi; simplify_eq/=; [lia|]. rewrite <- (IH i Hi). lia.
Qed.

(** A schedule of threads bounded by [ns] has at most [sum_list ns]
    steps. *)
Lemma nsteps_bounded (m : nat) (db : DB) (ts : list (thread answer)) (ns : list nat) (c' : config) :
  Forall2 bounded ns ts -> nsteps cstep m (mkConfig db ts) c' -> m <= sum_list ns.
Proof.
  revert db ts ns. induction m as [|m IH]; intros db ts ns Hb Hs; [lia|].
  inversion Hs as [|? c1 ? ? Hstep Hrest]; subst.
  inversion Hstep as [? db1 ? i t t' Hi Ht]; subst.
  destruct (Forall2_lookup_r _ _ _ _ _ Hb Hi) as (n & Hn & Hbt).
  destruct (bounded_tstep n t t' db db1 Hbt Ht) as (k & -> & Hk).
  rewrite <- (sum_list_insert_pred ns i k Hn).
  enough (m <= sum_list (<[i := k]> ns)) by lia.
  eapply IH; [|exact Hrest]. by apply Forall2_insert.
Qed.

Lemma events_bounded (es : list event) : Forall2 bounded (replicate (length es) 4) (event_thread <$> es).
Proof.
  apply Forall2_fmap_r. induction es; constructor; [apply event_thread_bounded | done].
Qed.

End step_bound.

(** ** Two threads, step by step *)

Section two_threads.
Context `{Platform}.

Lemma rtc2_read_l (db : DB) (k : DB -> thread answer) (t1 : thread answer) (c : config) :
  rtc cstep (mkConfig db [k db; t1]) c -> rtc cstep (mkConfig db [TRead k; t1]) c.
Proof. apply rtc_l. by apply (cstep_thread db db [TRead k; t1] 0 (TRead k) (k db)). Qed.

Lemma rtc2_read_r (db : DB) (k : DB -> thread answer) (t0 : thread answer) (c : config) :
  rtc cstep (mkConfig db [t0; k db]) c -> rtc cstep (mkConfig db [t0; TRead k]) c.
Proof. apply rtc_l. by apply (cstep_thread db db [t0; TRead k] 1 (TRead k) (k db)). Qed.

Lemma rtc2_query_l (db db' : DB) (q : query) k (t1 : thread answer) (r : early db_error (query_result q)) (c : config) :
  exec db q = (match r with inl e => inl e | inr x => inr (x, db') end) ->
  rtc cstep (mkConfig (match r with inl _ => db | inr _ => db' end) [k r; t1]) c -> rtc cstep (mkConfig db [TQuery q k; t1]) c.
Proof.
  intros E. apply rtc_l. destruct r as [e|x];
    [apply (cstep_thread db db [TQuery q k; t1] 0 (TQuery q k) (k (inl e)))
    |apply (cstep_thread db db' [TQuery q k; t1] 0 (TQuery q k) (k (inr x)))]; simpl; by rewrite ?E.
Qed.

Lemma rtc2_query_r (db db' : DB) (q : query) k (t0 : thread answer) (r : early db_error (query_result q)) (c : config) :
  exec db q = (match r with inl e => inl e | inr x => inr (x, db') end) ->
  rtc cstep (mkConfig (match r with inl _ => db | inr _ => db' end) [t0; k r]) c -> rtc cstep (mkConfig db [t0; TQuery q k]) c.
Proof.
  intros E. apply rtc_l. destruct r as [e|x];
    [apply (cstep_thread db db [t0; TQuery q k] 1 (TQuery q k) (k (inl e)))
    |apply (cstep_thread db db' [t0; TQuery q k] 1 (TQuery q k) (k (inr x)))]; simpl; by rewrite ?E.
Qed.

Lemma session_user_insert (db : DB) (u : User) (req : request) (s : nat) (su : User) :
  db_wf db -> session_user db req = Some (s, su) -> session_user (user_insert db u).2 req = Some (s, su).
Proof.
  intros (_ & _ & Hk & _) Hs. apply (session_user_same db); [done | | done]. simpl.
  destruct (session_user_Some _ _ _ _ Hs) as (_ & _ & _ & Hu & _).
  pose proof (Hk s su Hu) as Hlt. simpl in Hlt. rewrite lookup_insert_ne; [done | lia].
Qed.

Lemma exec_save_user_fk (db : DB) (pk a : nat) (u : User) :
  admin u = Some a -> users db !! a = None -> exists e, exec db (QSaveUser pk u) = inl e.
Proof.
  intros Ha Hn. unfold exec, user_fk_ok.
  case_bool_decide; simpl; [|eauto]. rewrite bool_decide_false; [simpl; eauto|].
  unfold admin_ref_ok. rewrite Ha, Hn. by intros [].
Qed.

(** A valid [user_create] POST of a superadmin redirects and stores the
    new user, named by the form, at the next pk. *)
Lemma user_create_ok (db : DB) (req : request) (s : nat) (su : User) (f : UserFormData) (pw : string) :
  session_user db req = Some (s, su) -> role su = ROLE_SUPERADMIN -> is_post req = true ->
  CustomUserCreationForm_clean db (post req) = inr (f, pw) ->
  (user_create db req).1 = Redirect "user_list" None /\
  (exists v, users (user_create db req).2 !! next_user_pk db = Some v /\ username v = uf_username f) /\
  sessions (user_create db req).2 = sessions db /\
  forall k, k <> next_user_pk db -> users (user_create db req).2 !! k = users db !! k.
Proof.
  intros Hs Hr Hp Hf. unfold user_create, superadmin_required, login_required.
  rewrite Hs, decide_True, Hp, Hf by done. simpl. split_and!; [done | | by case_decide |].
  - case_decide; simpl; rewrite ?lookup_insert_eq; eauto.
  - intros k Hk. case_decide; simpl; by rewrite ?lookup_insert_ne.
Qed.

End two_threads.

(** ** Properties *)

Section schedule_properties.
Context `{Platform}.

(** C32: the transition system of [System] is the serial part of the
    concurrent one.  From a well-formed store, running the threads of a
    list of events one after the other, each to its answer before the
    next starts, is a schedule, and it ends in the store [System.run]
    reaches with every event answered as its atomic handler answers. *)
Theorem serial_schedule_run (db : DB) (es : list event) :
  db_wf db ->
  rtc cstep (mkConfig db (event_thread <$> es)) (mkConfig (run db es) (TRet <$> serial_answers db es)).
Proof. intros Hdb. exact (serial_rtc [] db es Hdb). Qed.

(** Whatever the schedule, the store keeps the constraints of the
    database: each query either meets them or fails. *)
Theorem schedules_keep_constraints (c c' : config) :
  rtc cstep c c' -> db_constraints (cstore c) -> db_constraints (cstore c').
Proof. induction 1 as [|c1 c2 c3 H12 _ IH]; [done|]. intros Hc. by eapply IH, cstep_constraints. Qed.

(** Every schedule of the threads of [n] requests and commands is
    finite and has at most [4 n] steps; a configuration it reaches where
    no thread can step is one where every event has its answer, and some
    schedule reaches one. *)
Theorem schedules_terminate (db : DB) (es : list event) :
  let c := mkConfig db (event_thread <$> es) in
  sn cstep c /\
  (forall m c', nsteps cstep m c c' -> m <= 4 * length es) /\
  (forall c', rtc cstep c c' -> nf cstep c' <-> Forall answered (cthreads c')) /\
  exists c', rtc cstep c c' /\ Forall answered (cthreads c').
Proof.
  intros c. split_and!; [apply cstep_sn | | intros c' _; apply cstep_nf |].
  - intros m c' Hs. rewrite Nat.mul_comm, <- (sum_list_replicate 4 (length es)).
    exact (nsteps_bounded m db _ _ c' (events_bounded es) Hs).
  - destruct (sn_wn (R:=cstep) c (cstep_sn c)) as (c' & Hr & Hnf). exists c'. split; [done|]. by apply cstep_nf.
Qed.

(** C23 (finding): a request can fail after it has written.  From any
    well-formed store, let a superadmin POST a valid [user_create] of a
    "user" managed by admin [a] while a superadmin (the same or another)
    POSTs the deletion of [a].  If the delete commits between the two
    saves of [user_create], the INSERT of the new user has committed,
    the deletion of [a] has nulled its admin (SET_NULL), and the second
    [save()] names the deleted [a], which the FOREIGN KEY constraint
    refuses: the create answers 500, the delete redirects, and the new
    user stays stored, without an admin.  Alone, the same create answers
    a redirect. *)
Theorem user_create_delete_admin_race (db : DB) (reqc reqd : request) (s s' : nat) (su su' : User) (f : UserFormData) (pw : string) (a : nat) :
  db_wf db ->
  session_user db reqc = Some (s, su) -> role su = ROLE_SUPERADMIN -> is_post reqc = true ->
  CustomUserCreationForm_clean db (post reqc) = inr (f, pw) -> uf_role f = ROLE_USER -> uf_admin f = Some a ->
  session_user db reqd = Some (s', su') -> role su' = ROLE_SUPERADMIN -> is_post reqd = true ->
  let u := mkUser (uf_username f) EmptyString (make_password pw) ROLE_USER (Some a) false false true 0 in
  let db' := User_delete (user_insert db u).2 a in
  rtc cstep (mkConfig db [event_thread (Request (Admin admin_user_create) reqc);
                          event_thread (Request (Admin (admin_user_delete a)) reqd)])
            (mkConfig db' [TRet (AResponse ServerError); TRet (AResponse (Redirect "user_list" None))]) /\
  (exists v, users db' !! next_user_pk db = Some v /\ username v = uf_username f /\ admin v = None) /\
  (user_create db reqc).1 = Redirect "user_list" None.
Proof.
  intros Hwf Hsc Hrc Hpc Hf Hr Ha Hsd Hrd Hpd u db'.
  assert (Hn : name_free (users db) (username u)) by exact (CustomUserCreationForm_clean_username _ _ _ _ Hf).
  assert (Hau : admin_ref_ok (users db) u) by (apply (CustomUserCreationForm_clean_admin db (post reqc) f pw u Hf); simpl; by rewrite Ha).
  assert (Hai : is_Some (users db !! a)) by (unfold admin_ref_ok in Hau; simpl in Hau; done).
  destruct Hai as [x Hx].
  assert (Ha' : a <> next_user_pk db) by (pose proof (proj1 (proj2 (proj2 Hwf)) a x Hx) as Hlt; simpl in Hlt; lia).
  split_and!.
  - cbn [event_thread route_thread admin_urlpatterns_t]. unfold user_create_t, user_delete_t, superadmin_required_t, login_required_t.
    cbn [thread_map].
    apply rtc2_read_l. rewrite Hsc. cbn beta iota. rewrite decide_True by done. cbn [thread_map].
    apply rtc2_read_l. rewrite Hpc, Hf. cbn beta iota zeta. rewrite Hr, Ha. fold u.
    unfold perform. cbn [thread_map].
    eapply (rtc2_query_l db (user_insert db u).2 (QInsertUser u) _ _
              (inr ((next_user_pk db, joined_now db u) : query_result (QInsertUser u))));
      [by apply exec_insert_user|]. cbn beta iota. rewrite decide_True by done. cbn [thread_map].
    apply rtc2_read_r. rewrite (session_user_insert db u reqd s' su' Hwf Hsd). cbn beta iota.
    rewrite decide_True by done. cbn [thread_map].
    apply rtc2_read_r.
    change (users (user_insert db u).2) with (<[next_user_pk db := joined_now db u]> (users db)).
    rewrite (lookup_insert_ne _ _ _ _ (not_eq_sym Ha')), Hx. cbn [get_or then_t]. rewrite Hpd. cbn [thread_map].
    eapply (rtc2_query_r _ db' (QDeleteUser a) _ _ (inr (tt : query_result (QDeleteUser a)))); [reflexivity|].
    cbn [thread_map raise500].
    destruct (exec_save_user_fk db' (next_user_pk db) a (set_user_admin (joined_now db u) (Some a)) eq_refl)
      as [e He]; [unfold db'; rewrite User_delete_lookup; by rewrite decide_True|].
    eapply (rtc2_query_l db' db' _ _ _ (inl e)); [exact He|]. cbn [thread_map raise500]. apply rtc_refl.
  - unfold db'. rewrite User_delete_lookup, decide_False by lia.
    change (users (user_insert db u).2) with (<[next_user_pk db := joined_now db u]> (users db)).
    rewrite lookup_insert_eq. eexists. split; [reflexivity|]. unfold clear_admin. simpl.
    rewrite decide_True by done. by split.
  - unfold user_create, superadmin_required, login_required. rewrite Hsc, decide_True, Hpc, Hf by done. done.
Qed.
(** C29 (finding): two superadmins create users with the same username
    at the same time.  From any well-formed store, when both forms have
    validated on their snapshots before either INSERT, the second INSERT
    breaks the UNIQUE constraint of [username] and its request answers
    500, while the first redirects; run one after the other, the second
    request gets its form back with an error on the username field and
    nothing is written. *)
Theorem user_create_duplicate_username_race (db : DB) (req1 req2 : request) (s1 s2 : nat) (su1 su2 : User)
    (f1 f2 : UserFormData) (pw1 pw2 : string) :
  db_wf db ->
  session_user db req1 = Some (s1, su1) -> role su1 = ROLE_SUPERADMIN -> is_post req1 = true ->
  CustomUserCreationForm_clean db (post req1) = inr (f1, pw1) ->
  session_user db req2 = Some (s2, su2) -> role su2 = ROLE_SUPERADMIN -> is_post req2 = true ->
  CustomUserCreationForm_clean db (post req2) = inr (f2, pw2) -> uf_username f2 = uf_username f1 ->
  let db1 := (user_create db req1).2 in
  rtc cstep (mkConfig db [event_thread (Request (Admin admin_user_create) req1);
                          event_thread (Request (Admin admin_user_create) req2)])
            (mkConfig db1 [TRet (AResponse (Redirect "user_list" None)); TRet (AResponse ServerError)]) /\
  exists errs, user_create db1 req2 = (Render "core/user_form.html" (CtxForm true errs), db1) /\
    "username"%string ∈ errs.
Proof.
  intros Hwf Hs1 Hr1 Hp1 Hf1 Hs2 Hr2 Hp2 Hf2 Hname db1.
  destruct (user_create_ok db req1 s1 su1 f1 pw1 Hs1 Hr1 Hp1 Hf1) as (Hans & (v & Hv & Hvn) & Hss & Hus).
  assert (Htaken : ~ name_free (users db1) (uf_username f2)).
  { intros Hfree. exact (Hfree _ v Hv (eq_trans Hvn (eq_sym Hname))). }
  split.
  - cbn [event_thread route_thread admin_urlpatterns_t].
    set (T1 := thread_map AResponse (user_create_t req1)).
    unfold user_create_t, superadmin_required_t, login_required_t. cbn [thread_map].
    apply rtc2_read_r. rewrite Hs2. cbn beta iota. rewrite decide_True by done. cbn [thread_map].
    apply rtc2_read_r. rewrite Hp2, Hf2. cbn beta iota zeta. unfold perform. cbn [thread_map].
    eapply rtc_trans.
    { apply (rtc_alone T1 db _ 0). reflexivity. }
    assert (E : run_alone T1 db = (AResponse (Redirect "user_list" None), db1)).
    { unfold T1. rewrite run_alone_map, user_create_alone, Hans. reflexivity. }
    rewrite E. cbn [fst snd].
    eapply (rtc2_query_r db1 db1 _ _ _ (inl UNIQUE_username)); [by apply exec_insert_user_dup|].
    apply rtc_refl.
  - destruct (CustomUserCreationForm_clean_taken db db1 (post req2) f2 pw2 Hf2 Htaken) as (errs & He & Hin).
    exists errs. split; [|done].
    assert (Hs2' : session_user db1 req2 = Some (s2, su2)).
    { apply (session_user_same db); [done | | done]. apply Hus.
      destruct (session_user_Some _ _ _ _ Hs2) as (_ & _ & _ & Hu & _).
      destruct Hwf as (_ & _ & Hk & _). pose proof (Hk s2 su2 Hu) as Hlt. simpl in Hlt. lia. }
    unfold user_create at 1, superadmin_required, login_required. rewrite Hs2', decide_True, Hp2, He by done. done.
Qed.
End schedule_properties.

(** ** A schedule of the program *)

Section schedule_witnesses.
#[local] Existing Instance test_platform.

(** The superadmin (session 10) creates a "user" N managed by admin A
    (pk 2) while, in another request, it deletes A. *)
Definition race_create : request :=
  console_req (Some 10) POST (list_to_map [("username", "N"); ("role", "user"); ("admin", "2");
                                           ("password1", "userpass1"); ("password2", "userpass1")]%string).

Definition race_admin_delete : request := console_req (Some 10) POST ∅.

Definition race_config : config :=
  mkConfig sample_db [event_thread (Request (Admin admin_user_create) race_create);
                      event_thread (Request (Admin (admin_user_delete 2)) race_admin_delete)].

(** The create reads its session and its form, commits the INSERT of
    N; then the delete reads and commits; then the create's second
    save runs. *)
Definition race_schedule : list nat := [0; 0; 0; 1; 1; 1; 0].

(** In the schedule the create runs alone to its first query, then the
    delete, then the create's second save: the create answers 500 and N
    stays stored; in either serial order there is no error (the create
    answers a redirect, or the form refuses the deleted admin). *)
Lemma race_schedule_orders :
  let c := run_schedule race_config race_schedule in
  cthreads c = [TRet (AResponse ServerError); TRet (AResponse (Redirect "user_list" None))] /\
  (fun u => (username u, admin u)) <$> users (cstore c) !! 6 = Some ("N"%string, None) /\
  cthreads (run_schedule race_config [0; 0; 0; 0; 1; 1; 1]) =
    [TRet (AResponse (Redirect "user_list" None)); TRet (AResponse (Redirect "user_list" None))] /\
  (serial_answers sample_db [Request (Admin (admin_user_delete 2)) race_admin_delete;
                             Request (Admin admin_user_create) race_create]) !! 1 =
    Some (AResponse (Render "core/user_form.html" (CtxForm true ["admin"%string]))).
Proof. vm_compute. split_and!; reflexivity. Qed.

Lemma user_create_delete_admin_race_witness :
  exists c', rtc cstep race_config c' /\
    cthreads c' = [TRet (AResponse ServerError); TRet (AResponse (Redirect "user_list" None))].
Proof.
  assert (Hwf : db_wf sample_db) by (apply (bool_decide_unpack _); vm_compute; reflexivity).
  destruct (CustomUserCreationForm_clean sample_db (post race_create)) as [errs|[f pw]] eqn:Hf;
    [vm_compute in Hf; discriminate|].
  assert (Hr : uf_role f = ROLE_USER) by (vm_compute in Hf; by injection Hf as <- _).
  assert (Ha : uf_admin f = Some 2) by (vm_compute in Hf; by injection Hf as <- _).
  destruct (user_create_delete_admin_race sample_db race_create race_admin_delete 1 1 root root f pw 2
              Hwf eq_refl eq_refl eq_refl Hf Hr Ha eq_refl eq_refl eq_refl) as [Hrtc _].
  eexists. split; [exact Hrtc | reflexivity].
Defined.

(** A second create of "N", as an admin, racing with [race_create]. *)
Definition dup_create : request :=
  console_req (Some 10) POST (list_to_map [("username", "N"); ("role", "admin"); ("admin", "");
                                           ("password1", "userpass2"); ("password2", "userpass2")]%string).

Lemma user_create_duplicate_username_race_witness :
  exists c', rtc cstep (mkConfig sample_db [event_thread (Request (Admin admin_user_create) race_create);
                                            event_thread (Request (Admin admin_user_create) dup_create)]) c' /\
    cthreads c' = [TRet (AResponse (Redirect "user_list" None)); TRet (AResponse ServerError)].
Proof.
  assert (Hwf : db_wf sample_db) by (apply (bool_decide_unpack _); vm_compute; reflexivity).
  destruct (CustomUserCreationForm_clean sample_db (post race_create)) as [errs|[f1 pw1]] eqn:Hf1;
    [vm_compute in Hf1; discriminate|].
  destruct (CustomUserCreationForm_clean sample_db (post dup_create)) as [errs|[f2 pw2]] eqn:Hf2;
    [vm_compute in Hf2; discriminate|].
  assert (Hn : uf_username f2 = uf_username f1) by (vm_compute in Hf1, Hf2; by injection Hf1 as <- _; injection Hf2 as <- _).
  destruct (user_create_duplicate_username_race sample_db race_create dup_create 1 1 root root f1 f2 pw1 pw2
              Hwf eq_refl eq_refl eq_refl Hf1 eq_refl eq_refl eq_refl Hf2 Hn) as [Hrtc _].
  eexists. split; [exact Hrtc | reflexivity].
Defined.

Lemma serial_schedule_run_witness :
  db_wf empty_db /\
  rtc cstep (mkConfig empty_db (event_thread <$> demo_run))
            (mkConfig (run empty_db demo_run) (TRet <$> serial_answers empty_db demo_run)).
Proof.
  assert (Hwf : db_wf empty_db) by (apply (bool_decide_unpack _); vm_compute; reflexivity).
  split; [exact Hwf | exact (serial_schedule_run empty_db demo_run Hwf)].
Defined.

End schedule_witnesses.

End Schedules.
